(** * Document ingestion and flow orchestration of the recruitment backend

    A shallow embedding of
      - [app/utils/langflow_utils.py]      (skill response parser),
      - [app/utils/document_utils.py]      (text extractor),
      - [app/services/langflow_client.py]  (flow orchestration client),
      - [app/repositories/job_offer_skill.py] (bulk creation of skills),
      - [app/api/routers/job_offers.py]    (the job-offer creation pipeline),
    followed by the properties of the specification that concern them.
    The rest of these files comes after, with
      - [app/services/storage.py]          (upload of a document),
      - [app/repositories/job_offer.py]    (update of the storage address),
    followed by further properties of the code.

    Python values are modelled as follows.  A [str] is the list of its code
    points; [bytes] is a list of [Byte.byte]; a [dict] read by key only is a
    [gmap]; a [dict] produced by the JSON decoder keeps its insertion order
    and is an association list with unique keys; exceptions are the members
    of one inductive type and a raising function returns [raise e]. *)

From Stdlib Require Import ZArith NArith QArith List Ascii String Lia ZifyNat Bool DecimalString.
From Stdlib.Strings Require Import Byte.
From stdpp Require Import gmap.

Import ListNotations.
Local Open Scope N_scope.

(** ** Python strings *)

Module PyStr.

(** A Python [str]: a sequence of Unicode code points. *)
Definition pystr : Type := list N.

(** The [str] written as an ASCII literal. *)
Definition py (s : string) : pystr := map N_of_ascii (list_ascii_of_string s).

Definition is_char (a : ascii) (c : N) : bool := c =? N_of_ascii a.

(** The double quote, and the [str] written as an ASCII literal in which
    the apostrophe stands for the double quote: [pyq "{'a': 1}"] is the
    text of a JSON object. *)
Definition dquote : N := 34.
Definition is_dquote (c : N) : bool := c =? dquote.
Definition pyq (s : string) : pystr :=
  map (fun c => if c =? 39 then dquote else c) (py s).

(** [str.isspace] of one character, which is also what [\s] matches in a
    [str] pattern of [re]. *)
Definition isspace (c : N) : bool :=
  ((9 <=? c) && (c <=? 13)) || ((28 <=? c) && (c <=? 32))
  || (c =? 133) || (c =? 160) || (c =? 5760)
  || ((8192 <=? c) && (c <=? 8202))
  || (c =? 8232) || (c =? 8233) || (c =? 8239) || (c =? 8287) || (c =? 12288).

Fixpoint lstrip (s : pystr) : pystr :=
  match s with
  | c :: r => if isspace c then lstrip r else s
  | [] => []
  end.

Definition rstrip (s : pystr) : pystr := rev (lstrip (rev s)).

(** [s.strip()] *)
Definition strip (s : pystr) : pystr := rstrip (lstrip s).

(** [s.startswith(p)], returning what follows the prefix. *)
Fixpoint strip_prefix (p s : pystr) : option pystr :=
  match p, s with
  | [], _ => Some s
  | a :: p', b :: s' => if a =? b then strip_prefix p' s' else None
  | _ :: _, [] => None
  end.

Definition startswith (p s : pystr) : bool :=
  match strip_prefix p s with Some _ => true | None => false end.

(** [p in s] for two strings. *)
Fixpoint contains (p s : pystr) : bool :=
  startswith p s || match s with _ :: r => contains p r | [] => false end.

(** [a == b] *)
Fixpoint str_eqb (a b : pystr) : bool :=
  match a, b with
  | [], [] => true
  | x :: a', y :: b' => (x =? y) && str_eqb a' b'
  | _, _ => false
  end.

(** [str.lower] and [str.upper]; the model folds the case of the ASCII
    letters only, which is all that the content types and HTTP methods
    compared below are made of. *)
Definition lower_char (c : N) : N := if (65 <=? c) && (c <=? 90) then c + 32 else c.
Definition upper_char (c : N) : N := if (97 <=? c) && (c <=? 122) then c - 32 else c.
Definition lower (s : pystr) : pystr := map lower_char s.
Definition upper (s : pystr) : pystr := map upper_char s.

(** [str(n)] for an [int]. *)
Definition str_int (z : Z) : pystr := py (NilZero.string_of_int (Z.to_int z)).

End PyStr.
Import PyStr.

(** ** Exceptions *)

(** An [httpx.Response], as far as the client looks at it. *)
Record Response := {
  status_code : Z;
  reason_phrase : pystr;
  text : pystr;              (* the body, decoded by [response.json()] *)
}.

(** The key of a failed lookup: a [str] or an [int]. *)
Inductive pykey := KStr (s : pystr) | KInt (i : Z).

(** The exceptions that the modelled code raises, catches or lets through.
    A [message] is the string an exception is built with; [Format p e] is the
    f-string [f"{p}{str(e)}"], kept symbolic because [str(e)] is defined by
    the library of each exception class. *)
Inductive exn :=
| HTTPException (status : Z) (detail : message)        (* fastapi; [detail={"error": ...}] *)
| DocumentProcessingError (msg : message)             (* document_utils *)
| LangflowError (msg : message) (response : option Response)
| LangflowRequestError (msg : message) (original_error : exn)  (* a subclass of LangflowError *)
| TimeoutException (info : pystr)                      (* httpx.TimeoutException *)
| RequestError (info : pystr)                          (* the other httpx.RequestError's *)
| JSONDecodeError
| KeyError (key : pykey)
| IndexError
| TypeError
| AttributeError
| UnicodeDecodeError
| ValidationError                                      (* pydantic *)
| CollaboratorError (info : pystr)                     (* raised inside PyPDF2, MinIO or SQLAlchemy *)
with message :=
| Text (s : pystr)
| Format (prefix : pystr) (e : exn).

(** [isinstance(e, LangflowError)], [isinstance(e, httpx.TimeoutException)]
    and [isinstance(e, httpx.RequestError)]: a timeout is a request error. *)
Definition is_LangflowError (e : exn) : bool :=
  match e with LangflowError _ _ | LangflowRequestError _ _ => true | _ => false end.
Definition is_TimeoutException (e : exn) : bool :=
  match e with TimeoutException _ => true | _ => false end.
Definition is_RequestError (e : exn) : bool :=
  match e with TimeoutException _ | RequestError _ => true | _ => false end.
Definition is_HTTPException (e : exn) : bool :=
  match e with HTTPException _ _ => true | _ => false end.
Definition is_DocumentProcessingError (e : exn) : bool :=
  match e with DocumentProcessingError _ => true | _ => false end.
Definition is_JSONDecodeError (e : exn) : bool :=
  match e with JSONDecodeError => true | _ => false end.
Definition is_LangflowRequestError (e : exn) : bool :=
  match e with LangflowRequestError _ _ => true | _ => false end.

(** The outcome of a call: an exception or a value. *)
Definition result (A : Type) : Type := exn + A.
Definition raise {A} (e : exn) : result A := inl e.
Definition returns {A} (a : A) : result A := inr a.

(** ** JSON values and [json.loads] *)

Module Json.

#[local] Set Warnings "-register-all".

(** The Python objects [json.loads] builds.  A [float] keeps the literal it
    was read from; a [dict] keeps its keys in order of first insertion. *)
Inductive json :=
| JNull
| JBool (b : bool)
| JInt (n : Z)
| JFloat (literal : pystr)
| JStr (s : pystr)
| JArr (items : list json)
| JObj (fields : list (pystr * json)).

(** [d[k] = v] *)
Fixpoint dict_set (k : pystr) (v : json) (d : list (pystr * json)) : list (pystr * json) :=
  match d with
  | [] => [(k, v)]
  | (k', v') :: d' => if str_eqb k k' then (k, v) :: d' else (k', v') :: dict_set k v d'
  end.

(** [d.get(k)] *)
Fixpoint dict_get (k : pystr) (d : list (pystr * json)) : option json :=
  match d with
  | [] => None
  | (k', v) :: d' => if str_eqb k k' then Some v else dict_get k d'
  end.

(** [isinstance(data, dict) and k in data], with the value when it holds. *)
Definition field (k : pystr) (data : json) : option json :=
  match data with JObj d => dict_get k d | _ => None end.

(** *** The scanner

    The decoder follows the C scanner of CPython's [json] package
    ([scan_once], [scanstring], [_match_number]) in strict mode, on the
    grammar it accepts.  The limits of the interpreter (the depth of its
    recursion, the number of digits it converts to an [int]) are not part
    of the model: here the decoder either returns a value or raises a
    [JSONDecodeError]. *)

Inductive scanned (A : Type) :=
| Scanned (a : A) (rest : pystr)
| Malformed          (* the scanner stops: a JSONDecodeError *)
| Exhausted.         (* the recursion bound of the model was reached *)
Arguments Scanned {A}.
Arguments Malformed {A}.
Arguments Exhausted {A}.

(** [WHITESPACE = [ \t\n\r]*] *)
Definition is_ws (c : N) : bool := (c =? 32) || (c =? 9) || (c =? 10) || (c =? 13).

Fixpoint skip_ws (s : pystr) : pystr :=
  match s with
  | c :: r => if is_ws c then skip_ws r else s
  | [] => []
  end.

Definition is_digit (c : N) : bool := (48 <=? c) && (c <=? 57).

Definition hex_digit (c : N) : option N :=
  if is_digit c then Some (c - 48)
  else if (97 <=? c) && (c <=? 102) then Some (c - 87)
  else if (65 <=? c) && (c <=? 70) then Some (c - 55)
  else None.

Definition hex4 (a b c d : N) : option N :=
  match hex_digit a, hex_digit b, hex_digit c, hex_digit d with
  | Some x, Some y, Some z, Some w => Some (((x * 16 + y) * 16 + z) * 16 + w)
  | _, _, _, _ => None
  end.

(** The one-character escapes of a JSON string. *)
Definition simple_escape (e : N) : option N :=
  if is_dquote e then Some e
  else if is_char "\" e then Some e
  else if is_char "/" e then Some e
  else if is_char "b" e then Some 8
  else if is_char "f" e then Some 12
  else if is_char "n" e then Some 10
  else if is_char "r" e then Some 13
  else if is_char "t" e then Some 9
  else None.

(** A character of a string literal: written as itself, or by [\uXXXX]. *)
Inductive chunk := Plain (c : N) | Escaped (u : N).

Definition push {A} (x : A) (r : option (list A * pystr)) : option (list A * pystr) :=
  match r with Some (l, rest) => Some (x :: l, rest) | None => None end.

(** The characters of a string literal whose opening quote was read, up to
    its closing quote.  A control character is refused (strict mode). *)
Fixpoint scanchunks (s : pystr) : option (list chunk * pystr) :=
  match s with
  | [] => None
  | c :: r =>
    if is_dquote c then Some ([], r)
    else if is_char "\" c then
      match r with
      | [] => None
      | e :: r1 =>
        if is_char "u" e then
          match r1 with
          | h1 :: h2 :: h3 :: h4 :: r2 =>
            match hex4 h1 h2 h3 h4 with
            | Some u => push (Escaped u) (scanchunks r2)
            | None => None
            end
          | _ => None
          end
        else
          match simple_escape e with
          | Some d => push (Plain d) (scanchunks r1)
          | None => None
          end
      end
    else if c <? 32 then None
    else push (Plain c) (scanchunks r)
  end.

Definition is_high_surrogate (u : N) : bool := (55296 <=? u) && (u <=? 56319).
Definition is_low_surrogate (u : N) : bool := (56320 <=? u) && (u <=? 57343).

(** An escaped high surrogate directly followed by an escaped low surrogate
    is one character. *)
Fixpoint join_surrogates (l : list chunk) : pystr :=
  match l with
  | [] => []
  | Plain c :: tl => c :: join_surrogates tl
  | Escaped u :: tl =>
    match tl with
    | Escaped v :: tl' =>
      if is_high_surrogate u && is_low_surrogate v
      then (65536 + (u - 55296) * 1024 + (v - 56320)) :: join_surrogates tl'
      else u :: join_surrogates tl
    | _ => u :: join_surrogates tl
    end
  end.

Definition scanstring (s : pystr) : option (pystr * pystr) :=
  match scanchunks s with
  | Some (l, rest) => Some (join_surrogates l, rest)
  | None => None
  end.

(** The longest run of decimal digits at the head of [s]. *)
Fixpoint span_digits (s : pystr) : pystr * pystr :=
  match s with
  | c :: r => if is_digit c then let '(d, rest) := span_digits r in (c :: d, rest) else ([], s)
  | [] => ([], [])
  end.

Definition digits_value (d : pystr) : Z :=
  fold_left (fun acc c => (acc * 10 + Z.of_N (c - 48))%Z) d 0%Z.

(** The integer part of a number, as the matched text: a single zero, or
    a digit from 1 to 9 followed by digits. *)
Definition match_integer (s : pystr) : option (pystr * pystr) :=
  match s with
  | c :: r =>
    if is_char "0" c then Some ([c], r)
    else if is_digit c then let '(d, rest) := span_digits r in Some (c :: d, rest)
    else None
  | [] => None
  end.

(** [(\.[0-9]+)?] *)
Definition match_frac (s : pystr) : pystr * pystr :=
  match s with
  | c :: r =>
    if is_char "." c then
      match span_digits r with
      | ([], _) => ([], s)
      | (d, rest) => (c :: d, rest)
      end
    else ([], s)
  | [] => ([], [])
  end.

(** [([eE][-+]?[0-9]+)?] *)
Definition match_exp (s : pystr) : pystr * pystr :=
  match s with
  | c :: r =>
    if is_char "e" c || is_char "E" c then
      match r with
      | sg :: r' =>
        if is_char "-" sg || is_char "+" sg then
          match span_digits r' with
          | ([], _) => ([], s)
          | (d, rest) => (c :: sg :: d, rest)
          end
        else
          match span_digits r with
          | ([], _) => ([], s)
          | (d, rest) => (c :: d, rest)
          end
      | [] => ([], s)
      end
    else ([], s)
  | [] => ([], [])
  end.

(** [_match_number]: an [int] when the literal has neither fraction nor
    exponent, a [float] otherwise. *)
Definition match_number (s : pystr) : scanned json :=
  let '(neg, s1) :=
    match s with
    | c :: r => if is_char "-" c then (true, r) else (false, s)
    | [] => (false, s)
    end in
  match match_integer s1 with
  | None => Malformed
  | Some (int_part, s2) =>
    let '(frac, s3) := match_frac s2 in
    let '(exp, s4) := match_exp s3 in
    match frac, exp with
    | [], [] =>
      let v := digits_value int_part in
      Scanned (JInt (if neg then (- v)%Z else v)) s4
    | _, _ =>
      Scanned (JFloat ((if neg then py "-" else []) ++ int_part ++ frac ++ exp)) s4
    end
  end.

(** The scalars that are not strings: [null], [true], [false], [NaN],
    [Infinity], [-Infinity] and the numbers. *)
Definition scan_scalar (s : pystr) : scanned json :=
  match strip_prefix (py "null") s with Some r => Scanned JNull r | None =>
  match strip_prefix (py "true") s with Some r => Scanned (JBool true) r | None =>
  match strip_prefix (py "false") s with Some r => Scanned (JBool false) r | None =>
  match strip_prefix (py "NaN") s with Some r => Scanned (JFloat (py "NaN")) r | None =>
  match strip_prefix (py "Infinity") s with Some r => Scanned (JFloat (py "Infinity")) r | None =>
  match strip_prefix (py "-Infinity") s with Some r => Scanned (JFloat (py "-Infinity")) r | None =>
  match_number s
  end end end end end end.

(** [scan_once], with [JSONArray] and [JSONObject].  [array_items] is
    entered at the first character of an element, [object_members] just
    after the opening quote of a key.  Each call uses one unit of [fuel]. *)
Fixpoint scan_once (fuel : nat) (s : pystr) : scanned json :=
  match fuel with
  | O => Exhausted
  | S fuel =>
    match s with
    | [] => Malformed
    | c :: r =>
      if is_dquote c then
        match scanstring r with
        | Some (str, rest) => Scanned (JStr str) rest
        | None => Malformed
        end
      else if is_char "{" c then
        match skip_ws r with
        | c' :: r' =>
          if is_char "}" c' then Scanned (JObj []) r'
          else if is_dquote c' then object_members fuel r' []
          else Malformed
        | [] => Malformed
        end
      else if is_char "[" c then
        match skip_ws r with
        | c' :: r' =>
          if is_char "]" c' then Scanned (JArr []) r'
          else array_items fuel (c' :: r') []
        | [] => Malformed
        end
      else scan_scalar s
    end
  end
with array_items (fuel : nat) (s : pystr) (acc : list json) : scanned json :=
  match fuel with
  | O => Exhausted
  | S fuel =>
    match scan_once fuel s with
    | Scanned v rest =>
      match skip_ws rest with
      | c :: r =>
        if is_char "]" c then Scanned (JArr (rev (v :: acc))) r
        else if is_char "," c then array_items fuel (skip_ws r) (v :: acc)
        else Malformed
      | [] => Malformed
      end
    | Malformed => Malformed
    | Exhausted => Exhausted
    end
  end
with object_members (fuel : nat) (s : pystr) (acc : list (pystr * json)) : scanned json :=
  match fuel with
  | O => Exhausted
  | S fuel =>
    match scanstring s with
    | None => Malformed
    | Some (key, rest) =>
      match skip_ws rest with
      | c :: r =>
        if is_char ":" c then
          match scan_once fuel (skip_ws r) with
          | Scanned v rest' =>
            let acc' := dict_set key v acc in
            match skip_ws rest' with
            | c' :: r' =>
              if is_char "}" c' then Scanned (JObj acc') r'
              else if is_char "," c' then
                match skip_ws r' with
                | q :: r'' => if is_dquote q then object_members fuel r'' acc' else Malformed
                | [] => Malformed
                end
              else Malformed
            | [] => Malformed
            end
          | Malformed => Malformed
          | Exhausted => Exhausted
          end
        else Malformed
      | [] => Malformed
      end
    end
  end.

(** The recursion bound handed to the scanner: twice the length of the
    text and two more, which [scan_once_fuel] below shows to be enough. *)
Definition fuel_for (s : pystr) : nat := 2 * length s + 2.

(** [JSONDecoder.decode]: one value between optional whitespace, and
    nothing after it; [json.loads] first refuses a byte order mark. *)
Definition byte_order_mark : pystr := [65279].

Definition decode (s : pystr) : scanned json :=
  if startswith byte_order_mark s then Malformed
  else
    match scan_once (fuel_for s) (skip_ws s) with
    | Scanned v rest =>
      match skip_ws rest with
      | [] => Scanned v []
      | _ :: _ => Malformed
      end
    | other => other
    end.

(** [json.loads(s)] for a [str]: the value, or a [JSONDecodeError].  The
    decoder above is the grammar of the module; the limits of the
    interpreter, under which [json.loads] raises a [ValueError] on an
    integer literal of thousands of digits and a [RecursionError] on
    brackets nested by the thousand, are not modelled. *)
Definition loads (s : pystr) : result json :=
  match decode s with
  | Scanned v _ => returns v
  | Malformed | Exhausted => raise JSONDecodeError
  end.

End Json.
Import Json.

(** ** [re.search(r'```json\s*(.*?)\s*```', text, re.DOTALL)] *)

Module Fence.

(** The closing part of the pattern, whitespace then three backticks,
    matches at the head of [s]. *)
Definition closes (s : pystr) : bool := startswith (py "```") (lstrip s).

(** The lazy group followed by the closing part: the shortest prefix of
    [s] after which the closing part matches.  With [re.DOTALL] the dot
    matches every character. *)
Fixpoint lazy_group (s : pystr) : option pystr :=
  if closes s then Some []
  else match s with
       | c :: r => option_map (cons c) (lazy_group r)
       | [] => None
       end.

(** What follows the opening tag: greedy whitespace, giving characters
    back when the rest does not match, then the group. *)
Fixpoint after_tag (s : pystr) : option pystr :=
  match s with
  | c :: r =>
    if isspace c
    then match after_tag r with Some g => Some g | None => lazy_group s end
    else lazy_group s
  | [] => lazy_group []
  end.

Definition match_at (s : pystr) : option pystr :=
  match strip_prefix (py "```json") s with
  | Some r => after_tag r
  | None => None
  end.

(** [re.search]: the match at the leftmost position that has one;
    the value is [match.group(1)]. *)
Fixpoint search (s : pystr) : option pystr :=
  match match_at s with
  | Some g => Some g
  | None => match s with _ :: r => search r | [] => None end
  end.

End Fence.

(** ** [app/utils/langflow_utils.py] *)

(** What the parser does on the way to its result. *)
Inductive step :=
| DecodeWhole                 (* json.loads(skills_text) *)
| SearchFence                 (* re.search(json_pattern, skills_text, re.DOTALL) *)
| DecodeFence (block : pystr). (* json.loads(match.group(1)) *)

(** [parse_skills_response], with the steps it takes.  The search for a
    fenced block sits in the handler of [json.JSONDecodeError]; an exception
    of another class is not caught. *)
Definition parse_skills_response_run (skills_text : pystr) : list step * result json :=
  match loads skills_text with
  | inr data =>
    match field (py "skills") data with
    | Some skills => ([DecodeWhole], returns skills)
    | None => ([DecodeWhole], returns (JArr []))
    end
  | inl e =>
    if is_JSONDecodeError e then
      match Fence.search skills_text with
      | Some block =>
        match loads block with
        | inr data =>
          match field (py "skills") data with
          | Some skills => ([DecodeWhole; SearchFence; DecodeFence block], returns skills)
          | None => ([DecodeWhole; SearchFence; DecodeFence block], returns (JArr []))
          end
        | inl e' =>
          if is_JSONDecodeError e'
          then ([DecodeWhole; SearchFence; DecodeFence block], returns (JArr []))
          else ([DecodeWhole; SearchFence; DecodeFence block], raise e')
        end
      | None => ([DecodeWhole; SearchFence], returns (JArr []))
      end
    else ([DecodeWhole], raise e)
  end.

Definition parse_skills_response (skills_text : pystr) : result json :=
  snd (parse_skills_response_run skills_text).

(** ** Subscripts and iteration on decoded values *)

(** [v[k]] for a [str] key. *)
Definition getitem (v : json) (k : pystr) : result json :=
  match v with
  | JObj d => match dict_get k d with Some x => returns x | None => raise (KeyError (KStr k)) end
  | _ => raise TypeError
  end.

(** [v[i]] for a non-negative [int] index. *)
Definition getindex (v : json) (i : nat) : result json :=
  match v with
  | JArr l => match nth_error l i with Some x => returns x | None => raise IndexError end
  | JStr s => match nth_error s i with Some c => returns (JStr [c]) | None => raise IndexError end
  | JObj d => raise (KeyError (KInt (Z.of_nat i)))
  | _ => raise TypeError
  end.

(** [iter(v)]: the elements of a list, the keys of a dict, the characters
    of a str. *)
Definition iterate (v : json) : result (list json) :=
  match v with
  | JArr l => returns l
  | JObj d => returns (map (fun kv => JStr (fst kv)) d)
  | JStr s => returns (map (fun c => JStr [c]) s)
  | _ => raise TypeError
  end.

(** ** The world around the pipeline *)

(** A [fastapi.UploadFile]. *)
Record UploadFile := {
  filename : option pystr;
  content_type : option pystr;
  content : list byte;
}.

(** The request handed to [httpx]. *)
Record HttpRequest := {
  method : pystr;
  url : pystr;
  headers : gmap pystr pystr;
  body : option json;        (* the [json=] argument; a GET carries none *)
}.

(** The rows of the tables [job_offers] and [job_offers_skills].  A column
    filled with [str(v)] is recorded as the value [v]. *)
Record JobOffer := {
  id : Z;
  title : pystr;
  summary : option pystr;
  storage_url : option pystr;
}.

Record JobOfferSkill := {
  job_offer_id : Z;
  skill : json;
  expertise_level : json;
  priority : json;
}.

(** The database behind a [Session]: the committed rows, the objects added
    to the session and not yet committed, and the next primary key. *)
Record DB := {
  job_offers : list JobOffer;
  job_offers_skills : list JobOfferSkill;
  pending : list JobOfferSkill;
  next_id : Z;
}.

(** The calls that reach the database. *)
Inductive db_call :=
| CallCreate          (* job_offer_repository.create *)
| CallCommitSkills    (* db.commit() and db.refresh() of bulk_create *)
| CallLoad            (* reading job_offer.id and job_offer.title for the response *)
| CallRemove.         (* job_offer_repository.remove *)

(** What the pipeline does to the outside, in order. *)
Inductive event :=
| Yielded                                   (* await asyncio.sleep(0) *)
| PageExtracted (page_num : nat)            (* page.extract_text() *)
| Uploaded (bucket : pystr)                 (* minio_service.upload_file *)
| HttpSent (req : HttpRequest)              (* client.get / client.request *)
| RepoCreate                                (* job_offer_repository.create *)
| RepoBulkCreate (job_offer_id : Z)         (* job_offer_skill_repository.bulk_create *)
| RepoRemove (id : Z).                      (* job_offer_repository.remove *)

(** The collaborators the code calls and does not define: what each of
    them answers. *)
Record Env := {
  (* PyPDF2.PdfReader on the bytes, and [extract_text] of each page *)
  pdf_reader : list byte -> result (list (result pystr));
  (* minio_service.upload_file: the object name *)
  minio_upload : UploadFile -> pystr -> result pystr;
  (* the answer of the remote service to a request *)
  httpx_send : HttpRequest -> result Response;
  (* the failure of a database call, if it fails *)
  db_fault : db_call -> option exn;
  (* whether the failure of [CallCommitSkills], if there is one, is that of a
     [db.refresh], which comes after the rows are committed, and not that of
     [db.commit()] *)
  fault_in_refresh : bool;
}.

(** The state threaded through the pipeline.  [job_offer_local] is the local
    variable [job_offer] of [create_job_offer], unbound until assigned, which
    the handler looks up in [locals()]. *)
Record State := {
  db : DB;
  trace : list event;
  job_offer_local : option JobOffer;
}.

(** ** The monad of the pipeline: state and exceptions *)

Definition M (A : Type) : Type := State -> State * result A.

Definition ret {A} (a : A) : M A := fun st => (st, returns a).
Definition throw {A} (e : exn) : M A := fun st => (st, raise e).
Definition bind {A B} (m : M A) (k : A -> M B) : M B :=
  fun st => match m st with
            | (st', inr a) => k a st'
            | (st', inl e) => (st', inl e)
            end.

(** [try: m except Exception as e: h e] *)
Definition try_except {A} (m : M A) (h : exn -> M A) : M A :=
  fun st => match m st with
            | (st', inl e) => h e st'
            | r => r
            end.

Definition lift {A} (r : result A) : M A := fun st => (st, r).

Definition emit (ev : event) : M unit :=
  fun st => ({| db := db st; trace := trace st ++ [ev]; job_offer_local := job_offer_local st |}, returns tt).

Definition get_db : M DB := fun st => (st, returns (db st)).
Definition put_db (d : DB) : M unit :=
  fun st => ({| db := d; trace := trace st; job_offer_local := job_offer_local st |}, returns tt).

Definition assign_job_offer (j : JobOffer) : M unit :=
  fun st => ({| db := db st; trace := trace st; job_offer_local := Some j |}, returns tt).
Definition lookup_job_offer : M (option JobOffer) :=
  fun st => (st, returns (job_offer_local st)).

Declare Scope py_scope.
Delimit Scope py_scope with py.
Notation "'let*' x ':=' m 'in' k" := (bind m (fun x => k))
  (at level 10, x pattern, m at level 100, k at level 200) : py_scope.
Notation "m ';;' k" := (bind m (fun _ => k))
  (at level 100, k at level 200, right associativity) : py_scope.
Local Open Scope py_scope.

(** ** [bytes.decode('utf-8')] *)

Module Utf8.

Definition cont (b : N) : bool := (128 <=? b) && (b <=? 191).
Definition between (lo hi b : N) : bool := (lo <=? b) && (b <=? hi).

(** The bounds of the second byte after a three-byte or four-byte lead:
    no overlong form, no surrogate, nothing above U+10FFFF. *)
Definition second3 (b0 : N) : N * N :=
  if b0 =? 224 then (160, 191) else if b0 =? 237 then (128, 159) else (128, 191).
Definition second4 (b0 : N) : N * N :=
  if b0 =? 240 then (144, 191) else if b0 =? 244 then (128, 143) else (128, 191).

Fixpoint decode_points (b : list N) : option pystr :=
  match b with
  | [] => Some []
  | b0 :: r =>
    if b0 <? 128 then option_map (cons b0) (decode_points r)
    else if between 194 223 b0 then
      match r with
      | b1 :: r1 =>
        if cont b1
        then option_map (cons ((b0 - 192) * 64 + (b1 - 128))) (decode_points r1)
        else None
      | _ => None
      end
    else if between 224 239 b0 then
      match r with
      | b1 :: b2 :: r2 =>
        if between (fst (second3 b0)) (snd (second3 b0)) b1 && cont b2
        then option_map (cons (((b0 - 224) * 64 + (b1 - 128)) * 64 + (b2 - 128)))
                        (decode_points r2)
        else None
      | _ => None
      end
    else if between 240 244 b0 then
      match r with
      | b1 :: b2 :: b3 :: r3 =>
        if between (fst (second4 b0)) (snd (second4 b0)) b1 && cont b2 && cont b3
        then option_map
               (cons ((((b0 - 240) * 64 + (b1 - 128)) * 64 + (b2 - 128)) * 64 + (b3 - 128)))
               (decode_points r3)
        else None
      | _ => None
      end
    else None
  end.

(** [content.decode('utf-8')] *)
Definition decode (content : list byte) : result pystr :=
  match decode_points (map Byte.to_N content) with
  | Some s => returns s
  | None => raise UnicodeDecodeError
  end.

End Utf8.

(** ** [app/utils/document_utils.py] *)

Definition newline : pystr := [10].

Definition ALLOWED_DOCUMENT_TYPES : list pystr :=
  [ py "application/pdf";
    py "application/msword";
    py "application/vnd.openxmlformats-officedocument.wordprocessingml.document";
    py "text/plain" ].

(** [document.content_type in ALLOWED_DOCUMENT_TYPES] *)
Definition allowed_type (ct : option pystr) : bool :=
  match ct with
  | Some t => existsb (str_eqb t) ALLOWED_DOCUMENT_TYPES
  | None => false
  end.

Definition validate_document_type (document : UploadFile) : M unit :=
  if negb (allowed_type (content_type document))
  then throw (HTTPException 400 (Text (py "File must be a PDF, Word document or a text file")))
  else ret tt.

(** The loop of [extract_text_from_pdf] from page [page_num] on. *)
Fixpoint extract_pages (pages : list (result pystr)) (page_num : nat) (text : pystr) : M pystr :=
  match pages with
  | [] => ret text
  | page :: rest =>
    emit (PageExtracted page_num);;
    let* page_text := lift page in
    let text := text ++ page_text ++ newline in
    (if Nat.eqb (page_num mod 5) 0 then emit Yielded else ret tt);;
    extract_pages rest (S page_num) text
  end.

Definition extract_text_from_pdf (env : Env) (pdf_file : UploadFile) : M pystr :=
  try_except
    (let* pages := lift (pdf_reader env (content pdf_file)) in
     extract_pages pages 0 [])
    (fun e => throw (DocumentProcessingError (Format (py "Error extracting text from PDF: ") e))).

Definition len_bytes (b : list byte) : pystr := str_int (Z.of_nat (length b)).

Definition extract_text_from_document (env : Env) (document : UploadFile) : M pystr :=
  try_except
    (let* content_type :=
       lift (match content_type document with
             | Some t => returns (lower t)
             | None => raise AttributeError
             end) in
     if contains (py "pdf") content_type then
       extract_text_from_pdf env document
     else if contains (py "docx") content_type || contains (py "doc") content_type
             || contains (py "word") content_type then
       ret (py "Document content (binary): " ++ len_bytes (content document) ++ py " bytes")
     else if contains (py "text/plain") content_type then
       lift (Utf8.decode (content document))
     else
       ret (py "Unknown document type: " ++ content_type ++ py ", size: "
            ++ len_bytes (content document) ++ py " bytes"))
    (fun e => throw (DocumentProcessingError (Format (py "Error extracting text from document: ") e))).

(** [not extracted_text or len(extracted_text.strip()) == 0] *)
Definition blank (extracted_text : pystr) : bool :=
  match extracted_text with
  | [] => true
  | _ => Nat.eqb (length (strip extracted_text)) 0
  end.

(** [len(extracted_text) / 1024] *)
Definition size_kb (extracted_text : pystr) : Q := Z.of_nat (length extracted_text) # 1024.

Definition process_document (env : Env) (document : UploadFile) : M (pystr * Q) :=
  try_except
    (validate_document_type document;;
     let* extracted_text := extract_text_from_document env document in
     if blank extracted_text
     then throw (HTTPException 400 (Text (py "Could not extract text from document")))
     else ret (extracted_text, size_kb extracted_text))
    (fun e =>
       if is_DocumentProcessingError e then throw (HTTPException 400 (Format [] e))
       else if is_HTTPException e then throw e
       else throw (HTTPException 500 (Format (py "Error processing document: ") e))).

(** ** [app/services/langflow_client.py] *)

Module RequestOptions.
Record t := {
  path : pystr;
  method : pystr;
  body : option json;
  headers : option (gmap pystr pystr);
  timeout : option Z;
}.
End RequestOptions.

(** The client after construction.  Timeouts are whole numbers of seconds,
    the type of [settings.LANGFLOW_TIMEOUT]; the singleton of the application
    is built without an [http_client] of its own. *)
Record LangflowClient := {
  base_url : pystr;
  base_path : pystr;
  api_key : option pystr;
  timeout : Z;
  default_headers : gmap pystr pystr;
}.

Record Flow := {
  client : LangflowClient;
  flow_id : pystr;
  tweaks : list (pystr * json);
}.

(** [a or b] on an optional number: [None] and [0] are falsy. *)
Definition or_number (a : option Z) (b : Z) : Z :=
  match a with
  | Some t => if (t =? 0)%Z then b else t
  | None => b
  end.

(** [response.is_success] *)
Definition is_success (response : Response) : bool :=
  ((200 <=? status_code response) && (status_code response <=? 299))%Z.

Module LangflowClient.

(** [_set_headers]: a copy of the default headers, every given header
    written over it, then the API key when there is a non-empty one. *)
Definition _set_headers (self : LangflowClient) (headers : gmap pystr pystr) : gmap pystr pystr :=
  let combined_headers := headers ∪ default_headers self in
  match api_key self with
  | Some (c :: k) => <[py "x-api-key" := c :: k]> combined_headers
  | _ => combined_headers
  end.

Definition flow (self : LangflowClient) (flow_id : pystr) (tweaks : option (list (pystr * json))) : Flow :=
  {| client := self; flow_id := flow_id; tweaks := default [] tweaks |}.

(** The timeout of one call: [options.timeout or self.timeout]. *)
Definition effective_timeout (self : LangflowClient) (options : RequestOptions.t) : Z :=
  or_number (RequestOptions.timeout options) (timeout self).

(** The request that goes out: [client.get(url, headers=headers)] for a
    GET, [client.request(method, url, json=body, headers=headers)] for the
    other methods. *)
Definition outgoing (self : LangflowClient) (options : RequestOptions.t) : HttpRequest :=
  let headers := _set_headers self (default ∅ (RequestOptions.headers options)) in
  let url := base_url self ++ base_path self ++ RequestOptions.path options in
  if str_eqb (upper (RequestOptions.method options)) (py "GET")
  then {| method := py "GET"; url := url; headers := headers; body := None |}
  else {| method := RequestOptions.method options; url := url; headers := headers;
          body := RequestOptions.body options |}.

Definition request (env : Env) (self : LangflowClient) (options : RequestOptions.t) : M json :=
  let timeout := effective_timeout self options in
  try_except
    (let req := outgoing self options in
     emit (HttpSent req);;
     let* response := lift (httpx_send env req) in
     if negb (is_success response) then
       throw (LangflowError
                (Text (str_int (status_code response) ++ py " - " ++ reason_phrase response))
                (Some response))
     else lift (loads (text response)))
    (fun e =>
       if is_TimeoutException e then
         throw (LangflowRequestError
                  (Text (py "Request timed out after " ++ str_int timeout ++ py "s")) e)
       else if is_RequestError e then
         throw (LangflowRequestError (Format (py "Request failed: ") e) e)
       else if is_LangflowError e then throw e
       else throw (LangflowRequestError (Format (py "Unexpected error: ") e) e)).

End LangflowClient.

Module Flow.

(** [Flow.run(inputs)] with [stream=False], the mode the pipeline uses. *)
Definition run (env : Env) (self : Flow) (inputs : list (pystr * json)) : M json :=
  let payload := fold_left (fun d kv => dict_set (fst kv) (snd kv) d) inputs
                           [(py "tweaks", JObj (tweaks self))] in
  let headers : gmap pystr pystr := {[ py "Content-Type" := py "application/json" ]} in
  let path := py "/run/" ++ flow_id self in
  LangflowClient.request env (client self)
    {| RequestOptions.path := path;
       RequestOptions.method := py "POST";
       RequestOptions.body := Some (JObj payload);
       RequestOptions.headers := Some headers;
       RequestOptions.timeout := None |}.

End Flow.

(** ** [app/repositories] *)

Module JobOfferCreate.
Record t := {
  title : pystr;
  summary : option pystr;
  storage_url : option pystr;
}.

(** [JobOfferCreate(title=..., summary=..., storage_url=...)]: pydantic takes
    a [str] or [None] for the optional [summary], and nothing else. *)
Definition make (title : pystr) (summary : json) (storage_url : pystr) : result t :=
  match summary with
  | JStr s => returns {| title := title; summary := Some s; storage_url := Some storage_url |}
  | JNull => returns {| title := title; summary := None; storage_url := Some storage_url |}
  | _ => raise ValidationError
  end.
End JobOfferCreate.

(** A database call that may fail. *)
Definition db_call_point (env : Env) (c : db_call) : M unit :=
  match db_fault env c with
  | Some e => throw e
  | None => ret tt
  end.

Module JobOfferRepository.

(** Modelled from the spec: [BaseRepository.create], of
    [repositories/base.py], which is not among the sources.  The spec names
    the operation (create) of the job-offer repository: it adds the record
    and returns it with its new identifier. *)
Definition create (env : Env) (obj_in : JobOfferCreate.t) : M JobOffer :=
  emit RepoCreate;;
  db_call_point env CallCreate;;
  let* d := get_db in
  let row := {| id := next_id d;
                title := JobOfferCreate.title obj_in;
                summary := JobOfferCreate.summary obj_in;
                storage_url := JobOfferCreate.storage_url obj_in |} in
  put_db {| job_offers := job_offers d ++ [row];
            job_offers_skills := job_offers_skills d;
            pending := pending d;
            next_id := (next_id d + 1)%Z |};;
  ret row.

(** Modelled from the spec: [BaseRepository.remove], of
    [repositories/base.py], which is not among the sources.  The spec names
    the operation (remove): it deletes the record with the given identifier;
    the foreign key of [job_offers_skills] is declared [ondelete='CASCADE']
    in [db/models.py], so the skills of the record go with it. *)
Definition remove (env : Env) (id' : Z) : M unit :=
  emit (RepoRemove id');;
  db_call_point env CallRemove;;
  let* d := get_db in
  put_db {| job_offers := List.filter (fun j => negb (id j =? id')%Z) (job_offers d);
            job_offers_skills :=
              List.filter (fun k => negb (job_offer_id k =? id')%Z) (job_offers_skills d);
            pending := pending d;
            next_id := next_id d |}.

End JobOfferRepository.

Module JobOfferSkillRepository.

(** [db.add(db_skill)] *)
Definition db_add (k : JobOfferSkill) : M unit :=
  let* d := get_db in
  put_db {| job_offers := job_offers d;
            job_offers_skills := job_offers_skills d;
            pending := pending d ++ [k];
            next_id := next_id d |}.

(** [db.commit()], followed by the [db.refresh] of each skill: a commit
    that fails writes nothing, and a refresh that fails does so after the
    rows are written; with no skill there is no refresh to fail. *)
Definition db_commit (env : Env) (db_skills : list JobOfferSkill) : M unit :=
  let write :=
    let* d := get_db in
    put_db {| job_offers := job_offers d;
              job_offers_skills := job_offers_skills d ++ pending d;
              pending := [];
              next_id := next_id d |} in
  match db_fault env CallCommitSkills with
  | Some e =>
    match db_skills with
    | _ :: _ => if fault_in_refresh env then write;; throw e else throw e
    | [] => throw e
    end
  | None => write
  end.

(** The first loop of [bulk_create]. *)
Fixpoint add_skills (job_offer_id : Z) (skills : list json) (db_skills : list JobOfferSkill)
  : M (list JobOfferSkill) :=
  match skills with
  | [] => ret db_skills
  | skill_data :: rest =>
    let* skill := lift (getitem skill_data (py "skill")) in
    let* expertise_level := lift (getitem skill_data (py "expertise_level")) in
    let* priority := lift (getitem skill_data (py "priority")) in
    let db_skill := {| job_offer_id := job_offer_id; skill := skill;
                       expertise_level := expertise_level; priority := priority |} in
    db_add db_skill;;
    add_skills job_offer_id rest (db_skills ++ [db_skill])
  end.

Definition bulk_create (env : Env) (job_offer_id : Z) (skills : json) : M (list JobOfferSkill) :=
  emit (RepoBulkCreate job_offer_id);;
  let* items := lift (iterate skills) in
  let* db_skills := add_skills job_offer_id items [] in
  db_commit env db_skills;;
  ret db_skills.

End JobOfferSkillRepository.

(** ** [app/api/routers/job_offers.py] *)

Record Settings := {
  LANGFLOW_SUMMARY_GENERATION_FLOW_ID : pystr;
  LANGFLOW_SKILLS_EXTRACTION_FLOW_ID : pystr;
  MINIO_JOB_OFFERS_BUCKET_NAME : pystr;
}.

(** [result["outputs"][0]["outputs"][0]["results"]["text"]["data"]["text"]] *)
Definition leaf_text (flow_result : json) : result json :=
  match getitem flow_result (py "outputs") with inl e => inl e | inr a =>
  match getindex a 0 with inl e => inl e | inr b =>
  match getitem b (py "outputs") with inl e => inl e | inr c =>
  match getindex c 0 with inl e => inl e | inr d =>
  match getitem d (py "results") with inl e => inl e | inr f =>
  match getitem f (py "text") with inl e => inl e | inr g =>
  match getitem g (py "data") with inl e => inl e | inr h =>
  getitem h (py "text")
  end end end end end end end.

(** [parse_skills_response] on the leaf of the skills result: [json.loads]
    raises a [TypeError] on what is not a [str]. *)
Definition parse_skills_value (skills_text : json) : result json :=
  match skills_text with
  | JStr s => parse_skills_response s
  | _ => raise TypeError
  end.

Definition text_input_tweaks (agent output input prompt : string) (extracted_text : pystr)
  : list (pystr * json) :=
  [ (py agent, JObj []);
    (py output, JObj []);
    (py input, JObj [(py "input_value", JStr extracted_text)]);
    (py prompt, JObj []) ].

Definition text_io : list (pystr * json) :=
  [ (py "output_type", JStr (py "text")); (py "input_type", JStr (py "text")) ].

(** The dictionary returned on success. *)
Definition created_response (job_offer : JobOffer) (summary_text skills_text : json) : json :=
  JObj [ (py "id", JInt (id job_offer));
         (py "title", JStr (title job_offer));
         (py "summary", summary_text);
         (py "skills", skills_text) ].

(** The body of the [try] of [create_job_offer]. *)
Definition create_job_offer_body (env : Env) (settings : Settings) (langflow_client : LangflowClient)
    (title : pystr) (document : UploadFile) : M json :=
  let* (extracted_text, text_size_kb) := process_document env document in
  emit (Uploaded (MINIO_JOB_OFFERS_BUCKET_NAME settings));;
  let* object_name := lift (minio_upload env document (MINIO_JOB_OFFERS_BUCKET_NAME settings)) in
  (* await document.seek(0) *)
  let summary_flow :=
    LangflowClient.flow langflow_client (LANGFLOW_SUMMARY_GENERATION_FLOW_ID settings)
      (Some (text_input_tweaks "Agent-gE9mt" "TextOutput-riQeq" "TextInput-cTRS8" "Prompt-kPUCU"
                               extracted_text)) in
  let skills_extraction_flow :=
    LangflowClient.flow langflow_client (LANGFLOW_SKILLS_EXTRACTION_FLOW_ID settings)
      (Some (text_input_tweaks "Agent-tFpjL" "TextOutput-9JOx7" "TextInput-ZLrFC" "Prompt-NCiV2"
                               extracted_text)) in
  let* summary_result := Flow.run env summary_flow text_io in
  let* skills_result := Flow.run env skills_extraction_flow text_io in
  let* summary_text := lift (leaf_text summary_result) in
  let* skills_text := lift (leaf_text skills_result) in
  let* obj_in := lift (JobOfferCreate.make title summary_text object_name) in
  let* job_offer := JobOfferRepository.create env obj_in in
  assign_job_offer job_offer;;
  let* skills := lift (parse_skills_value skills_text) in
  JobOfferSkillRepository.bulk_create env (id job_offer) skills;;
  db_call_point env CallLoad;;
  ret (created_response job_offer summary_text skills_text).

(** [create_job_offer]: the body, and the handler of every exception, which
    removes the job offer when the local variable is bound and raises a
    server error. *)
Definition create_job_offer (env : Env) (settings : Settings) (langflow_client : LangflowClient)
    (title : pystr) (document : UploadFile) : M json :=
  try_except
    (create_job_offer_body env settings langflow_client title document)
    (fun e =>
       let* job_offer := lookup_job_offer in
       match job_offer with
       | Some j => JobOfferRepository.remove env (id j)
       | None => ret tt
       end;;
       throw (HTTPException 500 (Format (py "Error creating job offer: ") e))).

(** A request enters the handler with nothing traced and [job_offer]
    unbound. *)
Definition enter (d : DB) : State := {| db := d; trace := []; job_offer_local := None |}.

(** ** Vocabulary of the properties *)

(** The value is a Python [list]. *)
Definition is_list (v : json) : bool :=
  match v with JArr _ => true | _ => false end.


(** A record of skills has the three keys [bulk_create] reads. *)
Definition has_skill_keys (record : list (pystr * json)) : bool :=
  match dict_get (py "skill") record, dict_get (py "expertise_level") record,
        dict_get (py "priority") record with
  | Some _, Some _, Some _ => true
  | _, _, _ => false
  end.

Definition skill_keys : list pystr := [py "skill"; py "expertise_level"; py "priority"].

(** The row [bulk_create] builds from a record that has the three keys. *)
Definition skill_row (job_offer_id : Z) (record : list (pystr * json)) : JobOfferSkill :=
  {| job_offer_id := job_offer_id;
     skill := default JNull (dict_get (py "skill") record);
     expertise_level := default JNull (dict_get (py "expertise_level") record);
     priority := default JNull (dict_get (py "priority") record) |}.

(** The events of the extraction of [n] pages numbered from [first], as the
    loop produces them: a yield follows the pages whose number is a multiple
    of five. *)
Fixpoint pdf_events (first n : nat) : list event :=
  match n with
  | O => []
  | S n' =>
    (if Nat.eqb (first mod 5) 0 then [PageExtracted first; Yielded] else [PageExtracted first])
    ++ pdf_events (S first) n'
  end.

(** In a trace, the extraction of page [page_num] is directly followed by a
    yield. *)
Fixpoint yield_follows (tr : list event) (page_num : nat) : bool :=
  match tr with
  | PageExtracted i :: ((Yielded :: _) as rest) =>
    Nat.eqb i page_num || yield_follows rest page_num
  | _ :: rest => yield_follows rest page_num
  | [] => false
  end.

Definition is_yield (ev : event) : bool :=
  match ev with Yielded => true | _ => false end.

Definition is_http (ev : event) : bool :=
  match ev with HttpSent _ => true | _ => false end.

Definition is_remove (ev : event) : bool :=
  match ev with RepoRemove _ => true | _ => false end.

(** The text of all the pages, each followed by a newline. *)
Definition pages_text (pages : list pystr) : pystr :=
  concat (map (fun page_text => page_text ++ newline) pages).


(** The state after [request] sent its request. *)
Definition sent (self : LangflowClient) (options : RequestOptions.t) (st : State) : State :=
  {| db := db st;
     trace := trace st ++ [HttpSent (LangflowClient.outgoing self options)];
     job_offer_local := job_offer_local st |}.

(** ** The client and the collaborators of the examples *)

Definition example_client : LangflowClient :=
  {| base_url := py "localhost:7860"; base_path := py "/api/v1";
     api_key := Some (py "secret"); timeout := 30;
     default_headers := {[ py "User-Agent" := py "langflow-python-client/1.0.0" ]} |}.

Definition example_options (timeout : option Z) : RequestOptions.t :=
  {| RequestOptions.path := py "/run/skills";
     RequestOptions.method := py "POST";
     RequestOptions.body := None;
     RequestOptions.headers := None;
     RequestOptions.timeout := timeout |}.

Definition empty_db : DB :=
  {| job_offers := []; job_offers_skills := []; pending := []; next_id := 1 |}.

(** Collaborators that answer every request with [answer]. *)
Definition answering (answer : result Response) : Env :=
  {| pdf_reader := fun _ => raise (CollaboratorError (py "not a PDF"));
     minio_upload := fun _ _ => returns (py "object");
     httpx_send := fun _ => answer;
     db_fault := fun _ => None;
     fault_in_refresh := false |}.

Definition server_error : Response :=
  {| status_code := 500; reason_phrase := py "Internal Server Error"; text := [] |}.

(** Collaborators whose PDF reader finds the given pages. *)
Definition reading (pages : list pystr) : Env :=
  {| pdf_reader := fun _ => returns (map returns pages);
     minio_upload := fun _ _ => returns (py "object");
     httpx_send := fun _ => raise (RequestError (py "no network"));
     db_fault := fun _ => None;
     fault_in_refresh := false |}.

Definition pdf_document : UploadFile :=
  {| filename := Some (py "offer.pdf"); content_type := Some (py "application/pdf");
     content := [] |}.

Definition five_pages : list pystr := [py "one"; py "two"; py "three"; py "four"; py "five"].
Definition six_pages : list pystr := five_pages ++ [py "six"].

(** The envelope of a flow result around the text [leaf], written with the
    apostrophe for the double quote. *)
Definition envelope (leaf : string) : pystr :=
  pyq "{'outputs':[{'outputs':[{'results':{'text':{'data':{'text':'"
  ++ pyq leaf ++ pyq "'}}}}]}]}".

Definition ok (body : pystr) : Response :=
  {| status_code := 200; reason_phrase := py "OK"; text := body |}.

(** Collaborators whose summary flow answers [summary] and whose skills flow
    answers [skills], each in its envelope. *)
Definition flows (summary skills : string) : Env :=
  {| pdf_reader := fun _ => raise (CollaboratorError (py "not a PDF"));
     minio_upload := fun _ _ => returns (py "object");
     httpx_send := fun req =>
       if contains (py "/run/summary") (url req)
       then returns (ok (envelope summary))
       else returns (ok (envelope skills));
     db_fault := fun _ => None;
     fault_in_refresh := false |}.

Definition example_settings : Settings :=
  {| LANGFLOW_SUMMARY_GENERATION_FLOW_ID := py "summary";
     LANGFLOW_SKILLS_EXTRACTION_FLOW_ID := py "skills";
     MINIO_JOB_OFFERS_BUCKET_NAME := py "job_offers" |}.

(** A plain-text upload with the given content type and bytes. *)
Definition upload (content_type : string) (content : list byte) : UploadFile :=
  {| filename := Some (py "offer"); content_type := Some (py content_type);
     content := content |}.

(** ** Vocabulary of the proofs about the pipeline *)

Definition is_extraction (ev : event) : bool :=
  match ev with Yielded | PageExtracted _ => true | _ => false end.

Definition is_repo (ev : event) : bool :=
  match ev with RepoCreate | RepoBulkCreate _ | RepoRemove _ => true | _ => false end.

Definition not_repo (ev : event) : bool := negb (is_repo ev).
Definition not_remove (ev : event) : bool := negb (is_remove ev).
Definition not_http (ev : event) : bool := negb (is_http ev).

(** Every run of [m] relates the state it starts from to the state it ends
    in by [R], whether it returns or raises. *)
Definition respects {A} (R : State -> State -> Prop) (m : M A) : Prop :=
  forall st st' r, m st = (st', r) -> R st st'.

(** The database and the local variable are the same, and the events added
    to the trace all satisfy [P]. *)
Definition untouched (P : event -> bool) (st st' : State) : Prop :=
  db st' = db st
  /\ job_offer_local st' = job_offer_local st
  /\ exists evs, trace st' = trace st ++ evs /\ forallb P evs = true.

(** The job offers and the local variable are the same, and no event added
    to the trace is a removal. *)
Definition kept (st st' : State) : Prop :=
  job_offers (db st') = job_offers (db st)
  /\ job_offer_local st' = job_offer_local st
  /\ exists evs, trace st' = trace st ++ evs /\ forallb not_remove evs = true.

(** A run of [m] from a state in [P] ends in [Qret] when it returns and in
    [Qexn] when it raises. *)
Definition hoare {A} (P : State -> Prop) (m : M A) (Qret : A -> State -> Prop)
    (Qexn : State -> Prop) : Prop :=
  forall st st' r, P st -> m st = (st', r) ->
    match r with inr a => Qret a st' | inl _ => Qexn st' end.

(** The states of [create_job_offer_body] started on the database [d]:
    before the job offer is created, once [job_offer] is bound to the created
    record [j], and at the exit of the body. *)
Definition before_creation (d : DB) (st : State) : Prop :=
  db st = d /\ job_offer_local st = None /\ forallb not_repo (trace st) = true.

Definition after_creation (d : DB) (j : JobOffer) (st : State) : Prop :=
  job_offers (db st) = job_offers d ++ [j]
  /\ id j = next_id d
  /\ job_offer_local st = Some j
  /\ In RepoCreate (trace st)
  /\ forallb not_remove (trace st) = true.

Definition at_exit (d : DB) (st : State) : Prop :=
  forallb not_remove (trace st) = true
  /\ match job_offer_local st with
     | Some j => job_offers (db st) = job_offers d ++ [j] /\ id j = next_id d
                 /\ In RepoCreate (trace st)
     | None => db st = d
     end.

(** The state right after [job_offer_repository.create] returned [j],
    [job_offer] not yet assigned. *)
Definition just_created (d : DB) (j : JobOffer) (st : State) : Prop :=
  job_offers (db st) = job_offers d ++ [j]
  /\ id j = next_id d
  /\ job_offer_local st = None
  /\ In RepoCreate (trace st)
  /\ forallb not_remove (trace st) = true.

(** What the handler of [create_job_offer] raises when the removal, if any,
    goes through. *)
Definition surfaced (cause : exn) : exn :=
  HTTPException 500 (Format (py "Error creating job offer: ") cause).

(** The run of the examples: a text document, a summary, and a skills text
    whose only record lacks two of the keys. *)
Definition incomplete_skills : Env :=
  flows "A summary" "{\'skills\':[{\'skill\':\'Go\'}]}".

Definition text_document : UploadFile := upload "text/plain" [x68; x69].

Definition failed_run : State * result json :=
  create_job_offer incomplete_skills example_settings example_client (py "Engineer")
    text_document (enter empty_db).

(** ** Vocabulary of the proofs about the scanner *)

(** Where a character of a JSON text stands: outside the string literals,
    inside one, or right after a backslash inside one. *)
Inductive lex_state := Outside | Inside | Escaping.

(** The characters that no JSON text has outside its string literals and
    that matter below: the backslash, the backtick and the letter k. *)
Definition never_outside (c : N) : bool := (c =? 92) || (c =? 96) || (c =? 107).

Definition lex_step (st : lex_state) (c : N) : option lex_state :=
  match st with
  | Outside =>
    if is_dquote c then Some Inside
    else if never_outside c then None
    else Some Outside
  | Inside =>
    if is_dquote c then Some Outside
    else if c =? 92 then Some Escaping
    else Some Inside
  | Escaping => Some Inside
  end.

(** The state after the text [s], read from the state [st]; [None] when a
    character of [never_outside] is met outside the string literals. *)
Fixpoint lex (st : lex_state) (s : pystr) : option lex_state :=
  match s with
  | [] => Some st
  | c :: r =>
    match lex_step st c with
    | Some st' => lex st' r
    | None => None
    end
  end.


(** The scanner went from [s] to [rest], and the characters it went over
    take the reader from the state [a] to the state [b]. *)
Definition reads (a b : lex_state) (s rest : pystr) : Prop :=
  exists consumed, s = consumed ++ rest /\ lex a consumed = Some b.



(** ** More of [app/utils/document_utils.py] *)

(** The text [extract_text_from_document] gives for a Word document, and
    the one it gives for a type it does not know. *)
Definition word_placeholder (content : list byte) : pystr :=
  py "Document content (binary): " ++ len_bytes content ++ py " bytes".

Definition unknown_placeholder (content_type : pystr) (content : list byte) : pystr :=
  py "Unknown document type: " ++ lower content_type ++ py ", size: "
  ++ len_bytes content ++ py " bytes".


(** A text of ASCII characters, on which [lower] is [str.lower]. *)
Definition ascii_only (s : pystr) : bool := forallb (fun c => c <? 128) s.

(** A page of whitespace only. *)
Definition whitespace_only (s : pystr) : bool := forallb isspace s.

(** What [process_document] raises when the PDF reader or a page fails
    with [cause]: the message goes through the handler of
    [extract_text_from_pdf] and through the handler of
    [extract_text_from_document]. *)
Definition pdf_refusal (cause : exn) : exn :=
  HTTPException 400
    (Format []
       (DocumentProcessingError
          (Format (py "Error extracting text from document: ")
             (DocumentProcessingError
                (Format (py "Error extracting text from PDF: ") cause))))).


(** ** More of [app/utils/langflow_utils.py] *)




(** ** More of [app/services/langflow_client.py] *)

(** The options [Flow.run] hands to [request], and the request that goes
    out for them. *)
Definition run_options (self : Flow) (inputs : list (pystr * json)) : RequestOptions.t :=
  {| RequestOptions.path := py "/run/" ++ flow_id self;
     RequestOptions.method := py "POST";
     RequestOptions.body :=
       Some (JObj (fold_left (fun d kv => dict_set (fst kv) (snd kv) d) inputs
                             [(py "tweaks", JObj (tweaks self))]));
     RequestOptions.headers := Some {[ py "Content-Type" := py "application/json" ]};
     RequestOptions.timeout := None |}.

Definition run_request (self : Flow) (inputs : list (pystr * json)) : HttpRequest :=
  LangflowClient.outgoing (client self) (run_options self inputs).

(** What [client.stream] answers: the response with its status line, and
    its body as [aiter_text] gives it in chunks and as [aiter_lines] gives it
    in lines, for a body that arrives whole. *)
Module StreamResponse.
Record t := {
  response : Response;
  aiter_text : list pystr;
  aiter_lines : list pystr;
}.
End StreamResponse.

(** What a generator gives when it is consumed to its end: the values it
    yields, and the exception that ends it, if one does. *)
Definition generated (A : Type) : Type := list A * option exn.

Module Stream.

(** The address of a streaming call: the streaming parameter is added to
    the address of the plain call. *)
Definition stream_url (self : LangflowClient) (options : RequestOptions.t) : pystr :=
  let url := base_url self ++ base_path self ++ RequestOptions.path options in
  if contains (py "?") url then url ++ py "&stream=true" else url ++ py "?stream=true".

(** The request that goes out: [client.stream(method, url, json=body,
    headers=headers)], whatever the method. *)
Definition outgoing (self : LangflowClient) (options : RequestOptions.t) : HttpRequest :=
  {| method := RequestOptions.method options;
     url := stream_url self options;
     headers := LangflowClient._set_headers self (default ∅ (RequestOptions.headers options));
     body := RequestOptions.body options |}.

(** The generator [stream_response] over the lines of the body. *)
Fixpoint stream_response (lines : list pystr) : generated json :=
  match lines with
  | [] => ([], None)
  | line :: rest =>
    match strip line with
    | [] => stream_response rest
    | _ :: _ =>
      match loads line with
      | inr event => let (events, ending) := stream_response rest in (event :: events, ending)
      | inl e => if is_JSONDecodeError e then stream_response rest else ([], Some e)
      end
    end
  end.

(** [await client.stream(...)]: the [stream] of an [httpx.AsyncClient]
    gives an asynchronous context manager, which cannot be awaited, and the
    [await] raises a [TypeError] before any request is sent. *)
Definition client_stream (req : HttpRequest) : M StreamResponse.t := throw TypeError.

Definition stream (self : LangflowClient) (options : RequestOptions.t) : M (generated json) :=
  let timeout := LangflowClient.effective_timeout self options in
  try_except
    (let* answer := client_stream (outgoing self options) in
     if negb (is_success (StreamResponse.response answer)) then
       let error_text := concat (StreamResponse.aiter_text answer) in
       throw (LangflowError
                (Text (str_int (status_code (StreamResponse.response answer)) ++ py " - "
                       ++ reason_phrase (StreamResponse.response answer) ++ py ": " ++ error_text))
                (Some (StreamResponse.response answer)))
     else ret (stream_response (StreamResponse.aiter_lines answer)))
    (fun e =>
       if is_TimeoutException e then
         throw (LangflowRequestError
                  (Text (py "Stream request timed out after " ++ str_int timeout ++ py "s")) e)
       else if is_RequestError e then
         throw (LangflowRequestError (Format (py "Stream request failed: ") e) e)
       else if is_LangflowError e then throw e
       else throw (LangflowRequestError (Format (py "Unexpected stream error: ") e) e)).

End Stream.

(** ** More of [app/repositories] *)

(** The rows are of the job offer [job_offer_id']. *)
Definition rows_of (job_offer_id' : Z) (rows : list JobOfferSkill) : Prop :=
  Forall (fun k => job_offer_id k = job_offer_id') rows.


(** ** More of [create_job_offer] *)

(** The record [job_offer_repository.create] adds for [obj_in] under the
    identifier [id']. *)
Definition created_row (id' : Z) (obj_in : JobOfferCreate.t) : JobOffer :=
  {| id := id';
     title := JobOfferCreate.title obj_in;
     summary := JobOfferCreate.summary obj_in;
     storage_url := JobOfferCreate.storage_url obj_in |}.

(** The two flows of [create_job_offer]. *)
Definition summary_flow (settings : Settings) (langflow_client : LangflowClient)
    (extracted_text : pystr) : Flow :=
  LangflowClient.flow langflow_client (LANGFLOW_SUMMARY_GENERATION_FLOW_ID settings)
    (Some (text_input_tweaks "Agent-gE9mt" "TextOutput-riQeq" "TextInput-cTRS8" "Prompt-kPUCU"
                             extracted_text)).

Definition skills_extraction_flow (settings : Settings) (langflow_client : LangflowClient)
    (extracted_text : pystr) : Flow :=
  LangflowClient.flow langflow_client (LANGFLOW_SKILLS_EXTRACTION_FLOW_ID settings)
    (Some (text_input_tweaks "Agent-tFpjL" "TextOutput-9JOx7" "TextInput-ZLrFC" "Prompt-NCiV2"
                             extracted_text)).

(** What [create_job_offer] does to the outside once the text is
    extracted, in the order of the code, when nothing fails: the upload, the
    two flows, the creation of the record with the identifier [id'] and the
    creation of its skills. *)
Definition steps_after_extraction (settings : Settings) (langflow_client : LangflowClient)
    (extracted_text : pystr) (id' : Z) : list event :=
  [ Uploaded (MINIO_JOB_OFFERS_BUCKET_NAME settings);
    HttpSent (run_request (summary_flow settings langflow_client extracted_text) text_io);
    HttpSent (run_request (skills_extraction_flow settings langflow_client extracted_text) text_io);
    RepoCreate;
    RepoBulkCreate id' ].




(** ** The position in the uploaded file *)

(** A [fastapi.UploadFile] as the code reads it: the upload, and the
    position in its bytes where the next [read] starts. *)
Module File.

Record t := {
  upload : UploadFile;
  position : nat;
}.

(** [await file.seek(offset)] *)
Definition seek (file : t) (offset : nat) : t :=
  {| upload := upload file; position := offset |}.

(** [await file.read()]: the bytes from the position on, the position
    moving to the end. *)
Definition read (file : t) : list byte * t :=
  (skipn (position file) (content (upload file)),
   {| upload := upload file;
      position := Nat.max (position file) (length (content (upload file))) |}).

(** The file read to its end. *)
Definition at_end (document : UploadFile) : t :=
  {| upload := document; position := length (content document) |}.

End File.

(** ** [app/services/storage.py] *)

(** The arguments of [client.put_object]. *)
Module PutObject.
Record t := {
  bucket_name : pystr;
  object_name : pystr;
  data : list byte;
  length : nat;
  content_type : option pystr;
}.
End PutObject.

Module MinioService.

(** The service with the collaborators of its methods and of the handlers
    that go through its [client]: the extension [os.path.splitext] finds in
    a name, the text of the identifier [uuid.uuid4] draws, and what
    [client.put_object] and [client.remove_object] answer. *)
Record t := {
  splitext : pystr -> pystr * pystr;
  uuid4 : pystr;
  put_object : PutObject.t -> result unit;
  remove_object : pystr -> pystr -> result unit;
}.

(** [minio_service.bucket_name]: [__init__] sets [client],
    [job_offers_bucket_name] and [candidates_bucket_name], and the class has
    no attribute of this name. *)
Definition bucket_name (self : t) : result pystr := raise AttributeError.

(** [upload_file]: the handler of [S3Error] raises the exception again,
    and the other exceptions are not caught. *)
Definition upload_file (self : t) (file : File.t) (bucket_name : pystr)
  : result pystr * File.t :=
  let file_extension :=
    match filename (File.upload file) with
    | Some (c :: name) => snd (splitext self (c :: name))
    | _ => []
    end in
  let object_name := uuid4 self ++ file_extension in
  let (file_content, file) := File.read file in
  let file_size := List.length file_content in
  match put_object self {| PutObject.bucket_name := bucket_name;
                           PutObject.object_name := object_name;
                           PutObject.data := file_content;
                           PutObject.length := file_size;
                           PutObject.content_type := content_type (File.upload file) |} with
  | inr _ => (returns object_name, file)
  | inl e => (raise e, file)
  end.

(** A call of [upload_file] with or without its second argument: a call
    that leaves out the required [bucket_name] is refused with a [TypeError]
    before anything of the function runs. *)
Definition call_upload_file (self : t) (file : File.t) (bucket_name : option pystr)
  : result pystr * File.t :=
  match bucket_name with
  | Some name => upload_file self file name
  | None => (raise TypeError, file)
  end.

End MinioService.

(** ** The pipeline with the position in the file *)

Module Cursor.

Definition extract_text_from_pdf (env : Env) (pdf_file : File.t) : M (pystr * File.t) :=
  try_except
    (let pdf_file := File.seek pdf_file 0 in
     let (content, pdf_file) := File.read pdf_file in
     let* pages := lift (pdf_reader env content) in
     let* text := extract_pages pages 0 [] in
     ret (text, pdf_file))
    (fun e => throw (DocumentProcessingError (Format (py "Error extracting text from PDF: ") e))).

Definition extract_text_from_document (env : Env) (document : File.t) : M (pystr * File.t) :=
  try_except
    (let* content_type :=
       lift (match content_type (File.upload document) with
             | Some t => returns (lower t)
             | None => raise AttributeError
             end) in
     if contains (py "pdf") content_type then
       extract_text_from_pdf env document
     else if contains (py "docx") content_type || contains (py "doc") content_type
             || contains (py "word") content_type then
       let document := File.seek document 0 in
       let (content, document) := File.read document in
       ret (py "Document content (binary): " ++ len_bytes content ++ py " bytes", document)
     else if contains (py "text/plain") content_type then
       let document := File.seek document 0 in
       let (content, document) := File.read document in
       let* text := lift (Utf8.decode content) in
       ret (text, document)
     else
       let document := File.seek document 0 in
       let (content, document) := File.read document in
       ret (py "Unknown document type: " ++ content_type ++ py ", size: "
            ++ len_bytes content ++ py " bytes", document))
    (fun e => throw (DocumentProcessingError (Format (py "Error extracting text from document: ") e))).

Definition process_document (env : Env) (document : File.t) : M ((pystr * Q) * File.t) :=
  try_except
    (validate_document_type (File.upload document);;
     let* (extracted_text, document) := extract_text_from_document env document in
     if blank extracted_text
     then throw (HTTPException 400 (Text (py "Could not extract text from document")))
     else ret ((extracted_text, size_kb extracted_text), document))
    (fun e =>
       if is_DocumentProcessingError e then throw (HTTPException 400 (Format [] e))
       else if is_HTTPException e then throw e
       else throw (HTTPException 500 (Format (py "Error processing document: ") e))).

(** The body of the [try] of [create_job_offer]. *)
Definition create_job_offer_body (env : Env) (minio_service : MinioService.t)
    (settings : Settings) (langflow_client : LangflowClient)
    (title : pystr) (document : File.t) : M json :=
  let* ((extracted_text, text_size_kb), document) := process_document env document in
  emit (Uploaded (MINIO_JOB_OFFERS_BUCKET_NAME settings));;
  let (uploaded, document) :=
    MinioService.upload_file minio_service document (MINIO_JOB_OFFERS_BUCKET_NAME settings) in
  let* object_name := lift uploaded in
  let document := File.seek document 0 in
  let summary_flow :=
    LangflowClient.flow langflow_client (LANGFLOW_SUMMARY_GENERATION_FLOW_ID settings)
      (Some (text_input_tweaks "Agent-gE9mt" "TextOutput-riQeq" "TextInput-cTRS8" "Prompt-kPUCU"
                               extracted_text)) in
  let skills_extraction_flow :=
    LangflowClient.flow langflow_client (LANGFLOW_SKILLS_EXTRACTION_FLOW_ID settings)
      (Some (text_input_tweaks "Agent-tFpjL" "TextOutput-9JOx7" "TextInput-ZLrFC" "Prompt-NCiV2"
                               extracted_text)) in
  let* summary_result := Flow.run env summary_flow text_io in
  let* skills_result := Flow.run env skills_extraction_flow text_io in
  let* summary_text := lift (leaf_text summary_result) in
  let* skills_text := lift (leaf_text skills_result) in
  let* obj_in := lift (JobOfferCreate.make title summary_text object_name) in
  let* job_offer := JobOfferRepository.create env obj_in in
  assign_job_offer job_offer;;
  let* skills := lift (parse_skills_value skills_text) in
  JobOfferSkillRepository.bulk_create env (id job_offer) skills;;
  db_call_point env CallLoad;;
  ret (created_response job_offer summary_text skills_text).

Definition create_job_offer (env : Env) (minio_service : MinioService.t)
    (settings : Settings) (langflow_client : LangflowClient)
    (title : pystr) (document : File.t) : M json :=
  try_except
    (create_job_offer_body env minio_service settings langflow_client title document)
    (fun e =>
       let* job_offer := lookup_job_offer in
       match job_offer with
       | Some j => JobOfferRepository.remove env (id j)
       | None => ret tt
       end;;
       throw (HTTPException 500 (Format (py "Error creating job offer: ") e))).

End Cursor.

(** The upload of a file that was read to its end: an object of no byte. *)
Definition empty_object (minio_service : MinioService.t) (document : UploadFile)
    (bucket_name : pystr) : PutObject.t :=
  {| PutObject.bucket_name := bucket_name;
     PutObject.object_name :=
       MinioService.uuid4 minio_service
       ++ match filename document with
          | Some (c :: name) => snd (MinioService.splitext minio_service (c :: name))
          | _ => []
          end;
     PutObject.data := [];
     PutObject.length := 0;
     PutObject.content_type := content_type document |}.

(** The collaborators of the pipeline, the upload being the storage of
    the empty object. *)
Definition storing_empty (env : Env) (minio_service : MinioService.t) : Env :=
  {| pdf_reader := pdf_reader env;
     minio_upload := fun document bucket_name =>
       match MinioService.put_object minio_service
               (empty_object minio_service document bucket_name) with
       | inr _ => returns (PutObject.object_name
                             (empty_object minio_service document bucket_name))
       | inl e => raise e
       end;
     httpx_send := httpx_send env;
     db_fault := db_fault env;
     fault_in_refresh := fault_in_refresh env |}.


(** ** The other handlers of [app/api/routers/job_offers.py] *)

Module JobOfferUpdate.
Record t := {
  title : option pystr;
  summary : option pystr;
  storage_url : option pystr;
}.
End JobOfferUpdate.

(** The methods [get] and [update] that the repositories inherit from
    [BaseRepository], of [repositories/base.py], which is not among the
    sources: the handlers are taken with whatever these two methods do. *)
Module BaseRepository.
Record t := {
  get : Z -> M (option JobOffer);
  update : JobOffer -> JobOfferUpdate.t -> M JobOffer;
}.
End BaseRepository.

(** [db.add(job_offer); db.commit(); db.refresh(job_offer)] on a record
    that was loaded and changed: the row of its identifier is written, with
    what the session held; [fault] is the failure of the commit, if it
    fails. *)
Definition commit_job_offer (fault : option exn) (job_offer : JobOffer) : M unit :=
  match fault with
  | Some e => throw e
  | None =>
    let* d := get_db in
    put_db {| job_offers :=
                map (fun row => if (id row =? id job_offer)%Z then job_offer else row)
                    (job_offers d);
              job_offers_skills := job_offers_skills d ++ pending d;
              pending := [];
              next_id := next_id d |}
  end.

(** [JobOfferRepository.update_storage_url] *)
Definition update_storage_url (repository : BaseRepository.t) (fault : option exn)
    (job_offer_id : Z) (storage_url : pystr) : M (option JobOffer) :=
  let* job_offer := BaseRepository.get repository job_offer_id in
  match job_offer with
  | Some j =>
    let j := {| id := id j; title := title j; summary := summary j;
                storage_url := Some storage_url |} in
    commit_job_offer fault j;;
    ret (Some j)
  | None => ret None
  end.

(** The types [update_job_offer] allows. *)
Definition allowed_types : list pystr :=
  [ py "application/pdf";
    py "application/msword";
    py "application/vnd.openxmlformats-officedocument.wordprocessingml.document";
    py "text/plain";
    py "application/vnd.ms-excel";
    py "application/vnd.openxmlformats-officedocument.spreadsheetml.sheet" ].

(** The truth value of an optional text: [None] and the empty text are
    falsy. *)
Definition truthy (s : option pystr) : bool :=
  match s with Some (_ :: _) => true | _ => false end.

(** The removal of the stored file, as both handlers write it: the
    arguments are evaluated before the call, and every exception is caught
    and printed. *)
Definition remove_stored_file (minio_service : MinioService.t) (storage_url : pystr) : M unit :=
  try_except
    (let* bucket_name := lift (MinioService.bucket_name minio_service) in
     lift (MinioService.remove_object minio_service bucket_name storage_url))
    (fun e => ret tt).

(** The update of the title and of the summary, when one is given. *)
Definition update_basic (repository : BaseRepository.t) (job_offer : JobOffer)
    (title summary : option pystr) : M JobOffer :=
  match title, summary with
  | None, None => ret job_offer
  | _, _ =>
    BaseRepository.update repository job_offer
      {| JobOfferUpdate.title := title; JobOfferUpdate.summary := summary;
         JobOfferUpdate.storage_url := None |}
  end.

Definition update_job_offer (repository : BaseRepository.t) (fault : option exn)
    (minio_service : MinioService.t) (job_offer_id : Z) (title summary : option pystr)
    (file : option File.t) (replace_file : bool) : M (option JobOffer) :=
  let* job_offer := BaseRepository.get repository job_offer_id in
  match job_offer with
  | None => throw (HTTPException 404 (Text (py "Job offer not found")))
  | Some job_offer =>
    let* job_offer := update_basic repository job_offer title summary in
    match file with
    | Some file =>
      if truthy (filename (File.upload file)) then
        if negb (match content_type (File.upload file) with
                 | Some t => existsb (str_eqb t) allowed_types
                 | None => false
                 end)
        then throw (HTTPException 400
                      (Text (py "File must be a PDF, Word document, text file, or Excel spreadsheet")))
        else
          try_except
            ((if replace_file && truthy (storage_url job_offer)
              then remove_stored_file minio_service (default [] (storage_url job_offer))
              else ret tt);;
             let (uploaded, file) := MinioService.call_upload_file minio_service file None in
             let* object_name := lift uploaded in
             update_storage_url repository fault job_offer_id object_name)
            (fun e => throw (HTTPException 500 (Format (py "Error handling file: ") e)))
      else ret (Some job_offer)
    | None => ret (Some job_offer)
    end
  end.

Definition delete_job_offer (env : Env) (repository : BaseRepository.t)
    (minio_service : MinioService.t) (job_offer_id : Z) : M unit :=
  let* job_offer := BaseRepository.get repository job_offer_id in
  match job_offer with
  | None => throw (HTTPException 404 (Text (py "Job offer not found")))
  | Some job_offer =>
    (if truthy (storage_url job_offer)
     then remove_stored_file minio_service (default [] (storage_url job_offer))
     else ret tt);;
    JobOfferRepository.remove env job_offer_id
  end.

(** What [update_job_offer] raises on a file. *)
Definition file_refusal (declared : option pystr) : exn :=
  if match declared with
     | Some t => existsb (str_eqb t) allowed_types
     | None => false
     end
  then HTTPException 500 (Format (py "Error handling file: ") TypeError)
  else HTTPException 400
         (Text (py "File must be a PDF, Word document, text file, or Excel spreadsheet")).


(** ** More collaborators and runs of the examples *)

(** Collaborators whose PDF reader finds the pages [good] and then a page
    whose extraction fails with [cause]. *)
Definition stopping_after (good : list pystr) (cause : exn) : Env :=
  {| pdf_reader := fun _ => returns (map returns good ++ [raise cause; returns (py "last")]);
     minio_upload := fun _ _ => returns (py "object");
     httpx_send := fun _ => raise (RequestError (py "no network"));
     db_fault := fun _ => None;
     fault_in_refresh := false |}.

(** The run of the examples that goes through: the skills text has one
    record with the three keys. *)
Definition complete_skills : Env :=
  flows "A summary" "{\'skills\':[{\'skill\':\'Go\',\'expertise_level\':3,\'priority\':\'high\'}]}".

Definition created_run : State * result json :=
  create_job_offer complete_skills example_settings example_client (py "Engineer")
    text_document (enter empty_db).

(** The collaborators of [incomplete_skills], the removal failing. *)
Definition removal_failing : Env :=
  {| pdf_reader := pdf_reader incomplete_skills;
     minio_upload := minio_upload incomplete_skills;
     httpx_send := httpx_send incomplete_skills;
     db_fault := fun c =>
       match c with
       | CallRemove => Some (CollaboratorError (py "connection lost"))
       | _ => None
       end;
     fault_in_refresh := false |}.

Definition unremoved_run : State * result json :=
  create_job_offer removal_failing example_settings example_client (py "Engineer")
    text_document (enter empty_db).




(** A repository over the table of the model. *)
Definition table_repository : BaseRepository.t :=
  {| BaseRepository.get := fun id' =>
       let* d := get_db in
       ret (List.find (fun row => (id row =? id')%Z) (job_offers d));
     BaseRepository.update := fun job_offer obj_in =>
       let row := {| id := id job_offer;
                     title := default (title job_offer) (JobOfferUpdate.title obj_in);
                     summary := match JobOfferUpdate.summary obj_in with
                                | Some s => Some s
                                | None => summary job_offer
                                end;
                     storage_url := storage_url job_offer |} in
       commit_job_offer None row;;
       ret row |}.

Definition one_offer : DB :=
  {| job_offers := [{| id := 1; title := py "Engineer"; summary := None;
                       storage_url := Some (py "object.pdf") |}];
     job_offers_skills := []; pending := []; next_id := 2 |}.

Definition example_minio : MinioService.t :=
  {| MinioService.splitext := fun name => (name, []);
     MinioService.uuid4 := py "0b5e";
     MinioService.put_object := fun _ => returns tt;
     MinioService.remove_object := fun _ _ => returns tt |}.

(** An answer without a body. *)
Definition no_content : Response :=
  {| status_code := 204; reason_phrase := py "No Content"; text := [] |}.


(** * Properties *)

(** ** The JSON scanner terminates within its bound *)

Section Scanner.

Lemma skip_ws_length s : (length (skip_ws s) <= length s)%nat.
Proof. induction s as [|c r IH]; simpl; [lia|]. destruct (is_ws c); simpl; lia. Qed.

Lemma strip_prefix_length p : forall s r,
  strip_prefix p s = Some r -> length s = (length p + length r)%nat.
Proof.
  induction p as [|a p IH]; intros s r H; simpl in *.
  - destruct s; inversion H; reflexivity.
  - destruct s as [|b s]; [discriminate|].
    destruct (a =? b); [|discriminate]. simpl. rewrite (IH _ _ H). reflexivity.
Qed.

Lemma push_length {A} (x : A) o l rest :
  push x o = Some (l, rest) -> exists l', o = Some (l', rest).
Proof. destruct o as [[l' r']|]; simpl; intros H; inversion H; eauto. Qed.

Lemma scanchunks_length : forall s l rest,
  scanchunks s = Some (l, rest) -> (length rest < length s)%nat.
Proof.
  intros s. remember (length s) as n eqn:Hn.
  revert s Hn. induction n as [n IH] using lt_wf_ind. intros s Hn l rest H.
  destruct s as [|c r]; [discriminate|]. simpl in H.
  destruct (is_dquote c). { inversion H; subst. simpl. lia. }
  destruct (is_char "\" c).
  - destruct r as [|e r1]; [discriminate|].
    destruct (is_char "u" e).
    + destruct r1 as [|h1 [|h2 [|h3 [|h4 r2]]]]; try discriminate.
      destruct (hex4 h1 h2 h3 h4); [|discriminate].
      apply push_length in H as [l' H].
      eapply (IH (length r2)) in H; [|subst; simpl; lia|reflexivity]. simpl in *. lia.
    + destruct (simple_escape e); [|discriminate].
      apply push_length in H as [l' H].
      eapply (IH (length r1)) in H; [|subst; simpl; lia|reflexivity]. simpl in *. lia.
  - destruct (c <? 32); [discriminate|].
    apply push_length in H as [l' H].
    eapply (IH (length r)) in H; [|subst; simpl; lia|reflexivity]. simpl in *. lia.
Qed.

Lemma scanstring_length s str rest :
  scanstring s = Some (str, rest) -> (length rest < length s)%nat.
Proof.
  unfold scanstring. destruct (scanchunks s) as [[l r]|] eqn:E; [|discriminate].
  intros H; inversion H; subst. eapply scanchunks_length; eauto.
Qed.

Lemma span_digits_length s : (length (snd (span_digits s)) <= length s)%nat.
Proof.
  induction s as [|c r IH]; simpl; [lia|].
  destruct (is_digit c); simpl; [|lia].
  destruct (span_digits r); simpl in *; lia.
Qed.

Lemma match_integer_length s d rest :
  match_integer s = Some (d, rest) -> (length rest < length s)%nat.
Proof.
  destruct s as [|c r]; simpl; [discriminate|].
  destruct (is_char "0" c). { intros H; inversion H; subst; simpl; lia. }
  destruct (is_digit c); [|discriminate].
  pose proof (span_digits_length r). destruct (span_digits r).
  intros H'; inversion H'; subst; simpl in *; lia.
Qed.

Lemma match_frac_length s : (length (snd (match_frac s)) <= length s)%nat.
Proof.
  destruct s as [|c r]; simpl; [lia|].
  destruct (is_char "." c); simpl; [|lia].
  pose proof (span_digits_length r). destruct (span_digits r) as [[|x d] rest]; simpl in *; lia.
Qed.

Lemma match_exp_length s : (length (snd (match_exp s)) <= length s)%nat.
Proof.
  unfold match_exp. destruct s as [|c r]; [simpl; lia|].
  destruct (is_char "e" c || is_char "E" c); [|simpl; lia].
  destruct r as [|sg r']; [simpl; lia|].
  destruct (is_char "-" sg || is_char "+" sg).
  - pose proof (span_digits_length r').
    destruct (span_digits r') as [[|x d] rest]; simpl in *; lia.
  - pose proof (span_digits_length (sg :: r')).
    destruct (span_digits (sg :: r')) as [[|x d] rest]; simpl in *; lia.
Qed.

Lemma match_number_length s v rest :
  match_number s = Scanned v rest -> (length rest < length s)%nat.
Proof.
  unfold match_number.
  set (p := match s with c :: r => if is_char "-" c then (true, r) else (false, s) | [] => (false, s) end).
  assert (Hp : (length (snd p) <= length s)%nat).
  { subst p. destruct s as [|c r]; simpl; [lia|]. destruct (is_char "-" c); simpl; lia. }
  destruct p as [neg s1]. simpl in Hp.
  destruct (match_integer s1) as [[ip s2]|] eqn:E1; [|discriminate].
  apply match_integer_length in E1.
  pose proof (match_frac_length s2) as H2. destruct (match_frac s2) as [frac s3]. simpl in H2.
  pose proof (match_exp_length s3) as H3. destruct (match_exp s3) as [ex s4]. simpl in H3.
  destruct frac, ex; intros H; inversion H; subst; lia.
Qed.

Lemma match_number_fuel s : match_number s <> Exhausted.
Proof.
  unfold match_number.
  destruct (match s with c :: r => if is_char "-" c then (true, r) else (false, s) | [] => (false, s) end) as [neg s1].
  destruct (match_integer s1) as [[ip s2]|]; [|discriminate].
  destruct (match_frac s2) as [frac s3]. destruct (match_exp s3) as [ex s4].
  destruct frac, ex; discriminate.
Qed.

Lemma scan_scalar_length s v rest :
  scan_scalar s = Scanned v rest -> (length rest < length s)%nat.
Proof.
  unfold scan_scalar.
  repeat match goal with
         | |- context [strip_prefix ?p s] =>
           let E := fresh "E" in
           destruct (strip_prefix p s) eqn:E;
           [ apply strip_prefix_length in E; intros H; inversion H; subst;
             rewrite E; unfold py; simpl; lia | ]
         end.
  apply match_number_length.
Qed.

Lemma scan_scalar_fuel s : scan_scalar s <> Exhausted.
Proof.
  unfold scan_scalar.
  repeat match goal with
         | |- context [strip_prefix ?p s] => destruct (strip_prefix p s); [discriminate|]
         end.
  apply match_number_fuel.
Qed.

Lemma scan_shrinks fuel :
  (forall s v rest, scan_once fuel s = Scanned v rest -> (length rest < length s)%nat)
  /\ (forall s acc v rest, array_items fuel s acc = Scanned v rest -> (length rest < length s)%nat)
  /\ (forall s acc v rest, object_members fuel s acc = Scanned v rest -> (length rest < length s)%nat).
Proof.
  induction fuel as [|fuel (IHs & IHa & IHo)]; [repeat split; intros; discriminate|].
  repeat split.
  - intros s v rest H. destruct s as [|c r]; [discriminate|]. cbn [scan_once] in H.
    destruct (is_dquote c).
    { destruct (scanstring r) as [[str rest']|] eqn:E; [|discriminate].
      apply scanstring_length in E. inversion H; subst. simpl. lia. }
    destruct (is_char "{" c).
    { pose proof (skip_ws_length r) as Hw.
      destruct (skip_ws r) as [|c' r']; [discriminate|]. simpl in Hw.
      destruct (is_char "}" c'). { inversion H; subst. simpl. lia. }
      destruct (is_dquote c'); [|discriminate].
      apply IHo in H. simpl. lia. }
    destruct (is_char "[" c).
    { pose proof (skip_ws_length r) as Hw.
      destruct (skip_ws r) as [|c' r']; [discriminate|]. simpl in Hw.
      destruct (is_char "]" c'). { inversion H; subst. simpl. lia. }
      apply IHa in H. simpl in *. lia. }
    apply scan_scalar_length in H. exact H.
  - intros s acc v rest H. cbn [array_items] in H.
    destruct (scan_once fuel s) as [v0 rest0| |] eqn:E; try discriminate.
    apply IHs in E. pose proof (skip_ws_length rest0) as Hw.
    destruct (skip_ws rest0) as [|c r]; [discriminate|]. simpl in Hw.
    destruct (is_char "]" c). { inversion H; subst. lia. }
    destruct (is_char "," c); [|discriminate].
    apply IHa in H. pose proof (skip_ws_length r). lia.
  - intros s acc v rest H. cbn [object_members] in H.
    destruct (scanstring s) as [[key rest0]|] eqn:E; [|discriminate].
    apply scanstring_length in E. pose proof (skip_ws_length rest0) as Hw.
    destruct (skip_ws rest0) as [|c r]; [discriminate|]. simpl in Hw.
    destruct (is_char ":" c); [|discriminate].
    destruct (scan_once fuel (skip_ws r)) as [v0 rest1| |] eqn:E1; try discriminate.
    apply IHs in E1. pose proof (skip_ws_length r) as Hw1.
    pose proof (skip_ws_length rest1) as Hw2.
    destruct (skip_ws rest1) as [|c' r']; [discriminate|]. simpl in Hw2.
    destruct (is_char "}" c'). { inversion H; subst. lia. }
    destruct (is_char "," c'); [|discriminate].
    pose proof (skip_ws_length r') as Hw3.
    destruct (skip_ws r') as [|q r'']; [discriminate|]. simpl in Hw3.
    destruct (is_dquote q); [|discriminate].
    apply IHo in H. lia.
Qed.

Lemma scan_fuel fuel :
  (forall s, (2 * length s + 1 <= fuel)%nat -> scan_once fuel s <> Exhausted)
  /\ (forall s acc, (2 * length s + 2 <= fuel)%nat -> array_items fuel s acc <> Exhausted)
  /\ (forall s acc, (2 * length s + 2 <= fuel)%nat -> object_members fuel s acc <> Exhausted).
Proof.
  induction fuel as [|fuel (IHs & IHa & IHo)]; [repeat split; intros; lia|].
  repeat split.
  - intros s Hf. destruct s as [|c r]; [discriminate|]. cbn [scan_once]. simpl in Hf.
    destruct (is_dquote c). { destruct (scanstring r) as [[str rest']|]; discriminate. }
    destruct (is_char "{" c).
    { pose proof (skip_ws_length r) as Hw.
      destruct (skip_ws r) as [|c' r']; [discriminate|]. simpl in Hw.
      destruct (is_char "}" c'); [discriminate|].
      destruct (is_dquote c'); [|discriminate].
      apply IHo. lia. }
    destruct (is_char "[" c).
    { pose proof (skip_ws_length r) as Hw.
      destruct (skip_ws r) as [|c' r']; [discriminate|]. simpl in Hw.
      destruct (is_char "]" c'); [discriminate|].
      apply IHa. simpl. lia. }
    apply scan_scalar_fuel.
  - intros s acc Hf. cbn [array_items].
    destruct (scan_once fuel s) as [v0 rest0| |] eqn:E; [|discriminate|].
    + apply (proj1 (scan_shrinks fuel)) in E. pose proof (skip_ws_length rest0) as Hw.
      destruct (skip_ws rest0) as [|c r]; [discriminate|]. simpl in Hw.
      destruct (is_char "]" c); [discriminate|].
      destruct (is_char "," c); [|discriminate].
      apply IHa. pose proof (skip_ws_length r). lia.
    + exfalso. revert E. apply IHs. lia.
  - intros s acc Hf. cbn [object_members].
    destruct (scanstring s) as [[key rest0]|] eqn:E; [|discriminate].
    apply scanstring_length in E. pose proof (skip_ws_length rest0) as Hw.
    destruct (skip_ws rest0) as [|c r]; [discriminate|]. simpl in Hw.
    destruct (is_char ":" c); [|discriminate].
    pose proof (skip_ws_length r) as Hw1.
    destruct (scan_once fuel (skip_ws r)) as [v0 rest1| |] eqn:E1; [|discriminate|].
    + apply (proj1 (scan_shrinks fuel)) in E1.
      pose proof (skip_ws_length rest1) as Hw2.
      destruct (skip_ws rest1) as [|c' r']; [discriminate|]. simpl in Hw2.
      destruct (is_char "}" c'); [discriminate|].
      destruct (is_char "," c'); [|discriminate].
      pose proof (skip_ws_length r') as Hw3.
      destruct (skip_ws r') as [|q r'']; [discriminate|]. simpl in Hw3.
      destruct (is_dquote q); [|discriminate].
      apply IHo. lia.
    + exfalso. revert E1. apply IHs. lia.
Qed.

(** The recursion bound of [decode] is never reached: the model of
    [json.loads] fails only where the scanner stops. *)
Lemma decode_never_exhausted s : decode s <> Exhausted.
Proof.
  unfold decode.
  assert (H : scan_once (fuel_for s) (skip_ws s) <> Exhausted).
  { apply (proj1 (scan_fuel (fuel_for s))). unfold fuel_for.
    pose proof (skip_ws_length s). lia. }
  destruct (startswith byte_order_mark s); [discriminate|].
  destruct (scan_once (fuel_for s) (skip_ws s)) as [v rest| |];
    [destruct (skip_ws rest)| |]; congruence.
Qed.

End Scanner.

(** ** A text that decodes holds no fenced block of skills *)

Section Lexer.











Lemma reads_suffix a b s rest : reads a b s rest -> exists x, s = x ++ rest.
Proof. intros (x & H & _). eauto. Qed.























End Lexer.

Section Keys.

Lemma str_eqb_eq a : forall b, str_eqb a b = true -> a = b.
Proof.
  induction a as [|x a IH]; intros [|y b] H; cbn in H; try discriminate; [reflexivity|].
  apply andb_prop in H as [H1 H2]. apply N.eqb_eq in H1. subst y.
  rewrite (IH _ H2). reflexivity.
Qed.













End Keys.

Section FencedBlock.








End FencedBlock.
(** ** The skill response parser *)

Section Parser.

(** In the model [json.loads] raises nothing but [JSONDecodeError]. *)
Lemma loads_raises s e : loads s = raise e -> e = JSONDecodeError.
Proof.
  unfold loads. destruct (decode s); intros H; inversion H; reflexivity.
Qed.


(** The steps and the answer of the parser, case by case. *)
Lemma parse_run_whole s data :
  loads s = returns data ->
  parse_skills_response_run s =
    ([DecodeWhole], returns (default (JArr []) (field (py "skills") data))).
Proof.
  intros H. unfold parse_skills_response_run. rewrite H.
  unfold returns. cbv beta iota.
  destruct (field (py "skills") data); reflexivity.
Qed.

Lemma parse_run_fence s block :
  loads s = raise JSONDecodeError -> Fence.search s = Some block ->
  parse_skills_response_run s =
    ([DecodeWhole; SearchFence; DecodeFence block],
     returns match loads block with
             | inr data => default (JArr []) (field (py "skills") data)
             | inl _ => JArr []
             end).
Proof.
  intros H1 H2. unfold parse_skills_response_run. rewrite H1, H2.
  unfold raise, returns. cbn [is_JSONDecodeError].
  destruct (loads block) as [e|data] eqn:E.
  - apply loads_raises in E as ->. reflexivity.
  - destruct (field (py "skills") data); reflexivity.
Qed.

End Parser.

(** C3, on the code: the text of an object whose [skills] field is a
    number decodes, and the parser returns the number, which is no list,
    where its signature announces a list of dictionaries. *)
Lemma parse_skills_response_not_a_list :
  parse_skills_response (pyq "{'skills': 5}") = returns (JInt 5)
  /\ ~ (exists items, parse_skills_response (pyq "{'skills': 5}") = returns (JArr items)).
Proof.
  assert (H : parse_skills_response (pyq "{'skills': 5}") = returns (JInt 5))
    by (vm_compute; reflexivity).
  split; [exact H|]. intros [items Hi]. rewrite H in Hi. discriminate.
Qed.

(** The two texts of the specification. *)
Example parse_not_json :
  parse_skills_response (py "not json at all") = returns (JArr []).
Proof. vm_compute. reflexivity. Qed.

Example parse_one_skill :
  parse_skills_response (pyq "{'skills':[{'skill':'Go'}]}")
  = returns (JArr [JObj [(py "skill", JStr (py "Go"))]]).
Proof. vm_compute. reflexivity. Qed.

(** ** The headers of a flow request *)

(** C5: with a non-empty API key configured, the effective headers are the
    default headers overridden by the headers of the call, with [x-api-key]
    then set to the configured key, whatever the caller gave for it. *)
Theorem set_headers_merges (self : LangflowClient) (headers : gmap pystr pystr) (key : pystr) :
  api_key self = Some key ->
  key <> [] ->
  let effective := LangflowClient._set_headers self headers in
  effective = <[py "x-api-key" := key]> (headers ∪ default_headers self)
  /\ effective !! py "x-api-key" = Some key
  /\ (forall name value,
         name <> py "x-api-key" -> headers !! name = Some value ->
         effective !! name = Some value)
  /\ (forall name,
         name <> py "x-api-key" -> headers !! name = None ->
         effective !! name = default_headers self !! name).
Proof.
  intros Hk Hne effective.
  assert (E : effective = <[py "x-api-key" := key]> (headers ∪ default_headers self)).
  { subst effective. unfold LangflowClient._set_headers. rewrite Hk.
    destruct key; [contradiction|reflexivity]. }
  split; [exact E|]. rewrite E. repeat split.
  - apply lookup_insert_eq.
  - intros name value Hn Hl. rewrite lookup_insert_ne by congruence.
    apply lookup_union_Some_l. exact Hl.
  - intros name Hn Hl. rewrite lookup_insert_ne by congruence.
    apply lookup_union_r. exact Hl.
Qed.

(** The example of the specification: defaults [{"A":"1"}], headers of the
    call [{"A":"2","B":"3"}]. *)
Lemma set_headers_merges_witness :
  LangflowClient._set_headers
    {| base_url := py "localhost:7860"; base_path := py "/api/v1";
       api_key := Some (py "secret"); timeout := 30;
       default_headers := {[ py "A" := py "1" ]} |}
    (<[py "A" := py "2"]> {[ py "B" := py "3" ]})
  = <[py "A" := py "2"]> (<[py "B" := py "3"]> {[ py "x-api-key" := py "secret" ]}).
Proof.
  rewrite (proj1 (set_headers_merges
                    {| base_url := py "localhost:7860"; base_path := py "/api/v1";
                       api_key := Some (py "secret"); timeout := 30;
                       default_headers := {[ py "A" := py "1" ]} |}
                    (<[py "A" := py "2"]> {[ py "B" := py "3" ]})
                    (py "secret") eq_refl ltac:(discriminate))).
  vm_compute. reflexivity.
Defined.

(** ** The errors of a flow call *)

(** Unfolding of the monad of the pipeline. *)
Ltac monad_unfold :=
  unfold try_except, bind, emit, lift, throw, ret, get_db, put_db, assign_job_offer,
    lookup_job_offer, db_call_point, returns, raise in *;
  cbv beta iota zeta.

Section Request.

Context (env : Env) (self : LangflowClient) (options : RequestOptions.t).


(** What [request] does with each answer of the transport. *)
Lemma request_transport_error st e :
  httpx_send env (LangflowClient.outgoing self options) = raise e ->
  LangflowClient.request env self options st =
    (sent self options st,
     raise (if is_TimeoutException e then
              LangflowRequestError
                (Text (py "Request timed out after "
                       ++ str_int (LangflowClient.effective_timeout self options) ++ py "s")) e
            else if is_RequestError e then
              LangflowRequestError (Format (py "Request failed: ") e) e
            else if is_LangflowError e then e
            else LangflowRequestError (Format (py "Unexpected error: ") e) e)).
Proof.
  intros H. unfold LangflowClient.request. monad_unfold. rewrite H.
  destruct (is_TimeoutException e), (is_RequestError e), (is_LangflowError e); reflexivity.
Qed.

Lemma request_error_status st response :
  httpx_send env (LangflowClient.outgoing self options) = returns response ->
  is_success response = false ->
  LangflowClient.request env self options st =
    (sent self options st,
     raise (LangflowError
              (Text (str_int (status_code response) ++ py " - " ++ reason_phrase response))
              (Some response))).
Proof.
  intros H Hs. unfold LangflowClient.request. monad_unfold. rewrite H, Hs. reflexivity.
Qed.

Lemma request_success st response :
  httpx_send env (LangflowClient.outgoing self options) = returns response ->
  is_success response = true ->
  LangflowClient.request env self options st =
    (sent self options st,
     match loads (text response) with
     | inr data => returns data
     | inl e => raise (LangflowRequestError (Format (py "Unexpected error: ") e) e)
     end).
Proof.
  intros H Hs. unfold LangflowClient.request. monad_unfold. rewrite H, Hs.
  cbv beta iota. destruct (loads (text response)) as [e|data] eqn:L; [|reflexivity].
  apply loads_raises in L as ->. reflexivity.
Qed.

(** C6: a response whose status is not 2xx makes [request] raise a
    [LangflowError] that carries the status code and the status text in its
    message and the response itself; it is not the [LangflowRequestError]
    of the transport failures. *)
Theorem non_2xx_raises_LangflowError st response :
  httpx_send env (LangflowClient.outgoing self options) = returns response ->
  ~ (200 <= status_code response <= 299)%Z ->
  exists error,
    LangflowClient.request env self options st = (sent self options st, raise error)
    /\ error = LangflowError
                 (Text (str_int (status_code response) ++ py " - " ++ reason_phrase response))
                 (Some response)
    /\ is_LangflowError error = true
    /\ is_LangflowRequestError error = false.
Proof.
  intros H Hs. eexists. split; [|split; [reflexivity|split; reflexivity]].
  apply request_error_status; [exact H|].
  unfold is_success. apply andb_false_iff.
  destruct (Z.leb_spec 200 (status_code response)); [right|left; reflexivity].
  apply Z.leb_gt. lia.
Qed.

(** C7, amended: a call whose transport times out raises a
    [LangflowRequestError], not a plain [LangflowError], whose message names
    the timeout in force; that is the timeout of the call when one is given
    and is not zero, and the timeout of the client when none is given or
    when the one given is zero. *)
Theorem timeout_raises_LangflowRequestError st e :
  httpx_send env (LangflowClient.outgoing self options) = raise e ->
  is_TimeoutException e = true ->
  let effective := LangflowClient.effective_timeout self options in
  LangflowClient.request env self options st =
    (sent self options st,
     raise (LangflowRequestError
              (Text (py "Request timed out after " ++ str_int effective ++ py "s")) e))
  /\ (forall t, RequestOptions.timeout options = Some t -> t <> 0%Z -> effective = t)
  /\ (RequestOptions.timeout options = None \/ RequestOptions.timeout options = Some 0%Z ->
      effective = timeout self).
Proof.
  intros H He effective. split; [|split].
  - rewrite (request_transport_error st e H), He. reflexivity.
  - intros t Ht Hz. subst effective. unfold LangflowClient.effective_timeout, or_number.
    rewrite Ht. destruct (Z.eqb_spec t 0); [contradiction|reflexivity].
  - intros [Ht|Ht]; subst effective; unfold LangflowClient.effective_timeout, or_number;
      rewrite Ht; reflexivity.
Qed.

End Request.

(** A flow is run without a timeout of its own: the timeout in force is the
    one of the client. *)
Lemma run_is_request env flow inputs :
  exists options,
    Flow.run env flow inputs = LangflowClient.request env (client flow) options
    /\ RequestOptions.timeout options = None
    /\ LangflowClient.effective_timeout (client flow) options = timeout (client flow).
Proof. eexists. split; [reflexivity|split; reflexivity]. Qed.

Lemma non_2xx_raises_LangflowError_witness :
  exists error,
    LangflowClient.request (answering (returns server_error)) example_client
      (example_options None) (enter empty_db)
    = (sent example_client (example_options None) (enter empty_db), raise error)
    /\ error = LangflowError (Text (py "500 - Internal Server Error")) (Some server_error)
    /\ is_LangflowError error = true
    /\ is_LangflowRequestError error = false.
Proof.
  apply (non_2xx_raises_LangflowError (answering (returns server_error)) example_client
           (example_options None) (enter empty_db) server_error).
  - reflexivity.
  - simpl. lia.
Defined.

(** C7, as stated, fails: a call given the timeout 0 times out with the
    message of the timeout of the client, 30, the override being falsy. *)
Lemma timeout_override_zero_ignored :
  RequestOptions.timeout (example_options (Some 0%Z)) = Some 0%Z
  /\ LangflowClient.effective_timeout example_client (example_options (Some 0%Z)) = 30%Z
  /\ snd (LangflowClient.request (answering (raise (TimeoutException (py "ReadTimeout"))))
            example_client (example_options (Some 0%Z)) (enter empty_db))
     = raise (LangflowRequestError (Text (py "Request timed out after 30s"))
                                   (TimeoutException (py "ReadTimeout"))).
Proof. repeat split; vm_compute; reflexivity. Qed.

Lemma timeout_raises_LangflowRequestError_witness :
  snd (LangflowClient.request (answering (raise (TimeoutException (py "ReadTimeout"))))
         example_client (example_options (Some 5%Z)) (enter empty_db))
  = raise (LangflowRequestError (Text (py "Request timed out after 5s"))
                                (TimeoutException (py "ReadTimeout"))).
Proof.
  rewrite (proj1 (timeout_raises_LangflowRequestError
                    (answering (raise (TimeoutException (py "ReadTimeout"))))
                    example_client (example_options (Some 5%Z)) (enter empty_db)
                    (TimeoutException (py "ReadTimeout")) eq_refl eq_refl)).
  reflexivity.
Defined.

(** ** Bulk creation of the skills of a job offer *)

Section BulkCreate.

Context (env : Env) (job_offer_id : Z).

Lemma has_skill_keys_false record :
  has_skill_keys record = false ->
  exists key, In key skill_keys
    /\ (forall st acc rest,
           exists st',
             JobOfferSkillRepository.add_skills job_offer_id (JObj record :: rest) acc st
             = (st', raise (KeyError (KStr key)))
             /\ st' = st).
Proof.
  unfold has_skill_keys. intros H.
  destruct (dict_get (py "skill") record) as [v1|] eqn:E1.
  - destruct (dict_get (py "expertise_level") record) as [v2|] eqn:E2.
    + destruct (dict_get (py "priority") record) as [v3|] eqn:E3; [discriminate|].
      exists (py "priority"). split; [right; right; left; reflexivity|].
      intros st acc rest. exists st. split; [|reflexivity].
      cbn [JobOfferSkillRepository.add_skills]. unfold getitem. rewrite E1, E2, E3.
      reflexivity.
    + exists (py "expertise_level"). split; [right; left; reflexivity|].
      intros st acc rest. exists st. split; [|reflexivity].
      cbn [JobOfferSkillRepository.add_skills]. unfold getitem. rewrite E1, E2.
      reflexivity.
  - exists (py "skill"). split; [left; reflexivity|].
    intros st acc rest. exists st. split; [|reflexivity].
    cbn [JobOfferSkillRepository.add_skills]. unfold getitem. rewrite E1.
    reflexivity.
Qed.

Lemma add_skills_step record rest acc st :
  has_skill_keys record = true ->
  JobOfferSkillRepository.add_skills job_offer_id (JObj record :: rest) acc st
  = JobOfferSkillRepository.add_skills job_offer_id rest
      (acc ++ [skill_row job_offer_id record])
      {| db := {| job_offers := job_offers (db st);
                  job_offers_skills := job_offers_skills (db st);
                  pending := pending (db st) ++ [skill_row job_offer_id record];
                  next_id := next_id (db st) |};
         trace := trace st;
         job_offer_local := job_offer_local st |}.
Proof.
  unfold has_skill_keys, skill_row. intros H.
  destruct (dict_get (py "skill") record) as [v1|] eqn:E1; [|discriminate].
  destruct (dict_get (py "expertise_level") record) as [v2|] eqn:E2; [|discriminate].
  destruct (dict_get (py "priority") record) as [v3|] eqn:E3; [|discriminate].
  cbn [JobOfferSkillRepository.add_skills]. unfold getitem. rewrite E1, E2, E3.
  reflexivity.
Qed.

(** The loop stops with a [KeyError] at the first record that lacks a key;
    nothing has been committed by then. *)
Lemma add_skills_missing_key records : forall acc st,
  Exists (fun record => has_skill_keys record = false) records ->
  exists st' key,
    JobOfferSkillRepository.add_skills job_offer_id (map JObj records) acc st
    = (st', raise (KeyError (KStr key)))
    /\ In key skill_keys
    /\ job_offers_skills (db st') = job_offers_skills (db st)
    /\ trace st' = trace st.
Proof.
  induction records as [|record rest IH]; intros acc st Hex; [inversion Hex|].
  cbn [map]. destruct (has_skill_keys record) eqn:Hk.
  - rewrite (add_skills_step _ _ _ _ Hk).
    assert (Hrest : Exists (fun record => has_skill_keys record = false) rest).
    { inversion Hex; subst; [congruence|assumption]. }
    destruct (IH (acc ++ [skill_row job_offer_id record])
                 {| db := {| job_offers := job_offers (db st);
                             job_offers_skills := job_offers_skills (db st);
                             pending := pending (db st) ++ [skill_row job_offer_id record];
                             next_id := next_id (db st) |};
                    trace := trace st;
                    job_offer_local := job_offer_local st |} Hrest)
      as (st' & key & H1 & H2 & H3 & H4).
    exists st', key. repeat split; assumption.
  - destruct (has_skill_keys_false _ Hk) as (key & Hin & Hrun).
    destruct (Hrun st acc (map JObj rest)) as (st' & H1 & ->).
    exists st, key. repeat split; assumption.
Qed.

(** The loop goes through the records that all have the three keys. *)
Lemma add_skills_all_keys records : forall acc st,
  Forall (fun record => has_skill_keys record = true) records ->
  JobOfferSkillRepository.add_skills job_offer_id (map JObj records) acc st
  = ({| db := {| job_offers := job_offers (db st);
                 job_offers_skills := job_offers_skills (db st);
                 pending := pending (db st) ++ map (skill_row job_offer_id) records;
                 next_id := next_id (db st) |};
        trace := trace st;
        job_offer_local := job_offer_local st |},
     returns (acc ++ map (skill_row job_offer_id) records)).
Proof.
  induction records as [|record rest IH]; intros acc st Hall.
  - cbn. rewrite !app_nil_r. destruct st as [[? ? ? ?] ? ?]. reflexivity.
  - inversion Hall as [|? ? Hk Hrest]; subst. cbn [map].
    rewrite (add_skills_step _ _ _ _ Hk), (IH _ _ Hrest). cbn.
    rewrite <- !app_assoc. reflexivity.
Qed.

(** C10: [bulk_create] needs the three keys [skill], [expertise_level]
    and [priority] in every record of the list: when a record lacks one it
    raises the [KeyError] of a missing key and commits nothing, and when
    every record has them and the commit goes through it returns one row per
    record.  The parser gives no such guarantee: it returns the [skills]
    field as it was decoded, and the text of a record with the only key
    [skill] yields a list that [bulk_create] refuses. *)
Theorem bulk_create_requires_keys (records : list (list (pystr * json))) (st : State) :
  (Exists (fun record => has_skill_keys record = false) records ->
   exists st' key,
     JobOfferSkillRepository.bulk_create env job_offer_id (JArr (map JObj records)) st
     = (st', raise (KeyError (KStr key)))
     /\ In key skill_keys
     /\ job_offers_skills (db st') = job_offers_skills (db st))
  /\ (Forall (fun record => has_skill_keys record = true) records ->
      db_fault env CallCommitSkills = None ->
      exists st',
        JobOfferSkillRepository.bulk_create env job_offer_id (JArr (map JObj records)) st
        = (st', returns (map (skill_row job_offer_id) records)))
  /\ (forall skills_text data skills,
         loads skills_text = returns data ->
         field (py "skills") data = Some skills ->
         parse_skills_response skills_text = returns skills)
  /\ (exists skills_text record,
         parse_skills_response skills_text = returns (JArr [JObj record])
         /\ has_skill_keys record = false).
Proof.
  repeat split.
  - intros Hex. unfold JobOfferSkillRepository.bulk_create. cbn [iterate]. monad_unfold.
    match goal with
    | |- context [JobOfferSkillRepository.add_skills _ _ ?acc ?st0] =>
      destruct (add_skills_missing_key records acc st0 Hex)
        as (st' & key & H1 & H2 & H3 & H4)
    end.
    unfold raise in H1. rewrite H1. exists st', key. repeat split; assumption.
  - intros Hall Hc. unfold JobOfferSkillRepository.bulk_create,
      JobOfferSkillRepository.db_commit. cbn [iterate]. monad_unfold.
    match goal with
    | |- context [JobOfferSkillRepository.add_skills _ _ ?acc ?st0] =>
      pose proof (add_skills_all_keys records acc st0 Hall) as Hrun
    end.
    unfold returns in Hrun. rewrite Hrun, Hc. eexists. reflexivity.
  - intros skills_text data skills H F. unfold parse_skills_response.
    rewrite (parse_run_whole _ _ H), F. reflexivity.
  - exists (pyq "{'skills':[{'skill':'Go'}]}"), [(py "skill", JStr (py "Go"))].
    split; vm_compute; reflexivity.
Qed.

End BulkCreate.

Lemma bulk_create_requires_keys_witness :
  exists st' key,
    JobOfferSkillRepository.bulk_create (answering (returns server_error)) 1
      (JArr (map JObj [[(py "skill", JStr (py "Go"))]])) (enter empty_db)
    = (st', raise (KeyError (KStr key)))
    /\ In key skill_keys
    /\ job_offers_skills (db st') = job_offers_skills (db (enter empty_db)).
Proof.
  apply (proj1 (bulk_create_requires_keys (answering (returns server_error)) 1
                  [[(py "skill", JStr (py "Go"))]] (enter empty_db))).
  apply Exists_cons_hd. vm_compute. reflexivity.
Defined.

(** ** The text and the yields of a PDF *)

Section Pdf.

Lemma extract_pages_run pages : forall first text st,
  extract_pages (map returns pages) first text st
  = ({| db := db st;
        trace := trace st ++ pdf_events first (length pages);
        job_offer_local := job_offer_local st |},
     returns (text ++ pages_text pages)).
Proof.
  induction pages as [|page rest IH]; intros first text st.
  - cbn. rewrite !app_nil_r. destruct st; reflexivity.
  - cbn [map extract_pages length pdf_events pages_text concat]. monad_unfold.
    destruct (Nat.eqb (first mod 5) 0); (rewrite IH; cbn [db trace job_offer_local];
      unfold pages_text, returns; rewrite <- !app_assoc; reflexivity).
Qed.

Lemma pdf_events_head first n :
  pdf_events first n = [] \/ exists tl, pdf_events first n = PageExtracted first :: tl.
Proof.
  destruct n as [|n]; [left; reflexivity|right]. cbn [pdf_events].
  destruct (Nat.eqb (first mod 5) 0); eexists; reflexivity.
Qed.

Lemma yield_follows_events n : forall first page_num,
  yield_follows (pdf_events first n) page_num
  = (first <=? page_num)%nat && (page_num <? first + n)%nat && Nat.eqb (page_num mod 5) 0.
Proof.
  induction n as [|n IH]; intros first page_num.
  - cbn [pdf_events yield_follows].
    destruct (Nat.leb_spec first page_num) as [H|H]; [|reflexivity].
    destruct (Nat.ltb_spec page_num (first + 0)) as [H'|H']; [lia|reflexivity].
  - cbn [pdf_events].
    assert (Htail : yield_follows (pdf_events (S first) n) page_num
                    = (S first <=? page_num)%nat && (page_num <? S first + n)%nat
                      && Nat.eqb (page_num mod 5) 0) by apply IH.
    destruct (Nat.eqb (first mod 5) 0) eqn:E5.
    + cbn [app yield_follows]. rewrite Htail.
      destruct (Nat.eqb_spec first page_num) as [->|Hne].
      * rewrite E5. cbn [orb].
        replace (page_num <=? page_num)%nat with true by (symmetry; apply Nat.leb_le; lia).
        replace (page_num <? page_num + S n)%nat with true by (symmetry; apply Nat.ltb_lt; lia).
        reflexivity.
      * cbn [orb]. f_equal. f_equal.
        -- apply eq_true_iff_eq. rewrite !Nat.leb_le. lia.
        -- apply eq_true_iff_eq. rewrite !Nat.ltb_lt. lia.
    + assert (Hstep : yield_follows (PageExtracted first :: pdf_events (S first) n) page_num
                      = yield_follows (pdf_events (S first) n) page_num).
      { destruct (pdf_events_head (S first) n) as [->|[tl ->]]; reflexivity. }
      cbn [app]. rewrite Hstep, Htail.
      destruct (Nat.eqb_spec first page_num) as [->|Hne].
      * rewrite E5, !andb_false_r. reflexivity.
      * f_equal. f_equal.
        -- apply eq_true_iff_eq. rewrite !Nat.leb_le. lia.
        -- apply eq_true_iff_eq. rewrite !Nat.ltb_lt. lia.
Qed.

Lemma yields_counted n : forall first,
  length (List.filter is_yield (pdf_events first n))
  = ((first + n + 4) / 5 - (first + 4) / 5)%nat.
Proof.
  induction n as [|n IH]; intros first.
  - cbn [pdf_events List.filter length]. rewrite Nat.add_0_r. lia.
  - cbn [pdf_events]. rewrite List.filter_app, length_app, IH.
    replace (S first + n + 4)%nat with (first + S n + 4)%nat by lia.
    destruct (Nat.eqb_spec (first mod 5) 0) as [E|E];
      cbn [List.filter is_yield length];
      zify; Z.to_euclidean_division_equations; lia.
Qed.

(** C8, amended: the text of a PDF whose pages all extract is the text of
    each page followed by a newline, in order.  The loop yields right after
    the pages numbered 0, 5, 10, ... from zero, that is after the first, the
    sixth, the eleventh page and so on, and after no other page: one yield
    for every five pages begun, hence at least one as soon as there is a
    page, and in particular for six pages or more. *)
Theorem pdf_text_and_yields (env : Env) (pdf_file : UploadFile) (pages : list pystr)
    (st : State) :
  pdf_reader env (content pdf_file) = returns (map returns pages) ->
  let n := length pages in
  exists st',
    extract_text_from_pdf env pdf_file st = (st', returns (pages_text pages))
    /\ trace st' = trace st ++ pdf_events 0 n
    /\ (forall page_num, (page_num < n)%nat ->
          yield_follows (pdf_events 0 n) page_num = Nat.eqb (page_num mod 5) 0)
    /\ length (List.filter is_yield (pdf_events 0 n)) = ((n + 4) / 5)%nat
    /\ ((1 <= n)%nat -> In Yielded (pdf_events 0 n))
    /\ ((6 <= n)%nat -> In Yielded (pdf_events 0 n)).
Proof.
  intros H n. eexists. split; [|split; [|split; [|split; [|split]]]].
  - unfold extract_text_from_pdf. monad_unfold. rewrite H.
    fold (@returns pystr). rewrite extract_pages_run. reflexivity.
  - reflexivity.
  - intros page_num Hlt. rewrite yield_follows_events.
    replace (0 <=? page_num)%nat with true by (symmetry; apply Nat.leb_le; lia).
    replace (page_num <? 0 + n)%nat with true by (symmetry; apply Nat.ltb_lt; lia).
    reflexivity.
  - rewrite yields_counted. cbn [Nat.add]. zify; Z.to_euclidean_division_equations; lia.
  - intros Hn. destruct n as [|n']; [lia|]. cbn. right. left. reflexivity.
  - intros Hn. destruct n as [|n']; [lia|]. cbn. right. left. reflexivity.
Qed.

End Pdf.

(** C8, as stated, fails: on five pages the only yield follows the first
    page, and none follows the fifth. *)
Lemma no_yield_after_fifth_page :
  let run := extract_text_from_pdf (reading five_pages) pdf_document (enter empty_db) in
  snd run = returns (pages_text five_pages)
  /\ trace (fst run)
     = [PageExtracted 0; Yielded; PageExtracted 1; PageExtracted 2; PageExtracted 3;
        PageExtracted 4]
  /\ yield_follows (trace (fst run)) 4 = false
  /\ yield_follows (trace (fst run)) 0 = true.
Proof. repeat split; vm_compute; reflexivity. Qed.

Lemma pdf_text_and_yields_witness :
  exists st',
    extract_text_from_pdf (reading six_pages) pdf_document (enter empty_db)
    = (st', returns (pages_text six_pages))
    /\ trace st' = pdf_events 0 6
    /\ In Yielded (pdf_events 0 6).
Proof.
  destruct (pdf_text_and_yields (reading six_pages) pdf_document six_pages (enter empty_db)
              eq_refl) as (st' & H1 & H2 & _ & _ & _ & H6).
  exists st'. split; [exact H1|]. split; [exact H2|]. apply H6. cbn. lia.
Defined.

(** ** Frames of the steps of the pipeline *)

Section Respects.

Context (R : State -> State -> Prop).
Hypothesis R_refl : forall st, R st st.
Hypothesis R_trans : forall a b c, R a b -> R b c -> R a c.

Lemma respects_ret {A} (a : A) : respects R (ret a).
Proof. intros st st' r H. inversion H; subst. apply R_refl. Qed.

Lemma respects_throw {A} e : respects R (@throw A e).
Proof. intros st st' r H. inversion H; subst. apply R_refl. Qed.

Lemma respects_lift {A} (x : result A) : respects R (lift x).
Proof. intros st st' r H. inversion H; subst. apply R_refl. Qed.

Lemma respects_get_db : respects R get_db.
Proof. intros st st' r H. inversion H; subst. apply R_refl. Qed.

Lemma respects_db_call_point env c : respects R (db_call_point env c).
Proof.
  unfold db_call_point. destruct (db_fault env c);
    [apply respects_throw|apply respects_ret].
Qed.

Lemma respects_bind {A B} (m : M A) (k : A -> M B) :
  respects R m -> (forall a, respects R (k a)) -> respects R (bind m k).
Proof.
  intros Hm Hk st st' r H. unfold bind in H.
  destruct (m st) as [st1 [e|a]] eqn:E.
  - inversion H; subst. eapply Hm; eauto.
  - eapply R_trans; [eapply Hm; eauto|eapply Hk; eauto].
Qed.

Lemma respects_try {A} (m : M A) (h : exn -> M A) :
  respects R m -> (forall e, respects R (h e)) -> respects R (try_except m h).
Proof.
  intros Hm Hh st st' r H. unfold try_except in H.
  destruct (m st) as [st1 [e|a]] eqn:E.
  - eapply R_trans; [eapply Hm; eauto|eapply Hh; eauto].
  - inversion H; subst. eapply Hm; eauto.
Qed.

End Respects.

Lemma untouched_refl P st : untouched P st st.
Proof.
  repeat split. exists []. rewrite app_nil_r. split; reflexivity.
Qed.

Lemma untouched_trans P a b c : untouched P a b -> untouched P b c -> untouched P a c.
Proof.
  intros (H1 & H2 & evs & H3 & H4) (H1' & H2' & evs' & H3' & H4').
  repeat split; [congruence|congruence|].
  exists (evs ++ evs'). split.
  - rewrite H3', H3, app_assoc. reflexivity.
  - rewrite forallb_app, H4, H4'. reflexivity.
Qed.

Lemma kept_refl st : kept st st.
Proof.
  repeat split. exists []. rewrite app_nil_r. split; reflexivity.
Qed.

Lemma kept_trans a b c : kept a b -> kept b c -> kept a c.
Proof.
  intros (H1 & H2 & evs & H3 & H4) (H1' & H2' & evs' & H3' & H4').
  repeat split; [congruence|congruence|].
  exists (evs ++ evs'). split.
  - rewrite H3', H3, app_assoc. reflexivity.
  - rewrite forallb_app, H4, H4'. reflexivity.
Qed.

Lemma untouched_weaken (P Q : event -> bool) st st' :
  (forall ev, P ev = true -> Q ev = true) -> untouched P st st' -> untouched Q st st'.
Proof.
  intros HPQ (H1 & H2 & evs & H3 & H4). repeat split; try assumption.
  exists evs. split; [assumption|].
  rewrite forallb_forall in *. auto.
Qed.

Lemma untouched_kept P st st' :
  (forall ev, P ev = true -> not_remove ev = true) -> untouched P st st' -> kept st st'.
Proof.
  intros HP (H1 & H2 & evs & H3 & H4). repeat split; [congruence|assumption|].
  exists evs. split; [assumption|]. rewrite forallb_forall in *. auto.
Qed.

Lemma respects_emit P ev : P ev = true -> respects (untouched P) (emit ev).
Proof.
  intros HP st st' r H. inversion H; subst. repeat split.
  exists [ev]. split; [reflexivity|]. cbn. rewrite HP. reflexivity.
Qed.

Lemma kept_emit ev : not_remove ev = true -> respects kept (emit ev).
Proof.
  intros HP st st' r H. inversion H; subst. repeat split.
  exists [ev]. split; [reflexivity|]. cbn. rewrite HP. reflexivity.
Qed.

(** Solves [respects R m] for a computation built from the combinators of
    the monad, [R] being reflexive and transitive. *)
Create HintDb frame.

Ltac frame_with rf tr :=
  repeat first
    [ solve [eauto with frame nocore]
    | apply respects_bind; [tr| |intros ?]
    | apply respects_try; [tr| |intros ?]
    | apply respects_ret; rf
    | apply respects_throw; rf
    | apply respects_lift; rf
    | apply respects_get_db; rf
    | apply respects_db_call_point; rf
    | apply respects_emit; reflexivity
    | apply kept_emit; reflexivity
    | match goal with
      | |- respects _ (if ?b then _ else _) => destruct b
      | |- respects _ (match ?x with _ => _ end) => destruct x
      end ].

Ltac frame := frame_with ltac:(apply untouched_refl) ltac:(apply untouched_trans).
Ltac frame_kept := frame_with ltac:(apply kept_refl) ltac:(apply kept_trans).

Section Frames.

Context (env : Env).

Lemma extract_pages_frame pages : forall page_num text,
  respects (untouched is_extraction) (extract_pages pages page_num text).
Proof.
  induction pages as [|page rest IH]; intros page_num text; cbn [extract_pages].
  - frame.
  - frame; apply IH.
Qed.

Lemma process_document_frame document :
  respects (untouched is_extraction) (process_document env document).
Proof.
  unfold process_document, validate_document_type, extract_text_from_document,
    extract_text_from_pdf.
  frame. apply extract_pages_frame.
Qed.

Lemma request_frame self options :
  respects (untouched not_repo) (LangflowClient.request env self options).
Proof. unfold LangflowClient.request. frame. Qed.

Lemma run_frame flow inputs : respects (untouched not_repo) (Flow.run env flow inputs).
Proof. unfold Flow.run. apply request_frame. Qed.

End Frames.

(** ** The invariant of the body of [create_job_offer] *)

Section Hoare.

Lemma hoare_bind {A B} P (m : M A) (k : A -> M B) Q1 Q2 E :
  hoare P m Q1 E -> (forall a, hoare (Q1 a) (k a) Q2 E) -> hoare P (bind m k) Q2 E.
Proof.
  intros Hm Hk st st' r HP H. unfold bind in H.
  destruct (m st) as [st1 [e|a]] eqn:Em.
  - inversion H; subst. exact (Hm _ _ _ HP Em).
  - exact (Hk a _ _ _ (Hm _ _ _ HP Em) H).
Qed.

Lemma hoare_ret {A} (P : State -> Prop) (a : A) (Q : A -> State -> Prop) E :
  (forall st, P st -> Q a st) -> hoare P (ret a) Q E.
Proof.
  intros HPQ st st' r HP H. unfold ret, returns in H. inversion H; subst.
  apply HPQ. exact HP.
Qed.

Lemma not_repo_not_remove ev : not_repo ev = true -> not_remove ev = true.
Proof. destruct ev; cbn; congruence. Qed.

Lemma is_extraction_not_repo ev : is_extraction ev = true -> not_repo ev = true.
Proof. destruct ev; cbn; congruence. Qed.

Lemma is_extraction_not_http ev : is_extraction ev = true -> not_http ev = true.
Proof. destruct ev; cbn; congruence. Qed.

Lemma forallb_weaken {A} (P Q : A -> bool) l :
  (forall x, P x = true -> Q x = true) -> forallb P l = true -> forallb Q l = true.
Proof. intros HPQ. rewrite !forallb_forall. auto. Qed.

Context (d : DB).

Lemma before_creation_exit st : before_creation d st -> at_exit d st.
Proof.
  intros (H1 & H2 & H3). split.
  - eapply forallb_weaken; [apply not_repo_not_remove|exact H3].
  - rewrite H2. exact H1.
Qed.

Lemma after_creation_exit j st : after_creation d j st -> at_exit d st.
Proof.
  intros (H1 & H2 & H3 & H4 & H5). split; [exact H5|]. rewrite H3. auto.
Qed.

(** A step that touches neither the database nor the local variable and
    calls no repository keeps the pipeline before the creation. *)
Lemma hoare_before {A} (m : M A) :
  respects (untouched not_repo) m ->
  hoare (before_creation d) m (fun _ => before_creation d) (at_exit d).
Proof.
  intros Hm st st' r HP H.
  destruct (Hm _ _ _ H) as (Hdb & Hl & evs & Htr & Hevs).
  destruct HP as (H1 & H2 & H3).
  assert (Hb : before_creation d st').
  { repeat split; [congruence|congruence|].
    rewrite Htr, forallb_app, H3, Hevs. reflexivity. }
  destruct r; [apply before_creation_exit|]; exact Hb.
Qed.

(** A step that keeps the job offers and the local variable and removes
    nothing keeps the pipeline after the creation. *)
Lemma hoare_after {A} j (m : M A) :
  respects kept m ->
  hoare (after_creation d j) m (fun _ => after_creation d j) (at_exit d).
Proof.
  intros Hm st st' r HP H.
  destruct (Hm _ _ _ H) as (Hdb & Hl & evs & Htr & Hevs).
  destruct HP as (H1 & H2 & H3 & H4 & H5).
  assert (Hb : after_creation d j st').
  { repeat split; [congruence|assumption|congruence| |].
    - rewrite Htr. apply in_or_app. left. exact H4.
    - rewrite Htr, forallb_app, H5, Hevs. reflexivity. }
  destruct r; [apply (after_creation_exit j)|]; exact Hb.
Qed.

Lemma hoare_create env obj_in :
  hoare (before_creation d) (JobOfferRepository.create env obj_in)
        (just_created d) (at_exit d).
Proof.
  intros st st' r (H1 & H2 & H3) H.
  assert (H3' : forallb not_remove (trace st) = true)
    by (eapply forallb_weaken; [apply not_repo_not_remove|exact H3]).
  unfold JobOfferRepository.create in H. monad_unfold.
  destruct (db_fault env CallCreate) as [fault|].
  - inversion H; subst. split; cbn [trace job_offer_local db].
    + rewrite forallb_app, H3'. reflexivity.
    + rewrite H2. reflexivity.
  - inversion H; subst.
    repeat split; cbn [trace job_offer_local db job_offers id];
      try assumption; try reflexivity.
    + apply in_or_app. right. left. reflexivity.
    + rewrite forallb_app, H3'. reflexivity.
Qed.

Lemma hoare_assign j :
  hoare (just_created d j) (assign_job_offer j) (fun _ => after_creation d j) (at_exit d).
Proof.
  intros st st' r (H1 & H2 & H3 & H4 & H5) H. inversion H; subst.
  repeat split; assumption.
Qed.

End Hoare.

Section Kept.

Context (env : Env).

Lemma db_add_kept k : respects kept (JobOfferSkillRepository.db_add k).
Proof.
  intros st st' r H. unfold JobOfferSkillRepository.db_add in H. monad_unfold.
  inversion H; subst. repeat split. exists []. rewrite app_nil_r. split; reflexivity.
Qed.

#[local] Hint Resolve db_add_kept : frame.

Lemma db_commit_kept db_skills :
  respects kept (JobOfferSkillRepository.db_commit env db_skills).
Proof.
  intros st st' r H. unfold JobOfferSkillRepository.db_commit in H. monad_unfold.
  destruct (db_fault env CallCommitSkills);
    [destruct db_skills; [|destruct (fault_in_refresh env)]|];
    inversion H; subst;
    (repeat split; exists []; rewrite app_nil_r; split; reflexivity).
Qed.

Lemma add_skills_kept job_offer_id skills : forall db_skills,
  respects kept (JobOfferSkillRepository.add_skills job_offer_id skills db_skills).
Proof.
  induction skills as [|skill_data rest IH]; intros db_skills;
    cbn [JobOfferSkillRepository.add_skills].
  - frame_kept.
  - frame_kept.
Qed.

Lemma bulk_create_kept job_offer_id skills :
  respects kept (JobOfferSkillRepository.bulk_create env job_offer_id skills).
Proof.
  unfold JobOfferSkillRepository.bulk_create.
  pose proof add_skills_kept. pose proof db_commit_kept. frame_kept.
Qed.

End Kept.

(** The body of [create_job_offer], entered on the database [d], leaves at
    every exit a trace without removal; either [job_offer] is unbound and the
    database is [d], or it is bound to the record the body added to [d]. *)
Lemma create_job_offer_body_exit env settings langflow_client title document d :
  hoare (before_creation d)
        (create_job_offer_body env settings langflow_client title document)
        (fun _ => at_exit d) (at_exit d).
Proof.
  unfold create_job_offer_body.
  eapply hoare_bind.
  { apply hoare_before. intros st st' r H.
    eapply untouched_weaken; [apply is_extraction_not_repo|].
    eapply process_document_frame; eauto. }
  intros [extracted_text text_size_kb].
  eapply hoare_bind; [apply hoare_before; frame|intros ?; cbv beta].
  eapply hoare_bind; [apply hoare_before; frame|intros object_name; cbv beta].
  eapply hoare_bind; [apply hoare_before; apply run_frame|intros summary_result; cbv beta].
  eapply hoare_bind; [apply hoare_before; apply run_frame|intros skills_result; cbv beta].
  eapply hoare_bind; [apply hoare_before; frame|intros summary_text; cbv beta].
  eapply hoare_bind; [apply hoare_before; frame|intros skills_text; cbv beta].
  eapply hoare_bind; [apply hoare_before; frame|intros obj_in; cbv beta].
  eapply hoare_bind; [apply hoare_create|intros job_offer; cbv beta].
  eapply hoare_bind; [apply hoare_assign|intros ?; cbv beta].
  eapply hoare_bind; [apply hoare_after; frame_kept|intros skills; cbv beta].
  eapply hoare_bind; [apply hoare_after; apply bulk_create_kept|intros ?; cbv beta].
  eapply hoare_bind; [apply hoare_after; frame_kept|intros ?; cbv beta].
  apply hoare_ret. apply after_creation_exit.
Qed.

Lemma enter_before_creation d : before_creation d (enter d).
Proof. repeat split. Qed.

(** ** The failures of the creation of a job offer *)

Section CreateJobOffer.

Context (env : Env) (settings : Settings) (langflow_client : LangflowClient).
Context (title : pystr) (document : UploadFile) (d : DB).


(** A document that [process_document] refuses reaches no flow, and the
    client error raised there comes out of [create_job_offer] as a server
    error. *)
Lemma refused_document_surfaces_500 st1 e :
  process_document env document (enter d) = (st1, raise e) ->
  create_job_offer env settings langflow_client title document (enter d)
  = (st1, raise (surfaced e))
  /\ forallb not_http (trace st1) = true.
Proof.
  intros H.
  destruct (process_document_frame env document _ _ _ H) as (Hdb & Hl & evs & Htr & Hevs).
  split.
  - unfold create_job_offer, create_job_offer_body, try_except, bind at 1.
    rewrite H. unfold raise. cbv beta iota. monad_unfold.
    rewrite Hl. reflexivity.
  - rewrite Htr. cbn [enter trace app].
    eapply forallb_weaken; [apply is_extraction_not_http|exact Hevs].
Qed.

(** A content type outside the allowed ones is refused with status 400. *)
Lemma disallowed_type_refused st :
  allowed_type (content_type document) = false ->
  process_document env document st
  = (st, raise (HTTPException 400
                  (Text (py "File must be a PDF, Word document or a text file")))).
Proof.
  intros H. unfold process_document, validate_document_type. rewrite H.
  reflexivity.
Qed.

(** A failure of the extraction is refused with status 400. *)
Lemma extraction_failure_refused st st1 e :
  allowed_type (content_type document) = true ->
  extract_text_from_document env document st = (st1, raise e) ->
  exists detail, process_document env document st = (st1, raise (HTTPException 400 detail)).
Proof.
  intros Ha H.
  assert (He : exists cause, e = DocumentProcessingError cause).
  { unfold extract_text_from_document, try_except in H.
    match type of H with
    | (let (_, _) := ?m st in _) = _ => destruct (m st) as [s [x|x]]
    end.
    - unfold throw in H. inversion H; subst. eauto.
    - discriminate. }
  destruct He as [cause ->].
  unfold process_document, validate_document_type. rewrite Ha.
  unfold try_except, bind at 1. cbn [negb ret]. unfold raise in H.
  unfold bind. rewrite H. cbn. eauto.
Qed.

(** An extracted text that is empty or all whitespace is refused with
    status 400. *)
Lemma blank_text_refused st st1 extracted_text :
  allowed_type (content_type document) = true ->
  extract_text_from_document env document st = (st1, returns extracted_text) ->
  blank extracted_text = true ->
  process_document env document st
  = (st1, raise (HTTPException 400 (Text (py "Could not extract text from document")))).
Proof.
  intros Ha H Hb.
  unfold process_document, validate_document_type. rewrite Ha.
  unfold try_except, bind at 1. cbn [negb ret]. unfold returns in H.
  unfold bind. rewrite H. rewrite Hb. reflexivity.
Qed.

(** The two refusals, as the caller of [create_job_offer] sees them. *)
Lemma disallowed_type_surfaces_500 :
  allowed_type (content_type document) = false ->
  create_job_offer env settings langflow_client title document (enter d)
  = (enter d,
     raise (surfaced (HTTPException 400
                        (Text (py "File must be a PDF, Word document or a text file"))))).
Proof.
  intros H. apply refused_document_surfaces_500. apply disallowed_type_refused. exact H.
Qed.

Lemma blank_text_surfaces_500 st1 extracted_text :
  allowed_type (content_type document) = true ->
  extract_text_from_document env document (enter d) = (st1, returns extracted_text) ->
  blank extracted_text = true ->
  create_job_offer env settings langflow_client title document (enter d)
  = (st1, raise (surfaced (HTTPException 400
                             (Text (py "Could not extract text from document")))))
  /\ forallb not_http (trace st1) = true.
Proof.
  intros Ha H Hb. apply refused_document_surfaces_500.
  eapply blank_text_refused; eauto.
Qed.

End CreateJobOffer.

(** [blank] holds of the empty text and of the texts made of whitespace. *)
Lemma lstrip_all_space s : Forall (fun c => isspace c = true) s -> lstrip s = [].
Proof.
  induction 1 as [|c r Hc _ IH]; [reflexivity|]. cbn. rewrite Hc. exact IH.
Qed.

Lemma blank_whitespace s : Forall (fun c => isspace c = true) s -> blank s = true.
Proof.
  intros H. unfold blank, strip, rstrip. destruct s; [reflexivity|].
  rewrite (lstrip_all_space _ H). reflexivity.
Qed.



(** The failed run, spelled out: the record 1 was created, the bulk
    creation failed on the missing key, the record was removed. *)
Example failed_run_trace :
  job_offer_local (fst failed_run)
  = Some {| id := 1; title := py "Engineer"; summary := Some (py "A summary");
            storage_url := Some (py "object") |}
  /\ List.filter is_repo (trace (fst failed_run)) = [RepoCreate; RepoBulkCreate 1; RepoRemove 1]
  /\ job_offers (db (fst failed_run)) = []
  /\ snd failed_run = raise (surfaced (KeyError (KStr (py "expertise_level")))).
Proof. repeat split; vm_compute; reflexivity. Qed.

(** C1, on the code: a document of a type that is not allowed is refused by
    [process_document] with status 400, and so is a text document whose bytes
    are not UTF-8; [create_job_offer] catches either exception and the caller
    gets status 500. *)
Theorem client_errors_surface_as_500 :
  let env := answering (returns server_error) in
  let picture := upload "image/png" [] in
  let broken := upload "text/plain" [xff] in
  let refused := HTTPException 400 (Text (py "File must be a PDF, Word document or a text file")) in
  let undecoded :=
    HTTPException 400
      (Format [] (DocumentProcessingError
                    (Format (py "Error extracting text from document: ") UnicodeDecodeError))) in
  allowed_type (content_type picture) = false
  /\ snd (process_document env picture (enter empty_db)) = raise refused
  /\ snd (create_job_offer env example_settings example_client (py "Engineer") picture
            (enter empty_db))
     = raise (HTTPException 500 (Format (py "Error creating job offer: ") refused))
  /\ snd (process_document env broken (enter empty_db)) = raise undecoded
  /\ snd (create_job_offer env example_settings example_client (py "Engineer") broken
            (enter empty_db))
     = raise (HTTPException 500 (Format (py "Error creating job offer: ") undecoded)).
Proof. repeat split; vm_compute; reflexivity. Qed.

(** C9, on the code: a text document of a space and a newline is refused by
    [process_document] with status 400 before any request is sent to a flow;
    [create_job_offer] catches the exception and the caller gets status 500. *)
Theorem blank_document_surfaces_as_500 :
  let env := flows "A summary" "{\'skills\':[]}" in
  let blank_document := upload "text/plain" [x20; x0a] in
  let refused := HTTPException 400 (Text (py "Could not extract text from document")) in
  let run := create_job_offer env example_settings example_client (py "Engineer")
               blank_document (enter empty_db) in
  snd (extract_text_from_document env blank_document (enter empty_db)) = returns [32; 10]
  /\ blank [32; 10] = true
  /\ snd (process_document env blank_document (enter empty_db)) = raise refused
  /\ List.filter is_http (trace (fst run)) = []
  /\ snd run = raise (HTTPException 500 (Format (py "Error creating job offer: ") refused)).
Proof. repeat split; vm_compute; reflexivity. Qed.

(** * More properties *)

(** ** More on the text extractor *)

Section Blank.

Lemma lstrip_nil_all_space s : lstrip s = [] -> Forall (fun c => isspace c = true) s.
Proof.
  induction s as [|c r IH]; cbn [lstrip]; [constructor|].
  destruct (isspace c) eqn:E; [|discriminate]. intros H. constructor; auto.
Qed.

Lemma lstrip_head s : lstrip s = [] \/ exists c r, lstrip s = c :: r /\ isspace c = false.
Proof.
  induction s as [|c r IH]; cbn [lstrip]; [left; reflexivity|].
  destruct (isspace c) eqn:E; [exact IH|right; eauto].
Qed.

Lemma Forall_rev_space (s : pystr) :
  Forall (fun c => isspace c = true) (rev s) -> Forall (fun c => isspace c = true) s.
Proof. intros H. rewrite <- (rev_involutive s). apply Forall_rev. exact H. Qed.

(** [blank] holds exactly of the texts whose characters are all
    whitespace. *)
Lemma blank_iff s : blank s = true <-> Forall (fun c => isspace c = true) s.
Proof.
  split; [|apply blank_whitespace].
  unfold blank. destruct s as [|c0 r0]; [constructor|]. intros H.
  apply Nat.eqb_eq in H. apply length_zero_iff_nil in H.
  unfold strip, rstrip in H.
  assert (H1 : lstrip (rev (lstrip (c0 :: r0))) = []).
  { rewrite <- (rev_involutive (lstrip _)). rewrite H. reflexivity. }
  apply lstrip_nil_all_space, Forall_rev_space in H1.
  destruct (lstrip_head (c0 :: r0)) as [E|(c & r & E & Hc)].
  - apply lstrip_nil_all_space. exact E.
  - rewrite E in H1. inversion H1; subst. congruence.
Qed.

Lemma not_blank_has_character s :
  blank s = false -> exists c, In c s /\ isspace c = false.
Proof.
  intros H. induction s as [|c r IH]; [discriminate|].
  destruct (isspace c) eqn:Ec; [|exists c; split; [left; reflexivity|exact Ec]].
  destruct (blank r) eqn:Hr.
  - apply blank_iff in Hr. assert (blank (c :: r) = true); [|congruence].
    apply blank_iff. constructor; assumption.
  - destruct (IH eq_refl) as (x & Hx & Hs). exists x. split; [right; exact Hx|exact Hs].
Qed.

(** A text that begins and ends with a character that is no whitespace is
    its own [strip]. *)
Lemma strip_ends c mid z :
  isspace c = false -> isspace z = false -> strip (c :: mid ++ [z]) = c :: mid ++ [z].
Proof.
  intros Hc Hz. unfold strip, rstrip. cbn [lstrip]. rewrite Hc.
  change (c :: mid ++ [z]) with ((c :: mid) ++ [z]).
  rewrite rev_app_distr. cbn [rev app lstrip]. rewrite Hz.
  change (z :: rev mid ++ [c]) with ([z] ++ rev (c :: mid)).
  rewrite rev_app_distr, rev_involutive. reflexivity.
Qed.

Lemma not_blank_ends c mid z :
  isspace c = false -> isspace z = false -> blank (c :: mid ++ [z]) = false.
Proof.
  intros Hc Hz. unfold blank. rewrite (strip_ends _ _ _ Hc Hz). reflexivity.
Qed.

End Blank.

Section ProcessDocument.

Context (env : Env) (document : UploadFile).

(** Whatever goes wrong in the extraction comes out as a
    [DocumentProcessingError]. *)
Lemma extraction_raises_DocumentProcessingError st st' e :
  extract_text_from_document env document st = (st', raise e) ->
  exists cause,
    e = DocumentProcessingError (Format (py "Error extracting text from document: ") cause).
Proof.
  unfold extract_text_from_document, try_except. intros H.
  match type of H with
  | (let (_, _) := ?m st in _) = _ => destruct (m st) as [s [x|x]]
  end.
  - unfold throw in H. inversion H; subst. eauto.
  - discriminate.
Qed.

(** X1: [process_document] raises nothing but an [HTTPException] of status
    400: the handler that answers 500 is never reached, because the type
    check raises the 400 itself and the extraction wraps every failure in a
    [DocumentProcessingError].  It sends nothing and leaves the database as
    it is. *)
Theorem process_document_raises_400_only st st' e :
  process_document env document st = (st', raise e) ->
  (exists detail, e = HTTPException 400 detail)
  /\ untouched is_extraction st st'.
Proof.
  intros H. split; [|eapply process_document_frame; exact H].
  unfold process_document, validate_document_type in H.
  destruct (allowed_type (content_type document)) eqn:Ha; cbn [negb] in H.
  - unfold try_except, bind at 1 in H. cbn [ret] in H. unfold bind in H.
    destruct (extract_text_from_document env document st) as [st1 [e0|text]] eqn:Hx.
    + destruct (extraction_raises_DocumentProcessingError _ _ _ Hx) as [cause ->].
      cbn in H. inversion H; subst. eauto.
    + destruct (blank text); cbn in H; inversion H; subst. eauto.
  - cbn in H. inversion H; subst. eauto.
Qed.

(** X2: when [process_document] returns, the type of the document is one
    of the allowed ones, the text is the one the extraction returned, it
    holds a character that is no whitespace, and the size is its number of
    characters over 1024. *)
Theorem process_document_returns_text st st' extracted_text text_size_kb :
  process_document env document st = (st', returns (extracted_text, text_size_kb)) ->
  allowed_type (content_type document) = true
  /\ extract_text_from_document env document st = (st', returns extracted_text)
  /\ (exists c, In c extracted_text /\ isspace c = false)
  /\ text_size_kb = Z.of_nat (length extracted_text) # 1024.
Proof.
  intros H. unfold process_document, validate_document_type in H.
  destruct (allowed_type (content_type document)) eqn:Ha; cbn [negb] in H.
  - unfold try_except, bind at 1 in H. cbn [ret] in H. unfold bind in H.
    destruct (extract_text_from_document env document st) as [st1 [e0|text]] eqn:Hx.
    + destruct (extraction_raises_DocumentProcessingError _ _ _ Hx) as [cause ->].
      cbn in H. inversion H.
    + destruct (blank text) eqn:Hb; cbn in H; inversion H; subst.
      repeat split; try reflexivity. apply not_blank_has_character. exact Hb.
  - cbn in H. inversion H.
Qed.

End ProcessDocument.

Section Dispatch.

Context (env : Env) (document : UploadFile).

(** The extraction of a plain text is the decoding of its bytes. *)
Lemma extract_text_plain st :
  content_type document = Some (py "text/plain") ->
  extract_text_from_document env document st
  = (st,
     match Utf8.decode (content document) with
     | inr extracted_text => returns extracted_text
     | inl e =>
       raise (DocumentProcessingError
                (Format (py "Error extracting text from document: ") e))
     end).
Proof.
  intros Hct. unfold extract_text_from_document. rewrite Hct. monad_unfold.
  assert (E1 : contains (py "pdf") (lower (py "text/plain")) = false) by (vm_compute; reflexivity).
  assert (E2 : contains (py "docx") (lower (py "text/plain"))
               || contains (py "doc") (lower (py "text/plain"))
               || contains (py "word") (lower (py "text/plain")) = false)
    by (vm_compute; reflexivity).
  assert (E3 : contains (py "text/plain") (lower (py "text/plain")) = true)
    by (vm_compute; reflexivity).
  rewrite E1, E2, E3. destruct (Utf8.decode (content document)); reflexivity.
Qed.

(** X3: a document declared [text/plain] is processed into exactly the
    UTF-8 decoding of its bytes, with its size, when that text is not
    blank; it is refused with status 400 when the bytes are not UTF-8 and
    when the text is blank.  Nothing is traced. *)
Theorem process_plain_text st :
  content_type document = Some (py "text/plain") ->
  process_document env document st
  = (st,
     match Utf8.decode (content document) with
     | inr extracted_text =>
       if blank extracted_text
       then raise (HTTPException 400 (Text (py "Could not extract text from document")))
       else returns (extracted_text, size_kb extracted_text)
     | inl e =>
       raise (HTTPException 400
                (Format [] (DocumentProcessingError
                              (Format (py "Error extracting text from document: ") e))))
     end).
Proof.
  intros Hct. unfold process_document, validate_document_type. rewrite Hct.
  assert (Ha : allowed_type (Some (py "text/plain")) = true) by (vm_compute; reflexivity).
  rewrite Ha. cbn [negb]. unfold try_except, bind at 1. cbn [ret]. unfold bind.
  rewrite (extract_text_plain st Hct).
  destruct (Utf8.decode (content document)) as [e|text]; [reflexivity|].
  unfold returns. destruct (blank text); reflexivity.
Qed.

Lemma placeholder_not_blank prefix middle :
  blank (py "D" ++ prefix ++ middle ++ py " bytes") = false.
Proof.
  change (py " bytes") with (py " byte" ++ [115]).
  change (py "D" ++ prefix ++ middle ++ py " byte" ++ [115])
    with (68 :: (prefix ++ middle ++ py " byte" ++ [115])).
  rewrite !app_assoc. rewrite <- !app_assoc.
  replace (prefix ++ middle ++ py " byte" ++ [115])
    with ((prefix ++ middle ++ py " byte") ++ [115])
    by (rewrite <- !app_assoc; reflexivity).
  apply not_blank_ends; reflexivity.
Qed.

Lemma word_placeholder_not_blank content : blank (word_placeholder content) = false.
Proof.
  unfold word_placeholder.
  change (py "Document content (binary): ") with (py "D" ++ py "ocument content (binary): ").
  rewrite <- !app_assoc. apply placeholder_not_blank.
Qed.

(** X4: a document declared as one of the two Word types is always
    accepted, whatever its bytes, even none: the text is the placeholder
    that names the number of bytes, and the content is not looked at. *)
Theorem process_word_document st :
  content_type document = Some (py "application/msword")
  \/ content_type document
     = Some (py "application/vnd.openxmlformats-officedocument.wordprocessingml.document") ->
  process_document env document st
  = (st, returns (word_placeholder (content document),
                  size_kb (word_placeholder (content document)))).
Proof.
  intros Hct. unfold process_document, validate_document_type, extract_text_from_document.
  destruct Hct as [Hct|Hct]; rewrite Hct.
  - assert (Ha : allowed_type (Some (py "application/msword")) = true)
      by (vm_compute; reflexivity).
    assert (E1 : contains (py "pdf") (lower (py "application/msword")) = false)
      by (vm_compute; reflexivity).
    assert (E2 : contains (py "docx") (lower (py "application/msword"))
                 || contains (py "doc") (lower (py "application/msword"))
                 || contains (py "word") (lower (py "application/msword")) = true)
      by (vm_compute; reflexivity).
    rewrite Ha. monad_unfold. rewrite E1, E2.
    fold (word_placeholder (content document)).
    rewrite word_placeholder_not_blank. reflexivity.
  - set (t := py "application/vnd.openxmlformats-officedocument.wordprocessingml.document").
    assert (Ha : allowed_type (Some t) = true) by (vm_compute; reflexivity).
    assert (E1 : contains (py "pdf") (lower t) = false) by (vm_compute; reflexivity).
    assert (E2 : contains (py "docx") (lower t) || contains (py "doc") (lower t)
                 || contains (py "word") (lower t) = true) by (vm_compute; reflexivity).
    rewrite Ha. monad_unfold. rewrite E1, E2.
    fold (word_placeholder (content document)).
    rewrite word_placeholder_not_blank. reflexivity.
Qed.

Lemma strip_prefix_shorter p q : forall s x,
  strip_prefix (p ++ q) s = Some x -> exists y, strip_prefix p s = Some y.
Proof.
  induction p as [|a p IH]; intros s x H.
  - exists s. reflexivity.
  - destruct s as [|b s]; [discriminate|]. cbn [app strip_prefix] in *.
    destruct (a =? b); [eapply IH; exact H|discriminate].
Qed.

Lemma contains_prefix p q s : contains (p ++ q) s = true -> contains p s = true.
Proof.
  induction s as [|c r IH]; cbn [contains]; unfold startswith; intros H.
  - destruct (strip_prefix (p ++ q) []) eqn:E; [|discriminate].
    apply strip_prefix_shorter in E as [y ->]. reflexivity.
  - destruct (strip_prefix (p ++ q) (c :: r)) eqn:E.
    + apply strip_prefix_shorter in E as [y ->]. reflexivity.
    + rewrite IH by exact H. apply orb_true_r.
Qed.

(** X5: on a content type of ASCII characters that names neither a PDF,
    nor a Word document, nor a plain text, the extraction does not fail: it
    returns the placeholder that names the type, in lower case, and the
    number of bytes.  [process_document] never gets there, its type check
    refusing such a document first. *)
Theorem extract_unknown_type st declared :
  content_type document = Some declared ->
  ascii_only declared = true ->
  contains (py "pdf") (lower declared) = false ->
  contains (py "doc") (lower declared) = false ->
  contains (py "word") (lower declared) = false ->
  contains (py "text/plain") (lower declared) = false ->
  extract_text_from_document env document st
  = (st, returns (unknown_placeholder declared (content document)))
  /\ allowed_type (content_type document) = false.
Proof.
  intros Hct _ H1 H2 H3 H4.
  assert (H2' : contains (py "docx") (lower declared) = false).
  { destruct (contains (py "docx") (lower declared)) eqn:E; [|reflexivity].
    change (py "docx") with (py "doc" ++ py "x") in E.
    apply contains_prefix in E. congruence. }
  split.
  - unfold extract_text_from_document. rewrite Hct. monad_unfold.
    rewrite H1, H2', H2, H3, H4. reflexivity.
  - rewrite Hct. unfold allowed_type, ALLOWED_DOCUMENT_TYPES. cbn [existsb].
    destruct (str_eqb declared (py "application/pdf")) eqn:E1.
    { apply str_eqb_eq in E1. subst. vm_compute in H1. discriminate. }
    destruct (str_eqb declared (py "application/msword")) eqn:E2.
    { apply str_eqb_eq in E2. subst. vm_compute in H3. discriminate. }
    destruct (str_eqb declared
                (py "application/vnd.openxmlformats-officedocument.wordprocessingml.document")) eqn:E3.
    { apply str_eqb_eq in E3. subst. vm_compute in H3. discriminate. }
    destruct (str_eqb declared (py "text/plain")) eqn:E4.
    { apply str_eqb_eq in E4. subst. vm_compute in H4. discriminate. }
    reflexivity.
Qed.

End Dispatch.

Section PdfDocument.

Context (env : Env) (document : UploadFile).

Lemma extract_pages_stops good cause rest : forall first text st,
  extract_pages (map returns good ++ raise cause :: rest) first text st
  = ({| db := db st;
        trace := trace st ++ pdf_events first (length good)
                 ++ [PageExtracted (first + length good)];
        job_offer_local := job_offer_local st |},
     raise cause).
Proof.
  induction good as [|page good IH]; intros first text st.
  - cbn [map app extract_pages length pdf_events]. monad_unfold.
    rewrite Nat.add_0_r. reflexivity.
  - cbn [map app extract_pages length pdf_events]. monad_unfold.
    destruct (Nat.eqb (first mod 5) 0); rewrite IH; cbn [db trace job_offer_local];
      rewrite <- !app_assoc; replace (S first + length good)%nat
        with (first + S (length good))%nat by lia; reflexivity.
Qed.

Lemma pdf_dispatch :
  allowed_type (Some (py "application/pdf")) = true
  /\ contains (py "pdf") (lower (py "application/pdf")) = true.
Proof. split; vm_compute; reflexivity. Qed.

Lemma process_pdf_unfold st :
  content_type document = Some (py "application/pdf") ->
  process_document env document st
  = match extract_text_from_pdf env document st with
    | (st', inr extracted_text) =>
      if blank extracted_text
      then (st', raise (HTTPException 400 (Text (py "Could not extract text from document"))))
      else (st', returns (extracted_text, size_kb extracted_text))
    | (st', inl e) =>
      (st', raise (HTTPException 400
                     (Format [] (DocumentProcessingError
                                   (Format (py "Error extracting text from document: ") e)))))
    end.
Proof.
  intros Hct. unfold process_document, validate_document_type, extract_text_from_document.
  rewrite Hct. destruct pdf_dispatch as [Ha Hp]. rewrite Ha. cbn [negb].
  unfold try_except, bind, lift, ret, throw, returns, raise. cbv beta iota. rewrite Hp.
  destruct (extract_text_from_pdf env document st) as [st' [e|text]]; cbn.
  - reflexivity.
  - destruct (blank text); reflexivity.
Qed.

(** X6: when the PDF reader itself fails, the document is refused with
    status 400; the detail carries both prefixes, that of the document and
    that of the PDF, around the reader's message, and no page is begun. *)
Theorem pdf_reader_failure_refused st cause :
  content_type document = Some (py "application/pdf") ->
  pdf_reader env (content document) = raise cause ->
  process_document env document st = (st, raise (pdf_refusal cause)).
Proof.
  intros Hct Hr. rewrite process_pdf_unfold by exact Hct.
  unfold extract_text_from_pdf, try_except, bind, lift, throw. rewrite Hr.
  reflexivity.
Qed.

(** X7: when a page fails to extract, the loop stops at that page: the
    pages after it are not begun, the text of the pages before it is
    dropped, and the document is refused with status 400, the detail
    carrying both prefixes around the page's message. *)
Theorem pdf_page_failure_stops st good cause rest :
  content_type document = Some (py "application/pdf") ->
  pdf_reader env (content document) = returns (map returns good ++ raise cause :: rest) ->
  exists st',
    process_document env document st = (st', raise (pdf_refusal cause))
    /\ trace st' = trace st ++ pdf_events 0 (length good) ++ [PageExtracted (length good)]
    /\ db st' = db st.
Proof.
  intros Hct Hr. rewrite process_pdf_unfold by exact Hct.
  unfold extract_text_from_pdf, try_except, bind, lift, throw. rewrite Hr.
  unfold returns. rewrite extract_pages_stops. unfold raise.
  eexists. split; [reflexivity|]. split; reflexivity.
Qed.

Lemma whitespace_pages_text pages :
  forallb whitespace_only pages = true
  <-> Forall (fun c => isspace c = true) (pages_text pages).
Proof.
  unfold pages_text. induction pages as [|page pages IH]; cbn [forallb map concat].
  - split; [constructor|reflexivity].
  - rewrite andb_true_iff, IH, !Forall_app. unfold whitespace_only.
    rewrite forallb_forall, <- List.Forall_forall. split.
    + intros [Hp Hr]. repeat split; [exact Hp| |exact Hr].
      constructor; [reflexivity|constructor].
    + intros [[Hp _] Hr]. split; assumption.
Qed.

Lemma blank_pages_text pages :
  blank (pages_text pages) = forallb whitespace_only pages.
Proof.
  destruct (forallb whitespace_only pages) eqn:E.
  - apply blank_iff, whitespace_pages_text, E.
  - destruct (blank (pages_text pages)) eqn:B; [|reflexivity].
    apply blank_iff, whitespace_pages_text in B. congruence.
Qed.

(** X8: a PDF whose pages all extract is accepted exactly when some page
    has a character that is not whitespace.  A PDF of pages of whitespace
    only, and a PDF of no page at all, is refused with status 400 after all
    its pages were read. *)
Theorem process_pdf_pages st pages :
  content_type document = Some (py "application/pdf") ->
  pdf_reader env (content document) = returns (map returns pages) ->
  exists st',
    process_document env document st
    = (st',
       if forallb whitespace_only pages
       then raise (HTTPException 400 (Text (py "Could not extract text from document")))
       else returns (pages_text pages, size_kb (pages_text pages)))
    /\ trace st' = trace st ++ pdf_events 0 (length pages)
    /\ db st' = db st.
Proof.
  intros Hct Hr. rewrite process_pdf_unfold by exact Hct.
  unfold extract_text_from_pdf, try_except, bind, lift, throw. rewrite Hr.
  unfold returns. rewrite extract_pages_run. unfold returns. cbv beta iota.
  change ([] ++ pages_text pages) with (pages_text pages). rewrite blank_pages_text.
  eexists. split; [destruct (forallb whitespace_only pages); reflexivity|].
  split; reflexivity.
Qed.

End PdfDocument.

(** ** More on the parser *)


Section FencedAnswer.





















End FencedAnswer.

(** ** More on the client *)

Section Dictionaries.

Lemma str_eqb_refl a : str_eqb a a = true.
Proof. induction a as [|x a IH]; cbn; [reflexivity|]. rewrite N.eqb_refl, IH. reflexivity. Qed.

Lemma dict_get_dict_set k k' v d :
  dict_get k (dict_set k' v d) = if str_eqb k k' then Some v else dict_get k d.
Proof.
  induction d as [|[k0 v0] d IH]; cbn [dict_set dict_get]; [reflexivity|].
  destruct (str_eqb k' k0) eqn:E0; cbn [dict_get].
  - apply str_eqb_eq in E0. subst k0. destruct (str_eqb k k'); reflexivity.
  - destruct (str_eqb k k0) eqn:E1; [|exact IH].
    apply str_eqb_eq in E1. subst k0.
    destruct (str_eqb k k') eqn:E2; [|reflexivity].
    apply str_eqb_eq in E2. subst k'. rewrite str_eqb_refl in E0. discriminate.
Qed.

Lemma dict_get_not_in k (d : list (pystr * json)) :
  ~ In k (map fst d) -> dict_get k d = None.
Proof.
  induction d as [|[k0 v0] d IH]; cbn [map fst dict_get In]; [reflexivity|].
  intros H. destruct (str_eqb k k0) eqn:E.
  - apply str_eqb_eq in E. subst. exfalso. apply H. left. reflexivity.
  - apply IH. intros Hin. apply H. right. exact Hin.
Qed.

(** [payload.update(inputs)] on a dictionary [inputs]: the keys of
    [inputs] take the values of [inputs], the other keys stay. *)
Lemma dict_update_get k (inputs : list (pystr * json)) : forall payload,
  List.NoDup (map fst inputs) ->
  dict_get k (fold_left (fun d kv => dict_set (fst kv) (snd kv) d) inputs payload)
  = match dict_get k inputs with
    | Some v => Some v
    | None => dict_get k payload
    end.
Proof.
  induction inputs as [|[k0 v0] inputs IH]; intros payload Hnd; cbn [fold_left dict_get fst snd].
  - reflexivity.
  - inversion Hnd as [|? ? Hnot Hnd']; subst. rewrite (IH _ Hnd'), dict_get_dict_set.
    destruct (str_eqb k k0) eqn:E.
    + apply str_eqb_eq in E. subst k0. rewrite (dict_get_not_in _ _ Hnot). reflexivity.
    + reflexivity.
Qed.

End Dictionaries.

Section Client.

Context (env : Env).

(** One request goes out, and what is raised is a [LangflowError]. *)
Lemma request_outcome self options st :
  exists outcome,
    LangflowClient.request env self options st = (sent self options st, outcome)
    /\ forall e, outcome = raise e -> is_LangflowError e = true.
Proof.
  unfold LangflowClient.request, sent. monad_unfold.
  destruct (httpx_send env (LangflowClient.outgoing self options)) as [e|response].
  - destruct (is_TimeoutException e) eqn:E1; [|destruct (is_RequestError e) eqn:E2;
      [|destruct (is_LangflowError e) eqn:E3]];
      (eexists; split; [reflexivity|]; intros e' He'; inversion He'; subst; auto).
  - destruct (is_success response); cbn [negb].
    + destruct (loads (text response)) as [e|data] eqn:L.
      * apply loads_raises in L. subst e. cbn.
        eexists; split; [reflexivity|]. intros e' He'. inversion He'. reflexivity.
      * eexists; split; [reflexivity|]. intros e' He'. discriminate.
    + cbn. eexists; split; [reflexivity|]. intros e' He'. inversion He'. reflexivity.
Qed.

(** X9: whatever the transport and the remote service do, [request]
    sends one request and no more, and an exception that comes out of it
    is a [LangflowError] or its subclass [LangflowRequestError]: no
    exception of the transport or of the JSON decoder gets out as it is. *)
Theorem request_sends_once self options st :
  exists outcome,
    LangflowClient.request env self options st = (sent self options st, outcome)
    /\ forall e, outcome = raise e -> is_LangflowError e = true.
Proof. apply request_outcome. Qed.

(** X10: running a flow sends one [POST] to the path [/run/] and the
    flow's identifier under the base address and the base path.  The
    content type is always JSON, whatever the default headers of the client
    say, and the API key goes with it when the client has one.  The body is
    the inputs together with the tweaks of the flow; the tweaks of the flow
    are dropped when the inputs have a [tweaks] key of their own. *)
Theorem run_sends_one_post flow inputs st :
  List.NoDup (map fst inputs) ->
  exists req payload outcome,
    Flow.run env flow inputs st
    = ({| db := db st; trace := trace st ++ [HttpSent req];
          job_offer_local := job_offer_local st |}, outcome)
    /\ method req = py "POST"
    /\ url req = base_url (client flow) ++ base_path (client flow) ++ py "/run/" ++ flow_id flow
    /\ headers req !! py "Content-Type" = Some (py "application/json")
    /\ (forall c key, api_key (client flow) = Some (c :: key) ->
          headers req !! py "x-api-key" = Some (c :: key))
    /\ body req = Some (JObj payload)
    /\ (forall k, dict_get k payload
                  = match dict_get k inputs with
                    | Some v => Some v
                    | None => if str_eqb k (py "tweaks") then Some (JObj (tweaks flow)) else None
                    end).
Proof.
  intros Hnd. unfold Flow.run.
  match goal with
  | |- context [LangflowClient.request env ?c ?o st] =>
    destruct (request_outcome c o st) as (outcome & Hrun & _); set (options := o) in *
  end.
  exists (LangflowClient.outgoing (client flow) options).
  eexists. exists outcome. split; [exact Hrun|].
  assert (Hpost : str_eqb (upper (py "POST")) (py "GET") = false) by (vm_compute; reflexivity).
  unfold LangflowClient.outgoing. cbn [RequestOptions.method options]. rewrite Hpost.
  cbn [method url headers body RequestOptions.path RequestOptions.headers
       RequestOptions.body options default].
  split; [reflexivity|]. split; [reflexivity|]. split; [|split; [|split; [reflexivity|]]].
  - unfold LangflowClient._set_headers.
    assert (Hu : (({[py "Content-Type" := py "application/json"]} : gmap pystr pystr)
                  ∪ default_headers (client flow)) !! py "Content-Type"
                 = Some (py "application/json")).
    { apply lookup_union_Some_l. apply lookup_singleton_eq. }
    destruct (api_key (client flow)) as [[|c k]|]; try exact Hu.
    rewrite lookup_insert_ne; [exact Hu|]. vm_compute. discriminate.
  - intros c key Hk. unfold LangflowClient._set_headers. rewrite Hk.
    apply lookup_insert_eq.
  - intros k. rewrite (dict_update_get k inputs _ Hnd). reflexivity.
Qed.

End Client.

Section BlankBody.

Lemma isspace_range c : isspace c = true -> c <= 32 \/ 133 <= c.
Proof.
  unfold isspace. intros H.
  destruct (N.le_gt_cases c 32) as [Hle|Hgt]; [left; exact Hle|right].
  destruct (N.le_gt_cases 133 c) as [Hge|Hlt]; [exact Hge|exfalso].
  repeat (apply orb_prop in H as [H|H]);
    repeat match goal with
           | H : (_ && _) = true |- _ => apply andb_prop in H as [? ?]
           | H : (_ <=? _) = true |- _ => apply N.leb_le in H
           | H : (_ =? _) = true |- _ => apply N.eqb_eq in H
           end; lia.
Qed.

(** No JSON value begins with whitespace. *)
Lemma scan_space fuel c r : isspace c = true -> scan_once (S fuel) (c :: r) = Malformed.
Proof.
  intros Hs. apply isspace_range in Hs.
  assert (E : forall k, 33 <= k <= 132 -> (c =? k) = false)
    by (intros; apply N.eqb_neq; lia).
  assert (E' : forall k, 33 <= k <= 132 -> (k =? c) = false)
    by (intros; apply N.eqb_neq; lia).
  assert (Hd : is_digit c = false).
  { unfold is_digit. destruct Hs.
    - replace (48 <=? c) with false; [reflexivity|]. symmetry. apply N.leb_gt. lia.
    - replace (c <=? 57) with false; [apply andb_false_r|]. symmetry. apply N.leb_gt. lia. }
  cbn [scan_once]. unfold is_dquote, dquote, is_char.
  rewrite !E by (split; vm_compute; discriminate).
  unfold scan_scalar.
  change (py "null") with (110 :: py "ull").
  change (py "true") with (116 :: py "rue").
  change (py "false") with (102 :: py "alse").
  change (py "NaN") with (78 :: py "aN").
  change (py "Infinity") with (73 :: py "nfinity").
  change (py "-Infinity") with (45 :: py "Infinity").
  cbn [strip_prefix]. rewrite !E' by lia.
  unfold match_number, is_char. rewrite E by (split; vm_compute; discriminate).
  unfold match_integer, is_char. rewrite E by (split; vm_compute; discriminate).
  rewrite Hd. reflexivity.
Qed.

Lemma skip_ws_blank s :
  Forall (fun c => isspace c = true) s -> Forall (fun c => isspace c = true) (skip_ws s).
Proof.
  induction 1 as [|c r Hc Hr IH]; cbn [skip_ws]; [constructor|].
  destruct (is_ws c); [exact IH|constructor; assumption].
Qed.

(** A blank text is no JSON text. *)
Lemma loads_blank s : blank s = true -> loads s = raise JSONDecodeError.
Proof.
  intros Hb. apply blank_iff in Hb. unfold loads, decode.
  destruct (startswith byte_order_mark s); [reflexivity|].
  apply skip_ws_blank in Hb. unfold fuel_for.
  replace (2 * length s + 2)%nat with (S (2 * length s + 1)) by lia.
  destruct (skip_ws s) as [|c r]; [reflexivity|].
  inversion Hb; subst. rewrite scan_space by assumption. reflexivity.
Qed.

Context (env : Env) (self : LangflowClient) (options : RequestOptions.t).

(** X24: an answer of status 2xx is not enough for [request] to return.
    When the body of the answer is empty or blank, as that of a 204, the
    call raises a [LangflowRequestError], the error of the transport
    failures, with the message [Unexpected error: ] around the error of the
    JSON decoder. *)
Theorem blank_answer_raises st response :
  httpx_send env (LangflowClient.outgoing self options) = returns response ->
  is_success response = true ->
  blank (text response) = true ->
  LangflowClient.request env self options st
  = (sent self options st,
     raise (LangflowRequestError (Format (py "Unexpected error: ") JSONDecodeError)
              JSONDecodeError)).
Proof.
  intros Hsend Hs Hb. rewrite (request_success env self options st response Hsend Hs).
  rewrite (loads_blank _ Hb). reflexivity.
Qed.

End BlankBody.


Section Streaming.

(** X19: a streaming call never goes out.  Whatever the client and the
    options, the [await] of [client.stream(...)] raises a [TypeError],
    which the last handler wraps: the call raises a [LangflowRequestError]
    whose message opens with [Unexpected stream error], no request is sent,
    no status is looked at and no line is decoded. *)
Theorem stream_raises_before_sending self options st :
  Stream.stream self options st
  = (st, raise (LangflowRequestError (Format (py "Unexpected stream error: ") TypeError)
                  TypeError)).
Proof. reflexivity. Qed.

End Streaming.

(** ** More on [bulk_create] *)

Section BulkCreateOutcome.

Context (env : Env) (job_offer_id' : Z).

(** What the first loop of [bulk_create] does, on any items: it touches
    nothing but the session, to which it adds the rows it built, and it
    returns them all when it returns. *)
Lemma add_skills_outcome items : forall db_skills st st' outcome,
  JobOfferSkillRepository.add_skills job_offer_id' items db_skills st = (st', outcome) ->
  job_offers (db st') = job_offers (db st)
  /\ job_offers_skills (db st') = job_offers_skills (db st)
  /\ next_id (db st') = next_id (db st)
  /\ trace st' = trace st
  /\ job_offer_local st' = job_offer_local st
  /\ exists added,
       pending (db st') = pending (db st) ++ added
       /\ rows_of job_offer_id' added
       /\ match outcome with
          | inr rows => rows = db_skills ++ added /\ length added = length items
          | inl e => (length added < length items)%nat
          end.
Proof.
  induction items as [|skill_data rest IH]; intros db_skills st st' outcome H.
  - cbn in H. inversion H; subst. repeat split. exists [].
    rewrite !app_nil_r. repeat split. constructor.
  - cbn [JobOfferSkillRepository.add_skills] in H.
    unfold bind at 1 in H. unfold lift at 1 in H.
    destruct (getitem skill_data (py "skill")) as [e|v1].
    { inversion H; subst. repeat split. exists []. rewrite app_nil_r.
      repeat split; [constructor|cbn; lia]. }
    unfold bind at 1 in H. unfold lift at 1 in H.
    destruct (getitem skill_data (py "expertise_level")) as [e|v2].
    { inversion H; subst. repeat split. exists []. rewrite app_nil_r.
      repeat split; [constructor|cbn; lia]. }
    unfold bind at 1 in H. unfold lift at 1 in H.
    destruct (getitem skill_data (py "priority")) as [e|v3].
    { inversion H; subst. repeat split. exists []. rewrite app_nil_r.
      repeat split; [constructor|cbn; lia]. }
    unfold bind at 1, JobOfferSkillRepository.db_add in H. monad_unfold.
    apply IH in H. cbn [db trace job_offer_local job_offers job_offers_skills next_id pending] in H.
    destruct H as (H1 & H2 & H3 & H4 & H5 & added & H6 & H7 & H8).
    repeat split; try assumption.
    eexists (_ :: added). rewrite H6, <- app_assoc. split; [reflexivity|].
    split; [constructor; [reflexivity|exact H7]|].
    destruct outcome as [e|rows].
    + cbn [length]. lia.
    + destruct H8 as [H8 H9]. rewrite H8, <- app_assoc. split; [reflexivity|].
      cbn [length]. lia.
Qed.

(** What [bulk_create] does, on any value and whatever fails. *)
Lemma bulk_create_outcome skills st st' outcome :
  JobOfferSkillRepository.bulk_create env job_offer_id' skills st = (st', outcome) ->
  job_offers (db st') = job_offers (db st)
  /\ next_id (db st') = next_id (db st)
  /\ trace st' = trace st ++ [RepoBulkCreate job_offer_id']
  /\ job_offer_local st' = job_offer_local st
  /\ match outcome with
     | inr rows =>
       job_offers_skills (db st') = job_offers_skills (db st) ++ pending (db st) ++ rows
       /\ pending (db st') = []
       /\ rows_of job_offer_id' rows
       /\ exists items, iterate skills = returns items /\ length rows = length items
     | inl e =>
       exists added,
         rows_of job_offer_id' added
         /\ ((job_offers_skills (db st') = job_offers_skills (db st)
              /\ pending (db st') = pending (db st) ++ added)
             \/ (db_fault env CallCommitSkills = Some e
                 /\ fault_in_refresh env = true
                 /\ added <> []
                 /\ job_offers_skills (db st')
                    = job_offers_skills (db st) ++ pending (db st) ++ added
                 /\ pending (db st') = []
                 /\ exists items,
                      iterate skills = returns items /\ length added = length items))
     end.
Proof.
  unfold JobOfferSkillRepository.bulk_create. intros H.
  unfold bind at 1, emit at 1 in H. unfold bind at 1, lift at 1 in H.
  destruct (iterate skills) as [e|items] eqn:Hit.
  { inversion H; subst. cbn. repeat split. exists []. split; [constructor|].
    left. rewrite app_nil_r. split; reflexivity. }
  unfold bind at 1 in H.
  destruct (JobOfferSkillRepository.add_skills job_offer_id' items []
              {| db := db st; trace := trace st ++ [RepoBulkCreate job_offer_id'];
                 job_offer_local := job_offer_local st |})
    as [st1 [e|rows]] eqn:Hadd;
    apply add_skills_outcome in Hadd;
    cbn [db trace job_offer_local] in Hadd;
    destruct Hadd as (H1 & H2 & H3 & H4 & H5 & added & H6 & H7 & H8).
  { inversion H; subst. repeat split; try assumption. exists added.
    split; [assumption|]. left. split; assumption. }
  destruct H8 as [H8 H9]. cbn [app] in H8. subst rows.
  unfold JobOfferSkillRepository.db_commit in H. monad_unfold.
  destruct (db_fault env CallCommitSkills) as [fault|] eqn:Hfault.
  - destruct added as [|k added'] eqn:Hadded.
    { inversion H; subst. repeat split; try assumption. exists [].
      split; [assumption|]. left. split; assumption. }
    destruct (fault_in_refresh env) eqn:Hrefresh.
    + inversion H; subst. cbn [db trace job_offer_local job_offers job_offers_skills
                                next_id pending].
      repeat split; try assumption. exists (k :: added'). split; [assumption|].
      right. repeat split; try reflexivity.
      * discriminate.
      * rewrite H2, H6. reflexivity.
      * exists items. split; [reflexivity|exact H9].
    + inversion H; subst. repeat split; try assumption. exists (k :: added').
      split; [assumption|]. left. split; assumption.
  - inversion H; subst. cbn [db trace job_offer_local job_offers job_offers_skills
                              next_id pending].
    repeat split; try assumption.
    + rewrite H2, H6. reflexivity.
    + exists items. split; [reflexivity|exact H9].
Qed.


(** X12: the parser may hand over a value that is not a list.  On
    [None], a number or a boolean, [bulk_create] raises a [TypeError]; on a
    text or a dictionary it goes over the characters or the keys, and
    raises a [TypeError] at the first one: only the empty text and the
    empty dictionary pass, and commit no row. *)
Theorem bulk_create_of_no_list skills st :
  is_list skills = false ->
  exists st',
    JobOfferSkillRepository.bulk_create env job_offer_id' skills st
    = (st',
       match skills with
       | JStr [] | JObj [] =>
         match db_fault env CallCommitSkills with
         | Some fault => raise fault
         | None => returns []
         end
       | _ => raise TypeError
       end).
Proof.
  intros Hl. unfold JobOfferSkillRepository.bulk_create, JobOfferSkillRepository.db_commit.
  destruct skills as [| | | |s|items|d]; try discriminate;
    try (eexists; cbn [iterate]; monad_unfold; reflexivity).
  - destruct s as [|c s]; cbn [iterate map JobOfferSkillRepository.add_skills getitem];
      monad_unfold.
    + destruct (db_fault env CallCommitSkills); eexists; reflexivity.
    + eexists; reflexivity.
  - destruct d as [|[k v] d]; cbn [iterate map JobOfferSkillRepository.add_skills getitem];
      monad_unfold.
    + destruct (db_fault env CallCommitSkills); eexists; reflexivity.
    + eexists; reflexivity.
Qed.

End BulkCreateOutcome.

(** ** More on the pipeline *)

Section Pipeline.

Context (env : Env) (settings : Settings) (langflow_client : LangflowClient).
Context (title : pystr) (document : UploadFile) (d : DB).

Lemma run_outcome flow inputs st :
  exists outcome,
    Flow.run env flow inputs st
    = ({| db := db st; trace := trace st ++ [HttpSent (run_request flow inputs)];
          job_offer_local := job_offer_local st |}, outcome).
Proof.
  destruct (request_outcome env (client flow) (run_options flow inputs) st)
    as (outcome & H & _).
  exists outcome. exact H.
Qed.






(** X14: when the removal of the record fails in its turn, the caller
    does not get the server error of [create_job_offer] but the exception of
    the removal, and the record created stays in the table. *)
Theorem removal_failure_leaves_record st' e j fault :
  create_job_offer env settings langflow_client title document (enter d) = (st', raise e) ->
  job_offer_local st' = Some j ->
  db_fault env CallRemove = Some fault ->
  e = fault
  /\ job_offers (db st') = job_offers d ++ [j]
  /\ id j = next_id d.
Proof.
  intros H Hl Hf. unfold create_job_offer, try_except in H.
  destruct (create_job_offer_body env settings langflow_client title document (enter d))
    as [st1 [cause|v]] eqn:Hbody; [|discriminate].
  pose proof (create_job_offer_body_exit env settings langflow_client title document d
                _ _ _ (enter_before_creation d) Hbody) as (_ & Hexit).
  cbv beta iota in Hexit.
  unfold JobOfferRepository.remove in H. monad_unfold. monad_unfold. rewrite Hf in H.
  destruct (job_offer_local st1) as [j1|] eqn:E1.
  - inversion H; subst. cbn [job_offer_local db] in *. rewrite E1 in Hl.
    inversion Hl; subst. destruct Hexit as (Hrows & Hid & _). repeat split; assumption.
  - inversion H; subst. congruence.
Qed.


(** A flow that returns got a 2xx answer whose body decodes to what it
    returns. *)
Lemma run_returns flow inputs st st1 data :
  Flow.run env flow inputs st = (st1, returns data) ->
  st1 = {| db := db st; trace := trace st ++ [HttpSent (run_request flow inputs)];
           job_offer_local := job_offer_local st |}
  /\ exists response,
       httpx_send env (run_request flow inputs) = returns response
       /\ is_success response = true
       /\ loads (text response) = returns data.
Proof.
  intros H. destruct (run_outcome flow inputs st) as (o & Ho).
  rewrite Ho in H. injection H as <- ->. split; [reflexivity|].
  unfold Flow.run, LangflowClient.request in Ho. fold (run_options flow inputs) in Ho.
  fold (run_request flow inputs) in Ho. monad_unfold.
  destruct (httpx_send env (run_request flow inputs)) as [e|response].
  - destruct (is_TimeoutException e), (is_RequestError e), (is_LangflowError e);
      discriminate.
  - exists response. destruct (is_success response); cbn [negb] in Ho; [|discriminate].
    destruct (loads (text response)) as [e|data'] eqn:L.
    + apply loads_raises in L. subst e. discriminate.
    + injection Ho as ->. repeat split.
Qed.

(** X15: what a run of [create_job_offer] that returns has done.  The
    document was accepted and uploaded; each flow got a 2xx answer whose
    body decodes to an envelope with the designated leaf; the record has
    the next identifier, the given title, the summary of the first flow and
    the name of the uploaded object; the rows of the skills parsed from the
    second flow were committed for that identifier; the answer carries the
    identifier, the title and the two leaves as they came; and the trace is
    the extraction followed by the five steps, without any removal. *)
Theorem create_job_offer_returns st' v :
  create_job_offer env settings langflow_client title document (enter d) = (st', returns v) ->
  exists st0 extracted_text text_size_kb object_name summary_answer skills_answer
         summary_result skills_result summary_text skills_text obj_in skills rows,
    process_document env document (enter d) = (st0, returns (extracted_text, text_size_kb))
    /\ minio_upload env document (MINIO_JOB_OFFERS_BUCKET_NAME settings) = returns object_name
    /\ httpx_send env (run_request (summary_flow settings langflow_client extracted_text) text_io)
       = returns summary_answer
    /\ is_success summary_answer = true
    /\ loads (text summary_answer) = returns summary_result
    /\ httpx_send env
         (run_request (skills_extraction_flow settings langflow_client extracted_text) text_io)
       = returns skills_answer
    /\ is_success skills_answer = true
    /\ loads (text skills_answer) = returns skills_result
    /\ leaf_text summary_result = returns summary_text
    /\ leaf_text skills_result = returns skills_text
    /\ JobOfferCreate.make title summary_text object_name = returns obj_in
    /\ parse_skills_value skills_text = returns skills
    /\ JobOfferCreate.title obj_in = title
    /\ JobOfferCreate.storage_url obj_in = Some object_name
    /\ let job_offer := created_row (next_id d) obj_in in
       v = created_response job_offer summary_text skills_text
       /\ job_offers (db st') = job_offers d ++ [job_offer]
       /\ next_id (db st') = (next_id d + 1)%Z
       /\ job_offers_skills (db st') = job_offers_skills d ++ pending d ++ rows
       /\ rows_of (next_id d) rows
       /\ (exists items, iterate skills = returns items /\ length rows = length items)
       /\ job_offer_local st' = Some job_offer
       /\ trace st'
          = trace st0
            ++ steps_after_extraction settings langflow_client extracted_text (next_id d).
Proof.
  intros H. unfold create_job_offer, try_except in H.
  destruct (create_job_offer_body env settings langflow_client title document (enter d))
    as [st1 [cause|v1]] eqn:Hbody.
  { unfold bind at 1, lookup_job_offer in H.
    destruct (job_offer_local st1); unfold JobOfferRepository.remove in H;
      monad_unfold; monad_unfold; [destruct (db_fault env CallRemove)|]; discriminate. }
  injection H as <- <-. rename Hbody into H.
  unfold create_job_offer_body in H. unfold bind at 1 in H.
  destruct (process_document env document (enter d)) as [st0 [e|[extracted_text size]]] eqn:Hpd;
    [discriminate|].
  destruct (process_document_frame env document _ _ _ Hpd) as (Hd & Hl & _).
  cbn in Hd, Hl. destruct st0 as [d0 tr0 l0]. cbn in Hd, Hl. subst d0 l0.
  fold (summary_flow settings langflow_client extracted_text) in H.
  fold (skills_extraction_flow settings langflow_client extracted_text) in H.
  unfold bind at 1, emit at 1 in H. cbn [db trace job_offer_local] in H.
  unfold bind at 1, lift at 1 in H.
  destruct (minio_upload env document (MINIO_JOB_OFFERS_BUCKET_NAME settings))
    as [e|object_name] eqn:Hup; [discriminate|].
  unfold bind at 1 in H.
  match type of H with context [Flow.run env ?f ?i ?s] =>
    destruct (Flow.run env f i s) as [s1 [e|summary_result]] eqn:Hr1 end; [discriminate|].
  apply run_returns in Hr1 as (-> & summary_answer & Ha1 & Hs1 & Hl1).
  cbn [db trace job_offer_local] in H.
  unfold bind at 1 in H.
  match type of H with context [Flow.run env ?f ?i ?s] =>
    destruct (Flow.run env f i s) as [s2 [e|skills_result]] eqn:Hr2 end; [discriminate|].
  apply run_returns in Hr2 as (-> & skills_answer & Ha2 & Hs2 & Hl2).
  cbn [db trace job_offer_local] in H.
  unfold bind at 1, lift at 1 in H.
  destruct (leaf_text summary_result) as [e|summary_text] eqn:Hleaf1; [discriminate|].
  unfold bind at 1, lift at 1 in H.
  destruct (leaf_text skills_result) as [e|skills_text] eqn:Hleaf2; [discriminate|].
  unfold bind at 1, lift at 1 in H.
  destruct (JobOfferCreate.make title summary_text object_name) as [e|obj_in] eqn:Hmake;
    [discriminate|].
  unfold JobOfferRepository.create in H. monad_unfold. monad_unfold.
  destruct (db_fault env CallCreate) as [fault|]; [discriminate|].
  cbn [db trace job_offer_local id] in H.
  destruct (parse_skills_value skills_text) as [e|skills] eqn:Hparse; [discriminate|].
  cbv beta iota in H.
  match type of H with context [JobOfferSkillRepository.bulk_create env ?i ?s ?st] =>
    destruct (JobOfferSkillRepository.bulk_create env i s st) as [st2 [e|rows]] eqn:Hb end;
    [discriminate|].
  apply bulk_create_outcome in Hb.
  cbn [db trace job_offer_local job_offers job_offers_skills next_id pending] in Hb.
  destruct Hb as (Hb1 & Hb2 & Hb3 & Hb4 & Hb5 & Hb6 & Hb7 & Hb8).
  destruct (db_fault env CallLoad) as [fault|]; [discriminate|].
  injection H as <- <-.
  assert (Htitle : JobOfferCreate.title obj_in = title
                   /\ JobOfferCreate.storage_url obj_in = Some object_name).
  { unfold JobOfferCreate.make in Hmake.
    destruct summary_text; try discriminate; injection Hmake as <-; split; reflexivity. }
  destruct Htitle as [Ht1 Ht2]. fold (created_row (next_id d) obj_in) in *.
  exists {| db := d; trace := tr0; job_offer_local := None |}, extracted_text, size,
    object_name, summary_answer, skills_answer, summary_result, skills_result,
    summary_text, skills_text, obj_in, skills, rows.
  repeat (split; [first [reflexivity|assumption]|]).
  cbv zeta. repeat split; try assumption.
  rewrite Hb3, <- !app_assoc. reflexivity.
Qed.


(** X16: when the summary flow answers with a status that is not 2xx,
    [create_job_offer] stops there: the skills flow is not requested, no
    record is created, and the caller gets the server error around the
    [LangflowError] of the client.  The document is uploaded by then, and
    nothing refers to the stored object any more. *)
Theorem summary_flow_failure_stops st0 extracted_text text_size_kb object_name response :
  process_document env document (enter d) = (st0, returns (extracted_text, text_size_kb)) ->
  minio_upload env document (MINIO_JOB_OFFERS_BUCKET_NAME settings) = returns object_name ->
  httpx_send env (run_request (summary_flow settings langflow_client extracted_text) text_io)
  = returns response ->
  is_success response = false ->
  create_job_offer env settings langflow_client title document (enter d)
  = ({| db := d;
        trace := trace st0
                 ++ [ Uploaded (MINIO_JOB_OFFERS_BUCKET_NAME settings);
                      HttpSent (run_request (summary_flow settings langflow_client
                                               extracted_text) text_io) ];
        job_offer_local := None |},
     raise (surfaced
              (LangflowError
                 (Text (str_int (status_code response) ++ py " - " ++ reason_phrase response))
                 (Some response)))).
Proof.
  intros Hpd Hup Hsend Hs.
  destruct (process_document_frame env document _ _ _ Hpd) as (Hd & Hl & _).
  cbn in Hd, Hl. destruct st0 as [d0 tr0 l0]. cbn in Hd, Hl. subst d0 l0.
  unfold create_job_offer, try_except, create_job_offer_body.
  unfold returns in Hpd, Hup.
  unfold bind at 1. rewrite Hpd. cbv beta iota.
  fold (summary_flow settings langflow_client extracted_text).
  unfold bind at 1, emit at 1. cbn [db trace job_offer_local]. unfold returns at 1.
  cbv beta iota.
  unfold bind at 1, lift at 1. rewrite Hup. cbv beta iota.
  unfold bind at 1.
  pose proof (request_error_status env
                (client (summary_flow settings langflow_client extracted_text))
                (run_options (summary_flow settings langflow_client extracted_text) text_io)
                {| db := d;
                   trace := tr0 ++ [Uploaded (MINIO_JOB_OFFERS_BUCKET_NAME settings)];
                   job_offer_local := None |} response Hsend Hs) as Hrun.
  change (LangflowClient.request env
            (client (summary_flow settings langflow_client extracted_text))
            (run_options (summary_flow settings langflow_client extracted_text) text_io))
    with (Flow.run env (summary_flow settings langflow_client extracted_text) text_io) in Hrun.
  unfold returns, raise in *. rewrite Hrun.
  unfold sent, bind, lookup_job_offer, ret, throw, surfaced, returns.
  cbn [db trace job_offer_local]. rewrite <- app_assoc. reflexivity.
Qed.

End Pipeline.



(** ** The position in the file *)

Section FilePosition.

Context (env : Env) (minio_service : MinioService.t).

Lemma read_from_start file :
  File.read (File.seek file 0) = (content (File.upload file), File.at_end (File.upload file)).
Proof. unfold File.read, File.seek, File.at_end. cbn. reflexivity. Qed.

Lemma read_at_end document : File.read (File.at_end document) = ([], File.at_end document).
Proof.
  unfold File.read, File.at_end. cbn [File.position File.upload].
  rewrite skipn_all, Nat.max_id. reflexivity.
Qed.

Lemma extract_text_from_pdf_position file st :
  Cursor.extract_text_from_pdf env file st
  = match extract_text_from_pdf env (File.upload file) st with
    | (st', inr text) => (st', inr (text, File.at_end (File.upload file)))
    | (st', inl e) => (st', inl e)
    end.
Proof.
  unfold Cursor.extract_text_from_pdf, extract_text_from_pdf. rewrite read_from_start.
  monad_unfold. destruct (pdf_reader env (content (File.upload file))) as [e|pages];
    [reflexivity|].
  destruct (extract_pages pages 0 [] st) as [st' [e|text]]; reflexivity.
Qed.

Lemma extract_text_from_document_position file st :
  Cursor.extract_text_from_document env file st
  = match extract_text_from_document env (File.upload file) st with
    | (st', inr text) => (st', inr (text, File.at_end (File.upload file)))
    | (st', inl e) => (st', inl e)
    end.
Proof.
  unfold Cursor.extract_text_from_document, extract_text_from_document.
  rewrite read_from_start. monad_unfold.
  destruct (content_type (File.upload file)) as [t|]; [|reflexivity].
  destruct (contains (py "pdf") (lower t)).
  { rewrite extract_text_from_pdf_position.
    destruct (extract_text_from_pdf env (File.upload file) st) as [st' [e|text]]; reflexivity. }
  destruct (contains (py "docx") (lower t) || contains (py "doc") (lower t)
            || contains (py "word") (lower t)); [reflexivity|].
  destruct (contains (py "text/plain") (lower t)); [|reflexivity].
  destruct (Utf8.decode (content (File.upload file))) as [e|text]; reflexivity.
Qed.

(** The position is at the end of the file whenever the document is
    accepted, wherever it was before. *)
Lemma process_document_position file st :
  Cursor.process_document env file st
  = match process_document env (File.upload file) st with
    | (st', inr extracted) => (st', inr (extracted, File.at_end (File.upload file)))
    | (st', inl e) => (st', inl e)
    end.
Proof.
  unfold Cursor.process_document, process_document, validate_document_type.
  monad_unfold.
  destruct (negb (allowed_type (content_type (File.upload file)))); [reflexivity|].
  rewrite extract_text_from_document_position.
  destruct (extract_text_from_document env (File.upload file) st) as [st' [e|text]].
  - destruct (is_DocumentProcessingError e), (is_HTTPException e); reflexivity.
  - destruct (blank text); reflexivity.
Qed.

Lemma upload_at_end document bucket_name :
  MinioService.upload_file minio_service (File.at_end document) bucket_name
  = (minio_upload (storing_empty env minio_service) document bucket_name,
     File.at_end document).
Proof.
  unfold MinioService.upload_file. rewrite read_at_end.
  cbn [File.upload File.at_end storing_empty minio_upload].
  unfold empty_object. cbn [PutObject.object_name List.length].
  destruct (MinioService.put_object minio_service _); reflexivity.
Qed.


(** X20: [process_document] reads the file from its start wherever the
    position was, so that its outcome is that of the document as a whole;
    and when it accepts the document it leaves the position at the end of
    the file. *)
Theorem process_document_reads_whole_file file st :
  Cursor.process_document env file st
  = match process_document env (File.upload file) st with
    | (st', inr extracted) => (st', inr (extracted, File.at_end (File.upload file)))
    | (st', inl e) => (st', inl e)
    end.
Proof. apply process_document_position. Qed.

Lemma create_job_offer_body_position settings langflow_client title file st :
  Cursor.create_job_offer_body env minio_service settings langflow_client title file st
  = create_job_offer_body (storing_empty env minio_service) settings langflow_client title
      (File.upload file) st.
Proof.
  unfold Cursor.create_job_offer_body, create_job_offer_body.
  unfold bind at 1. unfold bind at 13.
  rewrite process_document_position.
  change (process_document (storing_empty env minio_service) (File.upload file) st)
    with (process_document env (File.upload file) st).
  destruct (process_document env (File.upload file) st) as [st' [e|[text kb]]];
    [reflexivity|].
  cbv beta iota. rewrite upload_at_end. reflexivity.
Qed.

(** X21: [create_job_offer] uploads the document after [process_document]
    has read it to its end, and resets the position only after the upload:
    the upload reads no byte.  Whatever the document, the pipeline runs as
    the one whose upload stores an object of length zero under the name
    drawn for it, with the content type of the document. *)
Theorem create_job_offer_stores_empty_object settings langflow_client title file st :
  Cursor.create_job_offer env minio_service settings langflow_client title file st
  = create_job_offer (storing_empty env minio_service) settings langflow_client title
      (File.upload file) st.
Proof.
  unfold Cursor.create_job_offer, create_job_offer, try_except.
  rewrite create_job_offer_body_position. reflexivity.
Qed.

End FilePosition.

(** ** The other handlers *)

Section Handlers.

Context (env : Env) (repository : BaseRepository.t) (minio_service : MinioService.t).

(** The stored file is never removed: the name of the bucket is looked up
    in an attribute the service does not have, the exception is caught, and
    [client.remove_object] is not reached. *)
Lemma remove_stored_file_does_nothing storage_url' st :
  remove_stored_file minio_service storage_url' st = (st, returns tt).
Proof. reflexivity. Qed.

(** X22: no call of [update_job_offer] that carries a file with a name
    succeeds.  When the job offer is found and the update of the title and
    of the summary goes through, the call fails with status 400 on a type
    that is not allowed, and with status 500 on a type that is allowed,
    for the upload is called without the name of the bucket; the change of
    the title and of the summary stays, the address of the stored file is
    never updated, and nothing is stored or removed. *)
Theorem update_job_offer_with_file_fails fault job_offer_id title' summary' file replace_file
    st st0 st1 found updated :
  truthy (filename (File.upload file)) = true ->
  BaseRepository.get repository job_offer_id st = (st0, returns (Some found)) ->
  update_basic repository found title' summary' st0 = (st1, returns updated) ->
  update_job_offer repository fault minio_service job_offer_id title' summary' (Some file)
    replace_file st
  = (st1, raise (file_refusal (content_type (File.upload file)))).
Proof.
  intros Hname Hget Hupd. unfold update_job_offer, file_refusal.
  unfold bind at 1. rewrite Hget. unfold returns at 1. cbv beta iota.
  unfold bind at 1. rewrite Hupd. unfold returns at 1. cbv beta iota.
  rewrite Hname.
  destruct (match content_type (File.upload file) with
            | Some t => existsb (str_eqb t) allowed_types
            | None => false
            end); cbn [negb]; [|reflexivity].
  unfold try_except, bind at 1.
  destruct (replace_file && truthy (storage_url updated)); reflexivity.
Qed.

(** X23: [delete_job_offer] never removes the stored file.  Whatever the
    storage would answer, it does what the handler without the removal of
    the file does: status 404 when the job offer is not found, and the
    removal of the record otherwise. *)
Theorem delete_job_offer_keeps_stored_file job_offer_id st :
  delete_job_offer env repository minio_service job_offer_id st
  = (let* job_offer := BaseRepository.get repository job_offer_id in
     match job_offer with
     | None => throw (HTTPException 404 (Text (py "Job offer not found")))
     | Some _ => JobOfferRepository.remove env job_offer_id
     end) st.
Proof.
  unfold delete_job_offer, bind at 1 3.
  destruct (BaseRepository.get repository job_offer_id st) as [st0 [e|[job_offer|]]]; try reflexivity.
  unfold bind at 1. destruct (truthy (storage_url job_offer)); reflexivity.
Qed.

End Handlers.

(** ** The properties above, each on an instance *)

Lemma process_document_raises_400_only_witness :
  (exists detail,
      HTTPException 400 (Text (py "Could not extract text from document"))
      = HTTPException 400 detail)
  /\ untouched is_extraction (enter empty_db) (enter empty_db).
Proof.
  apply (process_document_raises_400_only (reading []) (upload "text/plain" [x20])
           (enter empty_db) (enter empty_db)).
  vm_compute. reflexivity.
Defined.

Lemma process_document_returns_text_witness :
  allowed_type (content_type text_document) = true
  /\ extract_text_from_document (reading []) text_document (enter empty_db)
     = (enter empty_db, returns (py "hi"))
  /\ (exists c, In c (py "hi") /\ isspace c = false)
  /\ (2 # 1024) = Z.of_nat (length (py "hi")) # 1024.
Proof.
  apply (process_document_returns_text (reading []) text_document (enter empty_db)
           (enter empty_db) (py "hi") (2 # 1024)).
  vm_compute. reflexivity.
Defined.

Lemma process_plain_text_witness :
  process_document (reading []) text_document (enter empty_db)
  = (enter empty_db,
     match Utf8.decode (content text_document) with
     | inr extracted_text =>
       if blank extracted_text
       then raise (HTTPException 400 (Text (py "Could not extract text from document")))
       else returns (extracted_text, size_kb extracted_text)
     | inl e =>
       raise (HTTPException 400
                (Format [] (DocumentProcessingError
                              (Format (py "Error extracting text from document: ") e))))
     end).
Proof. apply (process_plain_text (reading []) text_document (enter empty_db)). reflexivity. Defined.

Lemma process_word_document_witness :
  process_document (reading []) (upload "application/msword" []) (enter empty_db)
  = (enter empty_db,
     returns (py "Document content (binary): 0 bytes",
              size_kb (py "Document content (binary): 0 bytes"))).
Proof.
  apply (process_word_document (reading []) (upload "application/msword" []) (enter empty_db)).
  left. reflexivity.
Defined.

Lemma extract_unknown_type_witness :
  extract_text_from_document (reading []) (upload "image/png" [x00]) (enter empty_db)
  = (enter empty_db, returns (py "Unknown document type: image/png, size: 1 bytes"))
  /\ allowed_type (content_type (upload "image/png" [x00])) = false.
Proof.
  apply (extract_unknown_type (reading []) (upload "image/png" [x00]) (enter empty_db)
           (py "image/png")); reflexivity.
Defined.

Lemma pdf_reader_failure_refused_witness :
  process_document (answering (returns server_error)) pdf_document (enter empty_db)
  = (enter empty_db, raise (pdf_refusal (CollaboratorError (py "not a PDF")))).
Proof.
  apply (pdf_reader_failure_refused (answering (returns server_error)) pdf_document
           (enter empty_db)); reflexivity.
Defined.

Lemma pdf_page_failure_stops_witness :
  exists st',
    process_document (stopping_after [py "one"] IndexError) pdf_document (enter empty_db)
    = (st', raise (pdf_refusal IndexError))
    /\ trace st' = [] ++ pdf_events 0 1 ++ [PageExtracted 1]
    /\ db st' = empty_db.
Proof.
  apply (pdf_page_failure_stops (stopping_after [py "one"] IndexError) pdf_document
           (enter empty_db) [py "one"] IndexError [returns (py "last")]); reflexivity.
Defined.

Lemma process_pdf_pages_witness :
  exists st',
    process_document (reading [py " "; []]) pdf_document (enter empty_db)
    = (st', raise (HTTPException 400 (Text (py "Could not extract text from document"))))
    /\ trace st' = [] ++ pdf_events 0 2
    /\ db st' = empty_db.
Proof.
  apply (process_pdf_pages (reading [py " "; []]) pdf_document (enter empty_db) [py " "; []]);
    reflexivity.
Defined.

Lemma run_sends_one_post_witness :
  exists req payload outcome,
    Flow.run (answering (returns server_error))
      (summary_flow example_settings example_client (py "hi")) text_io (enter empty_db)
    = ({| db := empty_db; trace := [] ++ [HttpSent req]; job_offer_local := None |}, outcome)
    /\ method req = py "POST"
    /\ url req = py "localhost:7860" ++ py "/api/v1" ++ py "/run/" ++ py "summary"
    /\ headers req !! py "Content-Type" = Some (py "application/json")
    /\ (forall c key, Some (py "secret") = Some (c :: key) ->
          headers req !! py "x-api-key" = Some (c :: key))
    /\ body req = Some (JObj payload)
    /\ (forall k, dict_get k payload
                  = match dict_get k text_io with
                    | Some v => Some v
                    | None =>
                      if str_eqb k (py "tweaks")
                      then Some (JObj (tweaks (summary_flow example_settings example_client
                                                 (py "hi"))))
                      else None
                    end).
Proof.
  apply (run_sends_one_post (answering (returns server_error))
           (summary_flow example_settings example_client (py "hi")) text_io (enter empty_db)).
  repeat constructor; cbn; intuition discriminate.
Defined.


Lemma bulk_create_of_no_list_witness :
  exists st',
    JobOfferSkillRepository.bulk_create (answering (returns server_error)) 1
      (JStr (py "Go")) (enter empty_db)
    = (st', raise TypeError).
Proof.
  apply (bulk_create_of_no_list (answering (returns server_error)) 1 (JStr (py "Go"))
           (enter empty_db)).
  reflexivity.
Defined.


Lemma removal_failure_leaves_record_witness :
  CollaboratorError (py "connection lost") = CollaboratorError (py "connection lost")
  /\ job_offers (db (fst unremoved_run))
     = job_offers empty_db
       ++ [{| id := 1; title := py "Engineer"; summary := Some (py "A summary");
              storage_url := Some (py "object") |}]
  /\ id {| id := 1; title := py "Engineer"; summary := Some (py "A summary");
           storage_url := Some (py "object") |} = next_id empty_db.
Proof.
  apply (removal_failure_leaves_record removal_failing example_settings example_client
           (py "Engineer") text_document empty_db (fst unremoved_run)
           (CollaboratorError (py "connection lost"))
           {| id := 1; title := py "Engineer"; summary := Some (py "A summary");
              storage_url := Some (py "object") |}
           (CollaboratorError (py "connection lost")));
    vm_compute; reflexivity.
Defined.

Lemma create_job_offer_returns_witness :
  exists job_offer rows,
    snd created_run
    = returns (created_response job_offer (JStr (py "A summary"))
                 (JStr (pyq "{'skills':[{'skill':'Go','expertise_level':3,'priority':'high'}]}")))
    /\ job_offers (db (fst created_run)) = [job_offer]
    /\ job_offers_skills (db (fst created_run)) = rows
    /\ length rows = 1%nat
    /\ trace (fst created_run)
       = steps_after_extraction example_settings example_client (py "hi") 1.
Proof.
  destruct (create_job_offer_returns complete_skills example_settings example_client
              (py "Engineer") text_document empty_db (fst created_run)
              (created_response
                 {| id := 1; title := py "Engineer"; summary := Some (py "A summary");
                    storage_url := Some (py "object") |}
                 (JStr (py "A summary"))
                 (JStr (pyq "{'skills':[{'skill':'Go','expertise_level':3,'priority':'high'}]}"))))
    as (st0 & extracted_text & size & object_name & a1 & a2 & r1 & r2 & summary_text
        & skills_text & obj_in & skills & rows & H).
  { vm_compute. reflexivity. }
  eexists. exists (job_offers_skills (db (fst created_run))).
  repeat split; vm_compute; reflexivity.
Defined.

Lemma summary_flow_failure_stops_witness :
  create_job_offer (answering (returns server_error)) example_settings example_client
    (py "Engineer") text_document (enter empty_db)
  = ({| db := empty_db;
        trace := [] ++ [ Uploaded (py "job_offers");
                         HttpSent (run_request (summary_flow example_settings example_client
                                                  (py "hi")) text_io) ];
        job_offer_local := None |},
     raise (surfaced
              (LangflowError (Text (py "500 - Internal Server Error")) (Some server_error)))).
Proof.
  apply (summary_flow_failure_stops (answering (returns server_error)) example_settings
           example_client (py "Engineer") text_document empty_db (enter empty_db) (py "hi")
           (2 # 1024) (py "object") server_error);
    vm_compute; reflexivity.
Defined.


Lemma update_job_offer_with_file_fails_witness :
  update_job_offer table_repository None example_minio 1 (Some (py "Developer")) None
    (Some {| File.upload := pdf_document; File.position := 0 |}) true (enter one_offer)
  = ({| db := {| job_offers := [{| id := 1; title := py "Developer"; summary := None;
                                   storage_url := Some (py "object.pdf") |}];
                 job_offers_skills := []; pending := []; next_id := 2 |};
        trace := []; job_offer_local := None |},
     raise (HTTPException 500 (Format (py "Error handling file: ") TypeError))).
Proof.
  apply (update_job_offer_with_file_fails table_repository example_minio None 1
           (Some (py "Developer")) None
           {| File.upload := pdf_document; File.position := 0 |} true
           (enter one_offer) (enter one_offer) _
           {| id := 1; title := py "Engineer"; summary := None;
              storage_url := Some (py "object.pdf") |}
           {| id := 1; title := py "Developer"; summary := None;
              storage_url := Some (py "object.pdf") |});
    vm_compute; reflexivity.
Defined.

Lemma blank_answer_raises_witness :
  LangflowClient.request (answering (returns no_content)) example_client (example_options None)
    (enter empty_db)
  = (sent example_client (example_options None) (enter empty_db),
     raise (LangflowRequestError (Format (py "Unexpected error: ") JSONDecodeError)
              JSONDecodeError)).
Proof.
  apply (blank_answer_raises (answering (returns no_content)) example_client
           (example_options None) (enter empty_db) no_content); reflexivity.
Defined.

